(** * PARTs_WebAPI: the TBA synchronisation helpers of [src/tba/util.py]

    A shallow embedding of [replace_frc_in_str], [verify_tba_webhook_call],
    [save_message], [get_tba_event], [get_tba_event_teams], [sync_event],
    [save_tba_match] and [sync_matches], with the properties the
    specification states about them.

    Python strings are sequences of code points; they are modelled by
    [string], one character per code point.  The only literal the code
    searches for, ["frc"], is ASCII. *)

From Stdlib Require Import ZArith Ascii String List Lia.
From stdpp Require Import base option list gmap strings pretty.

Local Open Scope string_scope.
Local Open Scope Z_scope.
Set Warnings "-register-all,-clear-no-such-hyp".
Set Default Proof Using "Type".

(** ** Python strings *)

Module PyStr.

(** [s[:n]] *)
Fixpoint take (n : nat) (s : string) : string :=
  match n, s with
  | S k, String c r => String c (take k r)
  | _, _ => ""
  end.

(** [s.startswith(p)] *)
Fixpoint startswith (p s : string) : bool :=
  match p with
  | "" => true
  | String a p' =>
      match s with
      | "" => false
      | String b s' => Ascii.eqb a b && startswith p' s'
      end
  end.

(** [sub in s] *)
Fixpoint contains (sub s : string) : bool :=
  startswith sub s ||
  match s with
  | "" => false
  | String _ r => contains sub r
  end.

(** The scan of [str.replace] for a non-empty [old]: [skip] counts the
    characters of a match that are still to be dropped; outside a match
    the leftmost occurrence is replaced and the scan resumes after it. *)
Fixpoint replace_scan (old new : string) (skip : nat) (s : string) : string :=
  match s with
  | "" => ""
  | String c r =>
      match skip with
      | S k => replace_scan old new k r
      | O =>
          if startswith old s
          then new +:+ replace_scan old new (Nat.pred (String.length old)) r
          else String c (replace_scan old new 0 r)
      end
  end.

(** [new] before every character and at the end: what [str.replace]
    does for the empty pattern. *)
Fixpoint intersperse (new s : string) : string :=
  match s with
  | "" => new
  | String c r => new +:+ String c (intersperse new r)
  end.

(** [s.replace(old, new)] *)
Definition replace (old new s : string) : string :=
  match old with
  | "" => intersperse new s
  | _ => replace_scan old new 0 s
  end.

End PyStr.

(** [replace_frc_in_str], util.py:524 *)
Definition replace_frc_in_str (s : string) : string :=
  PyStr.replace "frc" "" s.

(** ** Python values, exceptions and results *)

(** A parsed JSON document, the value [json.loads] and the request parser
    produce.  The numbers the modelled functions read (team numbers, match
    numbers, scores, timestamps) are integers.  An object lists its keys in
    order; a key is looked up at its first binding. *)
Inductive json :=
| JNull
| JBool (b : bool)
| JNum (z : Z)
| JStr (s : string)
| JList (l : list json)
| JObj (kvs : list (string * json)).

(** The exceptions the modelled code can meet.  [IndexError], [TypeError],
    [AttributeError], [ValueError], [IntegrityError] and the error of a
    request carry their message, the text [str(e)] gives;
    [MultipleObjectsReturned] carries the number of rows that matched. *)
Inductive exn :=
| Exception (arg : json)
| KeyError (key : json)
| IndexError (msg : string)
| TypeError (msg : string)
| AttributeError (msg : string)
| ValueError (msg : string)
| UnknownTimeZoneError (zone : string)
| DoesNotExist (model : string)
| MultipleObjectsReturned (model : string) (n : nat)
| IntegrityError (msg : string)
| RequestError (what : string).

Inductive result (A : Type) :=
| Ok (a : A)
| Raise (e : exn).
Arguments Ok {A} a.
Arguments Raise {A} e.

Definition rbind {A B} (r : result A) (k : A -> result B) : result B :=
  match r with
  | Ok a => k a
  | Raise e => Raise e
  end.

Definition of_option {A} (o : option A) (e : exn) : result A :=
  match o with
  | Some a => Ok a
  | None => Raise e
  end.

(** What the code takes from its libraries and settings: the functions are
    fixed, their results are whatever the library computes. *)
Class PyLib := {
  (** [json.dumps(v, ensure_ascii=True)] *)
  json_dumps : json -> string;
  (** [hmac.new(key.encode("utf-8"), msg.encode("utf-8"), sha256).hexdigest()] *)
  hmac_sha256_hexdigest : string -> string -> string;
  (** [settings.TBA_WEBHOOK_SECRET] *)
  TBA_WEBHOOK_SECRET : string;
  (** [str(v)] for a list or a dict *)
  repr_container : json -> string;
  (** [repr(s)] for a string *)
  repr_str : string -> string;
  (** the text of the exception a library call raises on a value it
      rejects, where the wording is the library's own: of [strptime] and
      [fromtimestamp], and of the database for a row it refuses *)
  error_text : string -> json -> string;
  (** the elements of [set(l)] in the order the set yields them *)
  set_iter : list json -> list json;
  (** [int(s)]; [None] stands for [ValueError] *)
  int_of_str : string -> option Z;
  (** the instant of [datetime.strptime(s, "%Y-%m-%d")] read as local time,
      as [astimezone] reads a naive datetime; [None] stands for [ValueError] *)
  strptime_local : string -> option Z;
  (** whether [pytz.timezone(zone)] knows the zone *)
  tz_known : string -> bool;
  (** whether [datetime.fromtimestamp(t, tz)] is in range *)
  timestamp_ok : Z -> bool;
}.

Module Py.

(** [d\[k\]] for a string key *)
Fixpoint assoc (k : string) (kvs : list (string * json)) : option json :=
  match kvs with
  | [] => None
  | (k', v) :: r => if String.eqb k k' then Some v else assoc k r
  end.

(** [type(v).__name__] *)
Definition type_name (v : json) : string :=
  match v with
  | JNull => "NoneType"
  | JBool _ => "bool"
  | JNum _ => "int"
  | JStr _ => "str"
  | JList _ => "list"
  | JObj _ => "dict"
  end.

(** the messages of the interpreter for an operand of the wrong type *)
Definition no_attribute (v : json) (attr : string) : string :=
  "'" +:+ type_name v +:+ "' object has no attribute '" +:+ attr +:+ "'".

Definition not_subscriptable (v : json) : string :=
  "'" +:+ type_name v +:+ "' object is not subscriptable".

Definition not_iterable (v : json) : string :=
  "'" +:+ type_name v +:+ "' object is not iterable".

Definition no_len (v : json) : string :=
  "object of type '" +:+ type_name v +:+ "' has no len()".

Definition unhashable (v : json) : string :=
  "unhashable type: '" +:+ type_name v +:+ "'".

(** the text for a string indexed by a string is the one of CPython 3.11
    and later *)
Definition getitem (d : json) (k : string) : result json :=
  match d with
  | JObj kvs => of_option (assoc k kvs) (KeyError (JStr k))
  | JStr _ => Raise (TypeError "string indices must be integers, not 'str'")
  | JList _ => Raise (TypeError "list indices must be integers or slices, not str")
  | _ => Raise (TypeError (not_subscriptable d))
  end.

(** [d.get(k, default)] *)
Definition get (d : json) (k : string) (dflt : json) : result json :=
  match d with
  | JObj kvs => Ok (default dflt (assoc k kvs))
  | _ => Raise (AttributeError (no_attribute d "get"))
  end.

(** [l\[i\]] for an index [i >= 0] *)
Definition index (l : json) (i : nat) : result json :=
  match l with
  | JList vs => of_option (vs !! i) (IndexError "list index out of range")
  | JStr s =>
      of_option (JStr <$> (String.get i s ≫= λ c, Some (String c "")))
        (IndexError "string index out of range")
  | JObj kvs => Raise (KeyError (JNum (Z.of_nat i)))
  | _ => Raise (TypeError (not_subscriptable l))
  end.

(** [len(v)] *)
Definition len (v : json) : result nat :=
  match v with
  | JList vs => Ok (length vs)
  | JStr s => Ok (String.length s)
  | JObj kvs => Ok (length kvs)
  | _ => Raise (TypeError (no_len v))
  end.

(** the elements [for x in v] visits *)
Definition iter (v : json) : result (list json) :=
  match v with
  | JList vs => Ok vs
  | JObj kvs => Ok ((λ kv, JStr kv.1) <$> kvs)
  | JStr s => Ok ((λ c, JStr (String c "")) <$> list_ascii_of_string s)
  | _ => Raise (TypeError (not_iterable v))
  end.

(** truth value of [v] in a condition *)
Definition truthy (v : json) : bool :=
  match v with
  | JNull => false
  | JBool b => b
  | JNum z => negb (z =? 0)
  | JStr s => negb (String.eqb s "")
  | JList vs => match vs with [] => false | _ => true end
  | JObj kvs => match kvs with [] => false | _ => true end
  end.

Definition is_none (v : json) : bool :=
  match v with JNull => true | _ => false end.

Section WithLib.
Context `{PyLib}.

(** [str(v)], also what an f-string inserts *)
Definition str (v : json) : string :=
  match v with
  | JNull => "None"
  | JBool true => "True"
  | JBool false => "False"
  | JNum z => pretty z
  | JStr s => s
  | _ => repr_container v
  end.

(** [repr(v)] *)
Definition repr (v : json) : string :=
  match v with
  | JStr s => repr_str s
  | _ => str v
  end.

(** [a + v] with [a] a string *)
Definition str_add (a : string) (v : json) : result string :=
  match v with
  | JStr s => Ok (a +:+ s)
  | _ =>
      Raise (TypeError ("can only concatenate str (not "
                          +:+ String "034" (type_name v)
                          +:+ String "034" ") to str"))
  end.

(** [str(e)] for an exception: its one argument as [str] gives it, for a
    [KeyError] as [repr] does; the texts of the object-relational layer
    are those of [QuerySet.get], which fetches at most 21 rows *)
Definition str_exn (e : exn) : string :=
  match e with
  | Exception arg => str arg
  | KeyError k => repr k
  | IndexError msg => msg
  | TypeError msg => msg
  | AttributeError msg => msg
  | ValueError msg => msg
  | UnknownTimeZoneError zone => repr_str zone
  | DoesNotExist model => model +:+ " matching query does not exist."
  | MultipleObjectsReturned model n =>
      "get() returned more than one " +:+ model +:+ " -- it returned "
        +:+ (if (n <? 21)%nat then pretty n else "more than 20") +:+ "!"
  | IntegrityError msg => msg
  | RequestError what => what
  end.
End WithLib.

End Py.

(** ** The persistent records *)

(** An aware datetime: an instant and the zone it is shown in. *)
Record Datetime := { instant : Z; zone : string }.

(** Modelled from the spec: the models of [scouting.models] and [tba.models],
    which are not among the sources.  Section 3 of the specification gives
    the entities, their references and their unique keys (event code, match
    key, team number); the columns are the ones [src/tba/util.py] reads and
    writes.  Columns the code only copies from the remote data keep the
    remote value. *)
Module Event.
Record row := {
  season : Z;
  event_cd : string;
  event_nm : json;
  date_st : Datetime;
  date_end : Datetime;
  event_url : json;
  gmaps_url : json;
  address : json;
  city : json;
  state_prov : json;
  postal_code : json;
  location_name : json;
  webcast_url : json;
  timezone : json;
  current : string;
  competition_page_active : string;
  void_ind : string;
}.
End Event.

Module Team.
Record row := {
  team_nm : json;
  void_ind : string;
}.
End Team.

Module CompetitionLevel.
Record row := {
  comp_lvl_typ : string;
  comp_lvl_typ_nm : string;
  void_ind : string;
}.
End CompetitionLevel.

Module Match.
Record row := {
  match_key : string;
  match_number : json;
  event : Z;
  red_one : Z;
  red_two : Z;
  red_three : Z;
  blue_one : Z;
  blue_two : Z;
  blue_three : Z;
  red_score : json;
  blue_score : json;
  comp_level : string;
  time : option Datetime;
  void_ind : string;
}.
End Match.

Module Message.
Record row := {
  message_type : json;
  message_data : string;
}.
End Message.

(** Modelled from the spec: the tables.  A table with a generated key is a
    finite map from that key to its rows, together with the next key to hand
    out; [Team] is keyed by its team number; the association of teams and
    events is a set of (team number, event id) pairs; the competition levels,
    which the code only reads, are a list of rows. *)
Record DB := {
  events : gmap Z Event.row;
  event_seq : Z;
  teams : gmap Z Team.row;
  event_teams : gset (Z * Z);
  matches : gmap Z Match.row;
  match_seq : Z;
  comp_levels : list CompetitionLevel.row;
  messages : gmap Z Message.row;
  message_seq : Z;
}.

Definition set_events (f : gmap Z Event.row -> gmap Z Event.row) (db : DB) : DB :=
  {| events := f (events db); event_seq := event_seq db; teams := teams db;
     event_teams := event_teams db; matches := matches db;
     match_seq := match_seq db; comp_levels := comp_levels db;
     messages := messages db; message_seq := message_seq db |}.

Definition set_event_seq (n : Z) (db : DB) : DB :=
  {| events := events db; event_seq := n; teams := teams db;
     event_teams := event_teams db; matches := matches db;
     match_seq := match_seq db; comp_levels := comp_levels db;
     messages := messages db; message_seq := message_seq db |}.

Definition set_teams (f : gmap Z Team.row -> gmap Z Team.row) (db : DB) : DB :=
  {| events := events db; event_seq := event_seq db; teams := f (teams db);
     event_teams := event_teams db; matches := matches db;
     match_seq := match_seq db; comp_levels := comp_levels db;
     messages := messages db; message_seq := message_seq db |}.

Definition set_event_teams (f : gset (Z * Z) -> gset (Z * Z)) (db : DB) : DB :=
  {| events := events db; event_seq := event_seq db; teams := teams db;
     event_teams := f (event_teams db); matches := matches db;
     match_seq := match_seq db; comp_levels := comp_levels db;
     messages := messages db; message_seq := message_seq db |}.

Definition set_matches (f : gmap Z Match.row -> gmap Z Match.row) (db : DB) : DB :=
  {| events := events db; event_seq := event_seq db; teams := teams db;
     event_teams := event_teams db; matches := f (matches db);
     match_seq := match_seq db; comp_levels := comp_levels db;
     messages := messages db; message_seq := message_seq db |}.

Definition set_match_seq (n : Z) (db : DB) : DB :=
  {| events := events db; event_seq := event_seq db; teams := teams db;
     event_teams := event_teams db; matches := matches db;
     match_seq := n; comp_levels := comp_levels db;
     messages := messages db; message_seq := message_seq db |}.

Definition set_messages (f : gmap Z Message.row -> gmap Z Message.row)
    (n : Z) (db : DB) : DB :=
  {| events := events db; event_seq := event_seq db; teams := teams db;
     event_teams := event_teams db; matches := matches db;
     match_seq := match_seq db; comp_levels := comp_levels db;
     messages := f (messages db); message_seq := n |}.

(** ** Effects: the database is threaded, an exception ends the run and
    leaves the database as it was when it was raised *)

Definition M (A : Type) : Type := DB -> result A * DB.

Definition ret {A} (a : A) : M A := fun db => (Ok a, db).

Definition raise {A} (e : exn) : M A := fun db => (Raise e, db).

Definition bind {A B} (m : M A) (k : A -> M B) : M B :=
  fun db =>
    match m db with
    | (Ok a, db') => k a db'
    | (Raise e, db') => (Raise e, db')
    end.

Definition lift {A} (r : result A) : M A := fun db => (r, db).

Definition read {A} (f : DB -> A) : M A := fun db => (Ok (f db), db).

Definition write (f : DB -> DB) : M unit := fun db => (Ok tt, f db).

(** [try: m except E: h], with [handles] telling the exceptions [E] covers *)
Definition try_except {A} (m : M A) (handles : exn -> bool) (h : exn -> M A) : M A :=
  fun db =>
    match m db with
    | (Ok a, db') => (Ok a, db')
    | (Raise e, db') => if handles e then h e db' else (Raise e, db')
    end.

Notation "'let!' x ':=' m 'in' k" := (bind m (fun x => k))
  (at level 10, x pattern, m at level 100, k at level 200).

(** ** The object-relational layer the code calls *)

Module Orm.

(** the rows a filter selects, with their keys *)
Definition select {A} (P : A -> bool) (t : gmap Z A) : list (Z * A) :=
  map_to_list (filter (fun kv : Z * A => P kv.2 = true) t).

(** [Model.objects.get(...)]: the one row that matches *)
Definition get {A} (model : string) (P : A -> bool) (t : gmap Z A) : result (Z * A) :=
  match select P t with
  | [] => Raise (DoesNotExist model)
  | [x] => Ok x
  | l => Raise (MultipleObjectsReturned model (length l))
  end.

(** [Model.objects.get(...)] on a table kept as a list of rows *)
Definition get_row {A} (model : string) (P : A -> bool) (t : list A) : result A :=
  match List.filter P t with
  | [] => Raise (DoesNotExist model)
  | [x] => Ok x
  | l => Raise (MultipleObjectsReturned model (length l))
  end.

(** the value a [CharField] lookup or column receives: [None] stays
    [None], a string is kept, anything else goes through [str] *)
Definition char_value `{PyLib} (v : json) : option string :=
  match v with
  | JNull => None
  | JStr s => Some s
  | _ => Some (Py.str v)
  end.

(** the message with which an [IntegerField] passes on what [int] raises *)
Definition expected_number `{PyLib} (field : string) (v : json) : string :=
  "Field '" +:+ field +:+ "' expected a number but got " +:+ Py.repr v +:+ ".".

(** the value a lookup or a column of the [IntegerField] [team_no]
    receives: [int(v)] *)
Definition int_value `{PyLib} (v : json) : result (option Z) :=
  match v with
  | JNull => Ok None
  | JNum z => Ok (Some z)
  | JBool b => Ok (Some (if b then 1 else 0))
  | JStr s =>
      rbind (of_option (int_of_str s) (ValueError (expected_number "team_no" v)))
        (fun z => Ok (Some z))
  | _ => Raise (TypeError (expected_number "team_no" v))
  end.

End Orm.

(** ** [src/tba/util.py] *)

(** the line feed that ends every status line *)
Definition LF : string := String "010" "".

Definition tba_url : string := "https://www.thebluealliance.com/api/v3".

(** The dictionary [get_tba_event] returns. *)
Module EventData.
Record t := {
  event_nm : json;
  date_st : Datetime;
  date_end : Datetime;
  event_cd : json;
  event_url : json;
  gmaps_url : json;
  address : json;
  city : json;
  state_prov : json;
  postal_code : json;
  location_name : json;
  timezone : json;
  webcast_url : json;
}.
End EventData.

(** An entry of the list [get_tba_event_teams] returns. *)
Module TeamData.
Record t := {
  team_no : json;
  team_nm : json;
}.
End TeamData.

(** the zone [get_tba_event] converts the dates of an answer to: its
    [timezone] unless that is absent or null *)
Definition event_zone (kvs : list (string * json)) : json :=
  match Py.assoc "timezone" kvs with
  | Some JNull | None => JStr "America/New_York"
  | Some tz => tz
  end.

(** The request object of the webhook view. *)
Record Request := {
  data : json;
  META : gmap string string;
}.

Section Util.
Context `{PyLib}.

(** [loads(requests.get(url, headers=...).text)]: the parsed answer of the
    remote API to a GET of [url], or the exception the call or the parser
    raises. *)
Variable fetch : string -> result json.

(** [datetime.datetime.strptime(v, "%Y-%m-%d").astimezone(pytz.timezone(time_zone))] *)
Definition strptime_astimezone (v time_zone : json) : result Datetime :=
  match v with
  | JStr s =>
      rbind (of_option (strptime_local s) (ValueError (error_text "strptime" v))) (fun t =>
      match time_zone with
      | JStr z =>
          if tz_known z then Ok {| instant := t; zone := z |}
          else Raise (UnknownTimeZoneError z)
      | _ => Raise (AttributeError (Py.no_attribute time_zone "upper"))
      end)
  | _ => Raise (TypeError (error_text "strptime" v))
  end.

(** [tba_event\["webcasts"\]\[0\]\["channel"\] if len(tba_event\["webcasts"\]) > 0 else ""] *)
Definition webcast_channel (tba_event : json) : result json :=
  rbind (Py.getitem tba_event "webcasts") (fun webcasts =>
  rbind (Py.len webcasts) (fun n =>
  if (0 <? n)%nat then
    rbind (Py.getitem tba_event "webcasts") (fun webcasts =>
    rbind (Py.index webcasts 0) (fun first =>
    Py.getitem first "channel"))
  else Ok (JStr ""))).

(** [get_tba_event], util.py:111 *)
Definition get_tba_event (event_cd : string) : result EventData.t :=
  rbind (fetch (tba_url +:+ "/event/" +:+ event_cd)) (fun tba_event =>
  rbind (Py.get tba_event "Error" JNull) (fun error =>
  if negb (Py.is_none error) then
    rbind (Py.getitem tba_event "Error") (fun arg => Raise (Exception arg))
  else
  rbind (Py.get tba_event "timezone" JNull) (fun tz =>
  let time_zone := if negb (Py.is_none tz) then tz else JStr "America/New_York" in
  rbind (Py.getitem tba_event "name") (fun name =>
  rbind (Py.getitem tba_event "start_date") (fun start_date =>
  rbind (strptime_astimezone start_date time_zone) (fun date_st =>
  rbind (Py.getitem tba_event "end_date") (fun end_date =>
  rbind (strptime_astimezone end_date time_zone) (fun date_end =>
  rbind (Py.getitem tba_event "key") (fun key =>
  rbind (Py.get tba_event "event_url" JNull) (fun event_url =>
  rbind (Py.get tba_event "gmaps_url" JNull) (fun gmaps_url =>
  rbind (Py.get tba_event "address" JNull) (fun address =>
  rbind (Py.get tba_event "city" JNull) (fun city =>
  rbind (Py.get tba_event "state_prov" JNull) (fun state_prov =>
  rbind (Py.get tba_event "postal_code" JNull) (fun postal_code =>
  rbind (Py.get tba_event "location_name" JNull) (fun location_name =>
  rbind (Py.get tba_event "timezone" (JStr "America/New_York")) (fun timezone =>
  rbind (webcast_channel tba_event) (fun webcast_url =>
  Ok {| EventData.event_nm := name;
        EventData.date_st := date_st;
        EventData.date_end := date_end;
        EventData.event_cd := key;
        EventData.event_url := event_url;
        EventData.gmaps_url := gmaps_url;
        EventData.address := address;
        EventData.city := city;
        EventData.state_prov := state_prov;
        EventData.postal_code := postal_code;
        EventData.location_name := location_name;
        EventData.timezone := timezone;
        EventData.webcast_url := webcast_url |})))))))))))))))))).

(** the loop of [get_tba_event_teams] *)
Fixpoint parse_teams (tba_teams : list json) : result (list TeamData.t) :=
  match tba_teams with
  | [] => Ok []
  | team :: rest =>
      rbind (Py.getitem team "team_number") (fun team_number =>
      rbind (Py.getitem team "nickname") (fun nickname =>
      rbind (parse_teams rest) (fun parsed =>
      Ok ({| TeamData.team_no := team_number; TeamData.team_nm := nickname |}
            :: parsed))))
  end.

(** [get_tba_event_teams], util.py:164 *)
Definition get_tba_event_teams (event_cd : string) : result (list TeamData.t) :=
  rbind (fetch (tba_url +:+ "/event/" +:+ event_cd +:+ "/teams")) (fun tba_teams =>
  rbind (Py.iter tba_teams) parse_teams).

(** *** Queries and saves on the tables *)

Definition event_cd_is (v : json) (r : Event.row) : bool :=
  match Orm.char_value v with
  | Some s => String.eqb (Event.event_cd r) s
  | None => false
  end.

(** [Event.objects.get(event_cd=v)] *)
Definition Event_objects_get (v : json) : M (Z * Event.row) :=
  fun db => (Orm.get "Event" (event_cd_is v) (events db), db).

(** [event.save(force_insert=True)] of a new event whose code is [v]:
    the code is required and unique, the key is the next of the table. *)
Definition Event_force_insert (v : json) (mk : string -> Event.row) : M (Z * Event.row) :=
  fun db =>
    match Orm.char_value v with
    | None => (Raise (IntegrityError (error_text "Event" v)), db)
    | Some s =>
        match events db !! event_seq db, Orm.select (event_cd_is (JStr s)) (events db) with
        | None, [] =>
            (Ok (event_seq db, mk s),
             set_event_seq (event_seq db + 1)
               (set_events (insert (event_seq db) (mk s)) db))
        | _, _ => (Raise (IntegrityError (error_text "Event" v)), db)
        end
    end.

(** [event.save()] of an event read from or inserted into the table *)
Definition Event_save (id : Z) (e : Event.row) : M unit :=
  write (set_events (insert id e)).

(** [Team(team_no=.., team_nm=.., void_ind="n").save(force_insert=True)]:
    the number is the key of the table, so a missing number and a number
    that is taken are both refused with [IntegrityError]; for a value
    [int] rejects the field raises its error *)
Definition Team_force_insert (team_no team_nm : json) : M Z :=
  fun db =>
    match Orm.int_value team_no with
    | Raise e => (Raise e, db)
    | Ok None => (Raise (IntegrityError (error_text "Team" team_no)), db)
    | Ok (Some n) =>
        match teams db !! n with
        | Some _ => (Raise (IntegrityError (error_text "Team" team_no)), db)
        | None =>
            (Ok n,
             set_teams (insert n {| Team.team_nm := team_nm; Team.void_ind := "n" |}) db)
        end
    end.

(** [Team.objects.get(team_no=v)] *)
Definition Team_objects_get (v : json) : M Z :=
  fun db =>
    match Orm.int_value v with
    | Raise e => (Raise e, db)
    | Ok None => (Raise (DoesNotExist "Team"), db)
    | Ok (Some n) =>
        match teams db !! n with
        | Some _ => (Ok n, db)
        | None => (Raise (DoesNotExist "Team"), db)
        end
    end.

(** [Team.objects.get(Q(team_no=s) & Q(void_ind="n"))] for a string [s] *)
Definition Team_objects_get_active (s : string) : M Z :=
  fun db =>
    match int_of_str s with
    | None => (Raise (ValueError (Orm.expected_number "team_no" (JStr s))), db)
    | Some n =>
        match teams db !! n with
        | Some t =>
            if String.eqb (Team.void_ind t) "n" then (Ok n, db)
            else (Raise (DoesNotExist "Team"), db)
        | None => (Raise (DoesNotExist "Team"), db)
        end
    end.

(** [set(...)] takes the values in turn and refuses a list or a dict *)
Fixpoint hashable_all (vs : list json) : result unit :=
  match vs with
  | [] => Ok tt
  | v :: rest =>
      match v with
      | JList _ | JObj _ => Raise (TypeError (Py.unhashable v))
      | _ => hashable_all rest
      end
  end.

(** the strings among the values that [int] rejects *)
Definition rejected (vs : list json) : list string :=
  omap (fun v => match v with
                 | JStr s => match int_of_str s with
                             | None => Some s
                             | Some _ => None
                             end
                 | _ => None
                 end) vs.

(** the values of the lookup as it prepares them: each goes through
    [int], [None] is dropped *)
Fixpoint prepared (teams : list TeamData.t) : result (list Z) :=
  match teams with
  | [] => Ok []
  | team :: rest =>
      rbind (Orm.int_value (TeamData.team_no team)) (fun o =>
      rbind (prepared rest) (fun nos =>
      Ok (match o with Some n => n :: nos | None => nos end)))
  end.

(** the team numbers of [team_no__in=set(...)]: the set is built first,
    then the lookup prepares its elements in the order the set yields
    them, so that of several different strings [int] rejects the error
    names the one the set yields first *)
Definition team_no_in (teams : list TeamData.t) : result (list Z) :=
  let vs := TeamData.team_no <$> teams in
  rbind (hashable_all vs) (fun _ =>
  match rejected vs with
  | [] => prepared teams
  | s :: rest =>
      let named :=
        if forallb (String.eqb s) rest then s else hd s (rejected (set_iter vs)) in
      Raise (ValueError (Orm.expected_number "team_no" (JStr named)))
  end).

(** [Team.objects.filter(~Q(team_no__in=nos) & Q(event=event))] *)
Definition Team_objects_not_in_at (nos : list Z) (event_id : Z) (db : DB)
    : list (Z * Team.row) :=
  map_to_list
    (filter (fun kv : Z * Team.row => (kv.1 ∉ nos) ∧ ((kv.1, event_id) ∈ event_teams db))
            (teams db)).

(** [Team.objects.filter(event=event)]: the teams linked to an event *)
Definition teams_at (event_id : Z) (db : DB) : gset Z :=
  dom (filter (fun kv : Z * Team.row => ((kv.1, event_id) ∈ event_teams db)) (teams db)).

(** [team.event_set.remove(event)] *)
Definition event_set_remove (team_no event_id : Z) : M unit :=
  write (set_event_teams (fun links => links ∖ {[ (team_no, event_id) ]})).

(** [team.event_set.add(event)]: a link that is there already is kept as
    it is, and nothing is raised *)
Definition event_set_add (team_no event_id : Z) : M unit :=
  write (set_event_teams (fun links => links ∪ {[ (team_no, event_id) ]})).

(** *** [sync_event], util.py:188 *)

Definition is_Event_DoesNotExist (e : exn) : bool :=
  match e with
  | DoesNotExist model => String.eqb model "Event"
  | _ => false
  end.

Definition is_IntegrityError (e : exn) : bool :=
  match e with
  | IntegrityError _ => true
  | _ => false
  end.

(** the assignments of the branch that found the event *)
Definition event_found (e : Event.row) (d : EventData.t) : Event.row :=
  {| Event.season := Event.season e;
     Event.event_cd := Event.event_cd e;
     Event.event_nm := Event.event_nm e;
     Event.date_st := EventData.date_st d;
     Event.date_end := EventData.date_end d;
     Event.event_url := Event.event_url e;
     Event.gmaps_url := Event.gmaps_url e;
     Event.address := Event.address e;
     Event.city := Event.city e;
     Event.state_prov := Event.state_prov e;
     Event.postal_code := Event.postal_code e;
     Event.location_name := Event.location_name e;
     Event.webcast_url := Event.webcast_url e;
     Event.timezone := Event.timezone e;
     Event.current := Event.current e;
     Event.competition_page_active := Event.competition_page_active e;
     Event.void_ind := "n" |}.

(** the event the other branch constructs; the columns it does not name
    are written by the save that follows the branches *)
Definition event_new (season : Z) (d : EventData.t) (cd : string) : Event.row :=
  {| Event.season := season;
     Event.event_cd := cd;
     Event.event_nm := JNull;
     Event.date_st := EventData.date_st d;
     Event.date_end := EventData.date_end d;
     Event.event_url := JNull;
     Event.gmaps_url := JNull;
     Event.address := JNull;
     Event.city := JNull;
     Event.state_prov := JNull;
     Event.postal_code := JNull;
     Event.location_name := JNull;
     Event.webcast_url := JNull;
     Event.timezone := JNull;
     Event.current := "n";
     Event.competition_page_active := "n";
     Event.void_ind := "n" |}.

(** the assignments after the branches *)
Definition event_details (e : Event.row) (d : EventData.t) : Event.row :=
  {| Event.season := Event.season e;
     Event.event_cd := Event.event_cd e;
     Event.event_nm := EventData.event_nm d;
     Event.date_st := Event.date_st e;
     Event.date_end := Event.date_end e;
     Event.event_url := EventData.event_url d;
     Event.gmaps_url := EventData.gmaps_url d;
     Event.address := EventData.address d;
     Event.city := EventData.city d;
     Event.state_prov := EventData.state_prov d;
     Event.postal_code := EventData.postal_code d;
     Event.location_name := EventData.location_name d;
     Event.webcast_url := EventData.webcast_url d;
     Event.timezone := EventData.timezone d;
     Event.current := Event.current e;
     Event.competition_page_active := Event.competition_page_active e;
     Event.void_ind := Event.void_ind e |}.

(** the first [try] of [sync_event]: the event and the line it adds *)
Definition sync_event_upsert (season : Z) (d : EventData.t) : M (Z * Event.row * string) :=
  try_except
    (let! (id, e) := Event_objects_get (EventData.event_cd d) in
     let event := event_found e d in
     let! line := lift (Py.str_add "(NO ADD) Already have event: " (EventData.event_cd d)) in
     ret (id, event, line +:+ LF))
    is_Event_DoesNotExist
    (fun _ =>
     let! (id, event) := Event_force_insert (EventData.event_cd d) (event_new season d) in
     let! line := lift (Py.str_add "(ADD) Added event: " (EventData.event_cd d)) in
     ret (id, event, line +:+ LF)).

(** the loop that unlinks the teams no longer at the event *)
Fixpoint sync_event_remove (event_id : Z) (cd : json) (stale : list (Z * Team.row))
    (messages : string) : M string :=
  match stale with
  | [] => ret messages
  | (team_no, team) :: rest =>
      let! _ := event_set_remove team_no event_id in
      sync_event_remove event_id cd rest
        (messages +:+ "(REMOVE) Removed team: " +:+ pretty team_no +:+ " "
           +:+ Py.str (Team.team_nm team) +:+ " from event: " +:+ Py.str cd +:+ LF)
  end.

(** one round of the loop over the reported teams *)
Definition sync_event_team (event_id : Z) (cd : json) (team_ : TeamData.t) : M string :=
  let no := Py.str (TeamData.team_no team_) in
  let nm := Py.str (TeamData.team_nm team_) in
  let! (team, line) :=
    try_except
      (let! team := Team_force_insert (TeamData.team_no team_) (TeamData.team_nm team_) in
       ret (team, "(ADD) Added team: " +:+ no +:+ " " +:+ nm +:+ LF))
      is_IntegrityError
      (fun _ =>
       let! team := Team_objects_get (TeamData.team_no team_) in
       ret (team, "(NO ADD) Already have team: " +:+ no +:+ " " +:+ nm +:+ LF)) in
  let! _ := event_set_add team event_id in
  ret (line +:+ "(LINK) Added team: " +:+ no +:+ " " +:+ nm +:+ " to event: "
         +:+ Py.str cd +:+ LF).

Fixpoint sync_event_teams (event_id : Z) (cd : json) (teams : list TeamData.t)
    (messages : string) : M string :=
  match teams with
  | [] => ret messages
  | team_ :: rest =>
      let! lines := sync_event_team event_id cd team_ in
      sync_event_teams event_id cd rest (messages +:+ lines)
  end.

Definition sync_event (season : Z) (event_cd : string) : M string :=
  let! d := lift (get_tba_event event_cd) in
  let! teams := lift (get_tba_event_teams event_cd) in
  let! (id, event, messages) := sync_event_upsert season d in
  let! _ := Event_save id (event_details event d) in
  let! nos := lift (team_no_in teams) in
  let! stale := read (Team_objects_not_in_at nos id) in
  let! messages := sync_event_remove id (EventData.event_cd d) stale messages in
  sync_event_teams id (EventData.event_cd d) teams messages.

(** *** [save_tba_match], util.py:393 *)

(** [replace_frc_in_str(v)] on a value of the remote data: only a string
    has [replace] *)
Definition replace_frc (v : json) : result string :=
  match v with
  | JStr s => Ok (replace_frc_in_str s)
  | _ => Raise (AttributeError (Py.no_attribute v "replace"))
  end.

(** [Team.objects.get(Q(team_no=replace_frc_in_str(
      tba_match\["alliances"\]\[color\]\["team_keys"\]\[i\])) & Q(void_ind="n"))] *)
Definition alliance_team (tba_match : json) (color : string) (i : nat) : M Z :=
  let! alliances := lift (Py.getitem tba_match "alliances") in
  let! alliance := lift (Py.getitem alliances color) in
  let! team_keys := lift (Py.getitem alliance "team_keys") in
  let! key := lift (Py.index team_keys i) in
  let! s := lift (replace_frc key) in
  Team_objects_get_active s.

(** [tba_match\["alliances"\]\[color\].get("score", None)] *)
Definition alliance_score (tba_match : json) (color : string) : result json :=
  rbind (Py.getitem tba_match "alliances") (fun alliances =>
  rbind (Py.getitem alliances color) (fun alliance =>
  Py.get alliance "score" JNull)).

Definition comp_lvl_is (v : json) (r : CompetitionLevel.row) : bool :=
  match Orm.char_value v with
  | Some s =>
      String.eqb (CompetitionLevel.comp_lvl_typ r) s
      && String.eqb (CompetitionLevel.void_ind r) "n"
  | None => false
  end.

(** [CompetitionLevel.objects.get(Q(comp_lvl_typ=v) & Q(void_ind="n"))] *)
Definition CompetitionLevel_objects_get (v : json) : M CompetitionLevel.row :=
  fun db => (Orm.get_row "CompetitionLevel" (comp_lvl_is v) (comp_levels db), db).

(** [datetime.datetime.fromtimestamp(v, pytz.timezone("America/New_York"))] *)
Definition fromtimestamp (v : json) : result Datetime :=
  if tz_known "America/New_York" then
    match v with
    | JNum t =>
        if timestamp_ok t then Ok {| instant := t; zone := "America/New_York" |}
        else Raise (ValueError (error_text "fromtimestamp" v))
    | JBool b =>
        let t := if b then 1 else 0 in
        if timestamp_ok t then Ok {| instant := t; zone := "America/New_York" |}
        else Raise (ValueError (error_text "fromtimestamp" v))
    | _ => Raise (TypeError (error_text "fromtimestamp" v))
    end
  else Raise (UnknownTimeZoneError "America/New_York").

(** [fromtimestamp(tba_match\["time"\], ...) if tba_match\["time"\] else None] *)
Definition match_time (tba_match : json) : result (option Datetime) :=
  rbind (Py.getitem tba_match "time") (fun t =>
  if Py.truthy t then
    rbind (Py.getitem tba_match "time") (fun t =>
    rbind (fromtimestamp t) (fun dt => Ok (Some dt)))
  else Ok None).

Definition match_key_is (v : json) (r : Match.row) : bool :=
  match Orm.char_value v with
  | Some s => String.eqb (Match.match_key r) s
  | None => false
  end.

(** [Match.objects.get(Q(match_key=v))] *)
Definition Match_objects_get (v : json) : M (Z * Match.row) :=
  fun db => (Orm.get "Match" (match_key_is v) (matches db), db).

(** [match.save()] of a match read from the table *)
Definition Match_save (id : Z) (m : Match.row) : M unit :=
  write (set_matches (insert id m)).

(** [match.save()] of a new match whose key is [v]: the key is required
    and unique, the row key is the next of the table. *)
Definition Match_insert (v : json) (mk : string -> Match.row) : M Z :=
  fun db =>
    match Orm.char_value v with
    | None => (Raise (IntegrityError (error_text "Match" v)), db)
    | Some s =>
        match matches db !! match_seq db, Orm.select (match_key_is (JStr s)) (matches db) with
        | None, [] =>
            (Ok (match_seq db),
             set_match_seq (match_seq db + 1)
               (set_matches (insert (match_seq db) (mk s)) db))
        | _, _ => (Raise (IntegrityError (error_text "Match" v)), db)
        end
    end.

Definition is_Match_DoesNotExist (e : exn) : bool :=
  match e with
  | DoesNotExist model => String.eqb model "Match"
  | _ => false
  end.

(** what [save_tba_match] has looked up before it touches the match *)
Record MatchData := {
  md_match_number : json;
  md_event : Z;
  md_red_one : Z;
  md_red_two : Z;
  md_red_three : Z;
  md_blue_one : Z;
  md_blue_two : Z;
  md_blue_three : Z;
  md_red_score : json;
  md_blue_score : json;
  md_comp_level : string;
  md_time : option Datetime;
}.

(** the assignments of the branch that found the match *)
Definition match_found (m : Match.row) (d : MatchData) : Match.row :=
  {| Match.match_key := Match.match_key m;
     Match.match_number := Match.match_number m;
     Match.event := Match.event m;
     Match.red_one := md_red_one d;
     Match.red_two := md_red_two d;
     Match.red_three := md_red_three d;
     Match.blue_one := md_blue_one d;
     Match.blue_two := md_blue_two d;
     Match.blue_three := md_blue_three d;
     Match.red_score := md_red_score d;
     Match.blue_score := md_blue_score d;
     Match.comp_level := md_comp_level d;
     Match.time := md_time d;
     Match.void_ind := "n" |}.

(** the match the other branch constructs *)
Definition match_new (d : MatchData) (key : string) : Match.row :=
  {| Match.match_key := key;
     Match.match_number := md_match_number d;
     Match.event := md_event d;
     Match.red_one := md_red_one d;
     Match.red_two := md_red_two d;
     Match.red_three := md_red_three d;
     Match.blue_one := md_blue_one d;
     Match.blue_two := md_blue_two d;
     Match.blue_three := md_blue_three d;
     Match.red_score := md_red_score d;
     Match.blue_score := md_blue_score d;
     Match.comp_level := md_comp_level d;
     Match.time := md_time d;
     Match.void_ind := "n" |}.

(** the lookups of [save_tba_match], in the order of the source *)
Definition save_tba_match_lookups (tba_match : json)
    : M (Event.row * CompetitionLevel.row * json * MatchData) :=
  let! event_key := lift (Py.getitem tba_match "event_key") in
  let! (event_id, event) := Event_objects_get event_key in
  let! match_number := lift (Py.get tba_match "match_number" (JNum 0)) in
  let! red_one := alliance_team tba_match "red" 0 in
  let! red_two := alliance_team tba_match "red" 1 in
  let! red_three := alliance_team tba_match "red" 2 in
  let! blue_one := alliance_team tba_match "blue" 0 in
  let! blue_two := alliance_team tba_match "blue" 1 in
  let! blue_three := alliance_team tba_match "blue" 2 in
  let! red_score := lift (alliance_score tba_match "red") in
  let! blue_score := lift (alliance_score tba_match "blue") in
  let! comp_level_typ := lift (Py.get tba_match "comp_level" (JStr " ")) in
  let! comp_level := CompetitionLevel_objects_get comp_level_typ in
  let! time := lift (match_time tba_match) in
  let! match_key := lift (Py.getitem tba_match "key") in
  ret (event, comp_level, match_key,
       {| md_match_number := match_number;
          md_event := event_id;
          md_red_one := red_one;
          md_red_two := red_two;
          md_red_three := red_three;
          md_blue_one := blue_one;
          md_blue_two := blue_two;
          md_blue_three := blue_three;
          md_red_score := red_score;
          md_blue_score := blue_score;
          md_comp_level := CompetitionLevel.comp_lvl_typ comp_level;
          md_time := time |}).

(** the text both status lines of [save_tba_match] end with *)
Definition match_line (event : Event.row) (comp_level : CompetitionLevel.row)
    (match_number match_key : json) : string :=
  Py.str (Event.event_nm event) +:+ " "
    +:+ CompetitionLevel.comp_lvl_typ_nm comp_level +:+ " "
    +:+ Py.str match_number +:+ " " +:+ Py.str match_key +:+ LF.

Definition save_tba_match (tba_match : json) : M string :=
  let! (event, comp_level, match_key, d) := save_tba_match_lookups tba_match in
  let line := match_line event comp_level (md_match_number d) match_key in
  try_except
    (let! (id, m) := Match_objects_get match_key in
     let! _ := Match_save id (match_found m d) in
     ret ("(UPDATE) " +:+ line))
    is_Match_DoesNotExist
    (fun _ =>
     let! _ := Match_insert match_key (match_new d) in
     ret ("(ADD) " +:+ line)).

(** *** [sync_matches], util.py:269 *)

(** The body of the [try]: the loop over the fetched matches.  It ends
    with the exception that left it, if any, and with the values the
    locals [messages] and [match_number] had at that point. *)
Fixpoint sync_matches_loop (matches : list json) (messages : string)
    (match_number : json) (db : DB) : option exn * (string * json) * DB :=
  match matches with
  | [] => (None, (messages, match_number), db)
  | match_ :: rest =>
      match Py.get match_ "match_number" (JNum 0) with
      | Raise e => (Some e, (messages, match_number), db)
      | Ok match_number =>
          match save_tba_match match_ db with
          | (Raise e, db') => (Some e, (messages, match_number), db')
          | (Ok line, db') => sync_matches_loop rest (messages +:+ line) match_number db'
          end
      end
  end.

(** the line of the handler *)
Definition error_line (event : Event.row) (match_number : json) (e : exn) : string :=
  "(ERROR) " +:+ Py.str (Event.event_nm event) +:+ " " +:+ Py.str match_number
    +:+ " " +:+ Py.str_exn e +:+ LF.

Definition sync_matches (event : Event.row) : M string :=
  let! matches := lift (fetch (tba_url +:+ "/event/" +:+ Event.event_cd event +:+ "/matches")) in
  fun db =>
    match Py.iter matches with
    | Raise e => (Ok ("" +:+ error_line event (JStr "") e), db)
    | Ok matches =>
        match sync_matches_loop matches "" (JStr "") db with
        | (None, (messages, _), db') => (Ok messages, db')
        | (Some e, (messages, match_number), db') =>
            (Ok (messages +:+ error_line event match_number e), db')
        end
    end.

(** *** [save_message], util.py:486 *)

(** [msg.save()] of a new message *)
Definition Message_insert (msg : Message.row) : M Z :=
  fun db =>
    match messages db !! message_seq db with
    | None =>
        (Ok (message_seq db),
         set_messages (insert (message_seq db) msg) (message_seq db + 1) db)
    | Some _ => (Raise (IntegrityError (error_text "Message" (JNum (message_seq db)))), db)
    end.

Definition save_message (message : json) : M (Z * Message.row) :=
  let! message_type := lift (Py.getitem message "message_type") in
  let! message_data := lift (Py.getitem message "message_data") in
  let msg := {| Message.message_type := message_type;
                Message.message_data := PyStr.take 4000 (Py.str message_data) |} in
  let! id := Message_insert msg in
  ret (id, msg).

(** *** [verify_tba_webhook_call], util.py:504 *)

(** [a == b] where [a] is a string and [b] a string or [None] *)
Definition str_eq (a : string) (b : option string) : bool :=
  match b with
  | Some s => String.eqb a s
  | None => false
  end.

Definition verify_tba_webhook_call (request : Request) : bool :=
  let json_str := json_dumps (data request) in
  let hmac_hex := hmac_sha256_hexdigest TBA_WEBHOOK_SECRET json_str in
  str_eq hmac_hex (META request !! "HTTP_X_TBA_HMAC").

End Util.

(** ** Notions the statements use *)

Section Notions.
Context `{PyLib}.

(** the reported teams carry these team numbers, in this order *)
Definition numbered (teams : list TeamData.t) (nos : list Z) : Prop :=
  Forall2 (fun team_ n => Orm.int_value (TeamData.team_no team_) = Ok (Some n)) teams nos.

(** the two lines [sync_event] writes for a reported team that is in the
    table already *)
Definition already_line (cd : json) (team_ : TeamData.t) : string :=
  ("(NO ADD) Already have team: " +:+ Py.str (TeamData.team_no team_) +:+ " "
     +:+ Py.str (TeamData.team_nm team_) +:+ LF)
  +:+ "(LINK) Added team: " +:+ Py.str (TeamData.team_no team_) +:+ " "
  +:+ Py.str (TeamData.team_nm team_) +:+ " to event: " +:+ Py.str cd +:+ LF.

Definition already_lines (cd : json) (teams : list TeamData.t) (messages : string) : string :=
  fold_left (fun acc team_ => acc +:+ already_line cd team_) teams messages.

(** the links [sync_event] removes and the links it adds *)
Definition stale_links (nos : list Z) (event_id : Z) (db : DB) : gset (Z * Z) :=
  list_to_set ((fun kv : Z * Team.row => (kv.1, event_id))
                 <$> Team_objects_not_in_at nos event_id db).

Definition reported_links (nos : list Z) (event_id : Z) : gset (Z * Z) :=
  list_to_set ((fun n : Z => (n, event_id)) <$> nos).

(** a team is linked to the season of an event: it is linked to an event
    of that season *)
Definition linked_to_season (db : DB) (team_no season : Z) : Prop :=
  exists (event_id : Z) (e : Event.row),
    events db !! event_id = Some e /\ Event.season e = season
    /\ (team_no, event_id) ∈ event_teams db.

End Notions.

(** whatever the outcome of [m], result or exception, the database it
    leaves is related to the one it started from *)
Definition keeps {A} (R : DB -> DB -> Prop) (m : M A) : Prop :=
  forall (db db' : DB) (r : result A), m db = (r, db') -> R db db'.

(** [m] writes nothing and its result is a function of a part of the
    database *)
Definition reads {A V} (view : DB -> V) (m : M A) (F : V -> result A) : Prop :=
  forall db : DB, m db = (F (view db), db).

Section MatchNotions.
Context `{PyLib}.

(** the team exists and is not voided *)
Definition active_team (db : DB) (n : Z) : Prop :=
  exists t : Team.row, teams db !! n = Some t /\ Team.void_ind t = "n".

(** [tba_match\["alliances"\]\[color\]\["team_keys"\]\[i\]] *)
Definition team_key (tba_match : json) (color : string) (i : nat) : result json :=
  rbind (Py.getitem tba_match "alliances") (fun alliances =>
  rbind (Py.getitem alliances color) (fun alliance =>
  rbind (Py.getitem alliance "team_keys") (fun team_keys =>
  Py.index team_keys i))).

(** [n] is the number the team key at a position of the match denotes once
    ["frc"] is removed from it *)
Definition team_of_key (tba_match : json) (position : string * nat) (n : Z) : Prop :=
  exists key : string,
    team_key tba_match position.1 position.2 = Ok (JStr key)
    /\ int_of_str (replace_frc_in_str key) = Some n.

(** the six team slots of a match, and the positions they are read from *)
Definition slots (m : Match.row) : list Z :=
  [Match.red_one m; Match.red_two m; Match.red_three m;
   Match.blue_one m; Match.blue_two m; Match.blue_three m].

Definition positions : list (string * nat) :=
  [("red", 0%nat); ("red", 1%nat); ("red", 2%nat);
   ("blue", 0%nat); ("blue", 1%nat); ("blue", 2%nat)].

(** [save_tba_match] on each match of a list in turn, the lines joined *)
Fixpoint save_all (matches : list json) (messages : string) : M string :=
  match matches with
  | [] => ret messages
  | match_ :: rest =>
      let! line := save_tba_match match_ in
      save_all rest (messages +:+ line)
  end.

End MatchNotions.

(** what the lookups of [save_tba_match] read *)
Definition lookup_view (db : DB)
    : gmap Z Event.row * gmap Z Team.row * list CompetitionLevel.row :=
  (events db, teams db, comp_levels db).

(** the event table is left as it was *)
Definition same_events (db db' : DB) : Prop := events db' = events db.

(** every event row that was there is still there, with its season *)
Definition seasons_kept (db db' : DB) : Prop :=
  forall (id : Z) (e : Event.row),
    events db !! id = Some e ->
    exists e', events db' !! id = Some e' /\ Event.season e' = Event.season e.

(** ** The other functions of [src/tba/util.py] *)

(** Modelled from the spec: the [Season] model of [scouting.models], which
    is not among the sources: a competition year; the code reads its
    [season] column into a URL. *)
Module Season.
Record row := {
  season : string;
}.
End Season.

(** An entry of the list [get_events_for_team] returns: the dictionary of
    [get_tba_event], or the dictionary that only names the event code. *)
Inductive EventEntry :=
| Fetched (d : EventData.t)
| Ignored (event_cd : json).

(** An entry of the list [get_tba_event_team_info] returns. *)
Module TeamInfo.
Record t := {
  matches_played : json;
  qual_average : json;
  losses : json;
  wins : json;
  ties : json;
  rank : json;
  dq : json;
  team_id : string;
}.
End TeamInfo.

(** the line [sync_season] writes after each event *)
Definition season_rule : string :=
  "------------------------------------------------" +:+ LF.

Section UtilMore.
Context `{PyLib}.
Variable fetch : string -> result json.

(** [key not in event_cds_to_ignore] for a list of strings: only a string
    equals one of them *)
Definition not_in_codes (key : json) (cds : list string) : bool :=
  match key with
  | JStr s => negb (existsb (String.eqb s) cds)
  | _ => true
  end.

(** the loop of [get_events_for_team] *)
Fixpoint get_events_for_team_loop (event_cds_to_ignore : option (list string))
    (request : list json) : result (list EventEntry) :=
  match request with
  | [] => Ok []
  | event_requested :: rest =>
      rbind (match event_cds_to_ignore with
             | None => Ok true
             | Some cds =>
                 rbind (Py.getitem event_requested "key") (fun key =>
                 Ok (not_in_codes key cds))
             end) (fun fetch_it =>
      if fetch_it then
        rbind (Py.getitem event_requested "key") (fun key =>
        rbind (get_tba_event fetch (Py.str key)) (fun data =>
        rbind (get_events_for_team_loop event_cds_to_ignore rest) (fun parsed =>
        Ok (Fetched data :: parsed))))
      else
        rbind (Py.getitem event_requested "key") (fun key =>
        rbind (get_events_for_team_loop event_cds_to_ignore rest) (fun parsed =>
        Ok (Ignored key :: parsed))))
  end.

(** [get_events_for_team], util.py:27; of the team only its number is read *)
Definition get_events_for_team (team_no : Z) (season : Season.row)
    (event_cds_to_ignore : option (list string)) : result (list EventEntry) :=
  rbind (fetch (tba_url +:+ "/team/frc" +:+ pretty team_no +:+ "/events/"
                  +:+ Season.season season)) (fun request =>
  rbind (Py.iter request) (get_events_for_team_loop event_cds_to_ignore)).

(** [get_matches_for_team_event], util.py:63 *)
Definition get_matches_for_team_event (team_key event_key : string) : result json :=
  fetch (tba_url +:+ "/team/frc" +:+ team_key +:+ "/event/" +:+ event_key +:+ "/matches").

(** the loop of [sync_season] *)
Fixpoint sync_season_loop (season : Z) (request : list json) (messages : string)
    : M string :=
  match request with
  | [] => ret messages
  | event :: rest =>
      let! key := lift (Py.getitem event "key") in
      let! lines := sync_event fetch season (Py.str key) in
      sync_season_loop season rest ((messages +:+ lines) +:+ season_rule)
  end.

(** [sync_season], util.py:85; [seasons] is the table of the seasons, which
    none of the modelled functions writes *)
Definition sync_season (seasons : gmap Z Season.row) (season_id : Z) : M string :=
  match seasons !! season_id with
  | None => raise (DoesNotExist "Season")
  | Some season =>
      let! request := lift (fetch (tba_url +:+ "/team/frc3492/events/"
                                     +:+ Season.season season)) in
      let! events := lift (Py.iter request) in
      sync_season_loop season_id events ""
  end.

(** [info\["record"\].get(name, 0) if info.get("record", 0) is not None else 0] *)
Definition record_field (info : json) (name : string) : result json :=
  rbind (Py.get info "record" (JNum 0)) (fun record =>
  if negb (Py.is_none record) then
    rbind (Py.getitem info "record") (fun record => Py.get record name (JNum 0))
  else Ok (JNum 0)).

(** the dictionary [get_tba_event_team_info] builds for one ranking; the
    values it copies, [qual_average] among them, are kept as they come *)
Definition team_info (info : json) : result TeamInfo.t :=
  rbind (Py.get info "matches_played" (JNum 0)) (fun matches_played =>
  rbind (Py.get info "qual_average" (JNum 0)) (fun qual_average =>
  rbind (record_field info "losses") (fun losses =>
  rbind (record_field info "wins") (fun wins =>
  rbind (record_field info "ties") (fun ties =>
  rbind (Py.get info "rank" (JNum 0)) (fun rank =>
  rbind (Py.get info "dq" (JNum 0)) (fun dq =>
  rbind (Py.getitem info "team_key") (fun team_key =>
  rbind (replace_frc team_key) (fun team_id =>
  Ok {| TeamInfo.matches_played := matches_played;
        TeamInfo.qual_average := qual_average;
        TeamInfo.losses := losses;
        TeamInfo.wins := wins;
        TeamInfo.ties := ties;
        TeamInfo.rank := rank;
        TeamInfo.dq := dq;
        TeamInfo.team_id := team_id |}))))))))).

(** the loop of [get_tba_event_team_info] *)
Fixpoint team_infos (rankings : list json) : result (list TeamInfo.t) :=
  match rankings with
  | [] => Ok []
  | info :: rest =>
      rbind (team_info info) (fun entry =>
      rbind (team_infos rest) (fun ret => Ok (entry :: ret)))
  end.

(** [get_tba_event_team_info], util.py:295 *)
Definition get_tba_event_team_info (event_cd : string) : result (list TeamInfo.t) :=
  rbind (fetch (tba_url +:+ "/event/" +:+ event_cd +:+ "/rankings")) (fun rankings =>
  rbind (Py.get rankings "rankings" (JList [])) (fun l =>
  rbind (Py.iter l) team_infos)).

End UtilMore.

(** ** Notions of the further statements *)

(** a part of the database is left as it was *)
Definition same_on {V} (view : DB -> V) (db db' : DB) : Prop := view db' = view db.

(** what [sync_event] has no business with *)
Definition beside_sync_event (db : DB)
    : gmap Z Match.row * Z * list CompetitionLevel.row * gmap Z Message.row * Z :=
  (matches db, match_seq db, comp_levels db, messages db, message_seq db).

(** what [save_tba_match] has no business with *)
Definition beside_save_tba_match (db : DB)
    : gmap Z Event.row * Z * gmap Z Team.row * gset (Z * Z)
      * list CompetitionLevel.row * gmap Z Message.row * Z :=
  (events db, event_seq db, teams db, event_teams db, comp_levels db,
   messages db, message_seq db).

(** every team row is kept as it is, and a row that appears is not voided *)
Definition teams_only_grow (db db' : DB) : Prop :=
  teams db ⊆ teams db'
  /\ forall (n : Z) (t : Team.row),
       teams db' !! n = Some t -> teams db !! n = Some t \/ Team.void_ind t = "n".

(** a remote team carries the number and the name of a parsed entry *)
Definition team_entry (team : json) (t : TeamData.t) : Prop :=
  Py.getitem team "team_number" = Ok (TeamData.team_no t)
  /\ Py.getitem team "nickname" = Ok (TeamData.team_nm t).

(** an entry of the result of [get_events_for_team] for a remote event: the
    fetched event when its key is not to be ignored, the bare key when it
    is *)
Definition event_entry `{PyLib} (fetch : string -> result json)
    (event_cds_to_ignore : option (list string)) (event_requested : json)
    (entry : EventEntry) : Prop :=
  exists key : json,
    Py.getitem event_requested "key" = Ok key
    /\ match entry with
       | Fetched d =>
           (forall cds, event_cds_to_ignore = Some cds -> not_in_codes key cds = true)
           /\ get_tba_event fetch (Py.str key) = Ok d
       | Ignored k =>
           k = key
           /\ exists cds, event_cds_to_ignore = Some cds /\ not_in_codes key cds = false
       end.

(** a ranking names the team of an entry of [get_tba_event_team_info] *)
Definition ranking_entry (info : json) (t : TeamInfo.t) : Prop :=
  exists key : string,
    Py.getitem info "team_key" = Ok (JStr key)
    /\ TeamInfo.team_id t = replace_frc_in_str key.

(** ** A stand-in for the libraries, to run the functions on examples

    It is not the libraries' code.  What the examples rely on: [int_of_str]
    reads a string of ASCII digits as [int] does, [repr_str] puts a string
    without quotes or escapes between single quotes as [repr] does, every
    zone is known and every timestamp in range; the serialiser, the digest,
    the order of a set and the texts of the library's errors are arbitrary
    functions. *)
Module Sample.

Definition digit (c : ascii) : option Z :=
  let n := Z.of_N (N_of_ascii c) in
  if (48 <=? n) && (n <=? 57) then Some (n - 48) else None.

Fixpoint digits (s : string) (acc : Z) : option Z :=
  match s with
  | "" => Some acc
  | String c r =>
      match digit c with
      | Some d => digits r (10 * acc + d)
      | None => None
      end
  end.

Definition int_of_digits (s : string) : option Z :=
  match s with
  | "" => None
  | _ => digits s 0
  end.

Definition tag (v : json) : string :=
  match v with
  | JNull => "null"
  | JBool true => "true"
  | JBool false => "false"
  | JNum z => pretty z
  | JStr s => s
  | JList l => "[" +:+ pretty (length l) +:+ "]"
  | JObj kvs => "{" +:+ pretty (length kvs) +:+ "}"
  end.

Definition lib : PyLib := {|
  json_dumps := tag;
  hmac_sha256_hexdigest := fun key msg => key +:+ "/" +:+ msg;
  TBA_WEBHOOK_SECRET := "secret";
  repr_container := tag;
  repr_str := fun s => "'" +:+ s +:+ "'";
  error_text := fun op v => op +:+ ": " +:+ tag v;
  set_iter := fun l => l;
  int_of_str := int_of_digits;
  strptime_local := fun s => Some (Z.of_nat (String.length s));
  tz_known := fun _ => true;
  timestamp_ok := fun _ => true;
|}.

(** ['x' * n] *)
Definition xs (n : nat) : string := string_of_list_ascii (repeat "x"%char n).

Definition empty_db : DB := {|
  events := ∅; event_seq := 1; teams := ∅; event_teams := ∅;
  matches := ∅; match_seq := 1; comp_levels := [];
  messages := ∅; message_seq := 1;
|}.

(** the event of the examples, as the remote API answers and as the
    table holds it *)
Definition tba_event : json :=
  JObj [("key", JStr "2024pahat"); ("name", JStr "Hatboro-Horsham");
        ("start_date", JStr "2024-03-15"); ("end_date", JStr "2024-03-17");
        ("timezone", JStr "America/New_York"); ("webcasts", JList [])].

Definition tba_team (no : Z) (nm : string) : json :=
  JObj [("team_number", JNum no); ("nickname", JStr nm)].

Definition tba_alliance (a b c : string) (score : Z) : json :=
  JObj [("team_keys", JList [JStr a; JStr b; JStr c]); ("score", JNum score)].

Definition tba_match (key : string) (number : Z) : json :=
  JObj [("key", JStr key); ("match_number", JNum number);
        ("event_key", JStr "2024pahat"); ("comp_level", JStr "qm");
        ("alliances",
         JObj [("red", tba_alliance "frc3492" "frc3493" "frc3494" 100);
               ("blue", tba_alliance "frc3495" "frc3496" "frc3497" 90)]);
        ("time", JNum 1640000000)].

(** the remote API: the event, its teams B, C and D, three matches of
    which the second lacks every field, and an error for anything else *)
Definition fetch (url : string) : result json :=
  if String.eqb url (tba_url +:+ "/event/2024pahat") then Ok tba_event
  else if String.eqb url (tba_url +:+ "/event/2024pahat/teams") then
    Ok (JList [tba_team 3493 "B"; tba_team 3494 "C"; tba_team 3495 "D"])
  else if String.eqb url (tba_url +:+ "/event/2024pahat/matches") then
    Ok (JList [tba_match "2024pahat_qm1" 1; JObj [("invalid", JStr "data")];
               tba_match "2024pahat_qm3" 3])
  else Ok (JObj [("Error", JStr "Invalid endpoint")]).

Definition event_data : EventData.t := {|
  EventData.event_nm := JStr "Hatboro-Horsham";
  EventData.date_st := {| instant := 10; zone := "America/New_York" |};
  EventData.date_end := {| instant := 10; zone := "America/New_York" |};
  EventData.event_cd := JStr "2024pahat";
  EventData.event_url := JNull;
  EventData.gmaps_url := JNull;
  EventData.address := JNull;
  EventData.city := JNull;
  EventData.state_prov := JNull;
  EventData.postal_code := JNull;
  EventData.location_name := JNull;
  EventData.timezone := JStr "America/New_York";
  EventData.webcast_url := JStr "";
|}.

Definition event_row : Event.row := {|
  Event.season := 7;
  Event.event_cd := "2024pahat";
  Event.event_nm := JStr "Hatboro-Horsham";
  Event.date_st := {| instant := 0; zone := "America/New_York" |};
  Event.date_end := {| instant := 2; zone := "America/New_York" |};
  Event.event_url := JStr "http://test.com";
  Event.gmaps_url := JStr "http://maps.google.com";
  Event.address := JNull;
  Event.city := JNull;
  Event.state_prov := JNull;
  Event.postal_code := JNull;
  Event.location_name := JNull;
  Event.webcast_url := JNull;
  Event.timezone := JNull;
  Event.current := "n";
  Event.competition_page_active := "n";
  Event.void_ind := "n";
|}.

Definition team_row (nm : string) : Team.row :=
  {| Team.team_nm := JStr nm; Team.void_ind := "n" |}.

Definition qm : CompetitionLevel.row := {|
  CompetitionLevel.comp_lvl_typ := "qm";
  CompetitionLevel.comp_lvl_typ_nm := "Qualification";
  CompetitionLevel.void_ind := "n";
|}.

(** the reported teams, as [get_tba_event_teams] returns them *)
Definition roster : list TeamData.t :=
  [ {| TeamData.team_no := JNum 3493; TeamData.team_nm := JStr "B" |};
    {| TeamData.team_no := JNum 3494; TeamData.team_nm := JStr "C" |};
    {| TeamData.team_no := JNum 3495; TeamData.team_nm := JStr "D" |} ].

(** the event with the teams A, B and C linked to it *)
Definition db_abc : DB := {|
  events := {[ 1 := event_row ]}; event_seq := 2;
  teams := {[ 3492 := team_row "A"; 3493 := team_row "B"; 3494 := team_row "C" ]};
  event_teams := {[ (3492, 1); (3493, 1); (3494, 1) ]};
  matches := ∅; match_seq := 1; comp_levels := [qm];
  messages := ∅; message_seq := 1;
|}.

(** the event, six teams none of which is linked to anything, and the
    qualification level: the fixture of the repository's tests *)
Definition db_six : DB := {|
  events := {[ 1 := event_row ]}; event_seq := 2;
  teams := {[ 3492 := team_row "Team 3492"; 3493 := team_row "Team 3493";
              3494 := team_row "Team 3494"; 3495 := team_row "Team 3495";
              3496 := team_row "Team 3496"; 3497 := team_row "Team 3497" ]};
  event_teams := ∅;
  matches := ∅; match_seq := 1; comp_levels := [qm];
  messages := ∅; message_seq := 1;
|}.

End Sample.

(** More of the stand-in: a season, the events of team 3492 in it, of which
    the second is unknown to the remote API, and the rankings of the event. *)
Module More.

Definition seasons : gmap Z Season.row := {[ 7 := {| Season.season := "2024" |} ]}.

Definition ranking (team_key : string) (record : json) : json :=
  JObj [("team_key", JStr team_key); ("rank", JNum 1); ("matches_played", JNum 10);
        ("record", record); ("dq", JNum 0)].

Definition fetch (url : string) : result json :=
  if String.eqb url (tba_url +:+ "/team/frc3492/events/2024") then
    Ok (JList [JObj [("key", JStr "2024pahat")]; JObj [("key", JStr "2024nope")];
               JObj [("key", JStr "2024pahat")]])
  else if String.eqb url (tba_url +:+ "/event/2024pahat/rankings") then
    Ok (JObj [("rankings",
               JList [ranking "frc3492" (JObj [("wins", JNum 8); ("losses", JNum 2)]);
                      ranking "frc3493" JNull])])
  else Sample.fetch url.

End More.

(** * Properties *)

(** ** Properties of [replace_frc_in_str] *)

Lemma length_take_le (n : nat) (s : string) :
  (n <= String.length s)%nat -> String.length (PyStr.take n s) = n.
Proof.
  revert s; induction n as [|n IH]; intros [|c r] H; simpl in *;
    try reflexivity; try lia.
  f_equal. apply IH. lia.
Qed.

Lemma take_all (n : nat) (s : string) :
  (String.length s <= n)%nat -> PyStr.take n s = s.
Proof.
  revert n; induction s as [|c r IH]; intros [|n] H; simpl in *;
    try reflexivity; try lia.
  rewrite IH by lia. reflexivity.
Qed.

Lemma replace_scan_absent (old new s : string) :
  PyStr.contains old s = false -> PyStr.replace_scan old new 0 s = s.
Proof.
  induction s as [|c r IH]; intros H; [reflexivity|].
  cbn [PyStr.contains] in H. apply orb_false_iff in H as [Hp Hr].
  cbn [PyStr.replace_scan]. rewrite Hp, IH by exact Hr. reflexivity.
Qed.

Lemma replace_frc_absent (s : string) :
  PyStr.contains "frc" s = false -> replace_frc_in_str s = s.
Proof. apply replace_scan_absent. Qed.

(** the scan, step by step: an occurrence at the front is dropped, any
    other character is kept *)
Lemma replace_frc_prefix (s : string) :
  replace_frc_in_str ("frc" +:+ s) = replace_frc_in_str s.
Proof. destruct s; reflexivity. Qed.

Lemma replace_frc_step (c : ascii) (r : string) :
  PyStr.startswith "frc" (String c r) = false ->
  replace_frc_in_str (String c r) = String c (replace_frc_in_str r).
Proof.
  intros H. unfold replace_frc_in_str, PyStr.replace.
  cbn [PyStr.replace_scan]. rewrite H. reflexivity.
Qed.

(** ["frc"] occurs in no part of a string it does not occur in *)
Lemma contains_frc_tail (c : ascii) (r : string) :
  PyStr.contains "frc" (String c r) = false ->
  PyStr.startswith "frc" (String c r) = false /\ PyStr.contains "frc" r = false.
Proof. cbn [PyStr.contains]. intros H. now apply orb_false_iff in H. Qed.

Lemma startswith_frc_app (c : ascii) (r t : string) :
  PyStr.startswith "frc" (String c r) = false ->
  PyStr.startswith "frc" (String c r +:+ "frc" +:+ t) = false.
Proof.
  change (String c r +:+ "frc" +:+ t) with (String c (r +:+ "frc" +:+ t)).
  cbn [PyStr.startswith]. destruct (Ascii.eqb "f" c); [|reflexivity].
  rewrite !andb_true_l.
  destruct r as [|c1 r]; [reflexivity|].
  change (String c1 r +:+ "frc" +:+ t) with (String c1 (r +:+ "frc" +:+ t)).
  cbn [PyStr.startswith]. destruct (Ascii.eqb "r" c1); [|reflexivity].
  rewrite !andb_true_l.
  destruct r as [|c2 r]; [reflexivity|].
  change (String c2 r +:+ "frc" +:+ t) with (String c2 (r +:+ "frc" +:+ t)).
  cbn [PyStr.startswith]. destruct (Ascii.eqb "c" c2); [discriminate|reflexivity].
Qed.

(** a piece without ["frc"] is kept, the occurrence after it dropped *)
Lemma replace_frc_piece (p t : string) :
  PyStr.contains "frc" p = false ->
  replace_frc_in_str (p +:+ "frc" +:+ t) = p +:+ replace_frc_in_str t.
Proof.
  induction p as [|c r IH]; intros H.
  - apply replace_frc_prefix.
  - apply contains_frc_tail in H as [Hp Hr].
    change (String c r +:+ "frc" +:+ t) with (String c (r +:+ "frc" +:+ t)).
    rewrite replace_frc_step by exact (startswith_frc_app c r t Hp).
    rewrite IH by exact Hr. reflexivity.
Qed.

(** a piece without ["frc"] is kept, the occurrence after it dropped *)
Lemma replace_frc_pieces (pieces : list string) :
  Forall (fun p => PyStr.contains "frc" p = false) pieces ->
  replace_frc_in_str (String.concat "frc" pieces) = String.concat "" pieces.
Proof.
  induction 1 as [|p ps Hp Hps IH]; [reflexivity|].
  destruct ps as [|q ps].
  - cbn. now apply replace_frc_absent.
  - change (String.concat "frc" (p :: q :: ps))
      with (p +:+ "frc" +:+ String.concat "frc" (q :: ps)).
    rewrite replace_frc_piece by exact Hp. rewrite IH. reflexivity.
Qed.

Lemma concat_cons (sep : string) (c : ascii) (p : string) (ps : list string) :
  String.concat sep (String c p :: ps) = String c (String.concat sep (p :: ps)).
Proof. destruct ps; reflexivity. Qed.

(** every string is made of pieces without ["frc"], separated by ["frc"] *)
Lemma frc_pieces (s : string) :
  exists (p : string) (ps : list string),
    Forall (fun p => PyStr.contains "frc" p = false) (p :: ps)
    /\ s = String.concat "frc" (p :: ps).
Proof.
  induction s as [|c r (p & ps & Hall & ->)].
  - exists "", []. split; [repeat constructor | reflexivity].
  - inversion Hall as [|? ? Hp Hps]; subst.
    destruct (PyStr.startswith "frc" (String c p)) eqn:Hs.
    + cbn [PyStr.startswith] in Hs.
      apply andb_true_iff in Hs as [Hc Hs]. apply Ascii.eqb_eq in Hc as <-.
      destruct p as [|c1 p]; [discriminate Hs|].
      apply andb_true_iff in Hs as [Hc Hs]. apply Ascii.eqb_eq in Hc as <-.
      destruct p as [|c2 p]; [discriminate Hs|].
      apply andb_true_iff in Hs as [Hc _]. apply Ascii.eqb_eq in Hc as <-.
      apply contains_frc_tail in Hp as [_ Hp]. apply contains_frc_tail in Hp as [_ Hp].
      exists "", (p :: ps). split; [constructor; [reflexivity | now constructor]|].
      rewrite !concat_cons. reflexivity.
    + exists (String c p), ps. split.
      * constructor; [|exact Hps]. cbn [PyStr.contains]. now rewrite Hs, Hp.
      * now rewrite concat_cons.
Qed.

(** C7, as stated, fails: the function removes every occurrence of ["frc"],
    so removing one occurrence can join the characters around it into a new
    one (["ffrcrc"] becomes ["frc"], then [""]), and an occurrence that is not
    a prefix is removed as well (["xfrc"] becomes ["x"]). *)
Lemma replace_frc_not_idempotent_nor_prefix_only :
  ~ (replace_frc_in_str "frc3492" = "3492"
     /\ replace_frc_in_str "3492" = "3492"
     /\ (forall s, replace_frc_in_str (replace_frc_in_str s) = replace_frc_in_str s)
     /\ (forall s, PyStr.startswith "frc" s = false -> replace_frc_in_str s = s)).
Proof.
  intros (_ & _ & Hidem & _).
  specialize (Hidem "ffrcrc"). vm_compute in Hidem. discriminate Hidem.
Qed.

(** C7 (amended): the two team keys of the specification evaluate as it
    says; the function is the identity on every string in which ["frc"] does
    not occur; it strips the prefix of ["frc" ++ d] when ["frc"] does not
    occur in [d]; a second application changes nothing whenever the first
    result no longer contains ["frc"]; and it removes every occurrence of
    ["frc"], scanning from the left: the empty string is kept, an occurrence
    at the front is dropped and the scan goes on behind it, any other
    character is kept and the scan goes on behind it; so pieces without
    ["frc"] that are joined by ["frc"] come out joined by nothing, and every
    string is made of such pieces. *)
Theorem replace_frc_in_str_spec :
  replace_frc_in_str "frc3492" = "3492"
  /\ replace_frc_in_str "3492" = "3492"
  /\ (forall s, PyStr.contains "frc" s = false -> replace_frc_in_str s = s)
  /\ (forall d, PyStr.contains "frc" d = false ->
        replace_frc_in_str ("frc" +:+ d) = d)
  /\ (forall s, PyStr.contains "frc" (replace_frc_in_str s) = false ->
        replace_frc_in_str (replace_frc_in_str s) = replace_frc_in_str s)
  /\ replace_frc_in_str "" = ""
  /\ (forall s, replace_frc_in_str ("frc" +:+ s) = replace_frc_in_str s)
  /\ (forall c r, PyStr.startswith "frc" (String c r) = false ->
        replace_frc_in_str (String c r) = String c (replace_frc_in_str r))
  /\ (forall pieces : list string,
        Forall (fun p => PyStr.contains "frc" p = false) pieces ->
        replace_frc_in_str (String.concat "frc" pieces) = String.concat "" pieces)
  /\ (forall s, exists pieces : list string,
        Forall (fun p => PyStr.contains "frc" p = false) pieces
        /\ s = String.concat "frc" pieces
        /\ replace_frc_in_str s = String.concat "" pieces).
Proof.
  split; [reflexivity|]. split; [reflexivity|].
  split; [exact replace_frc_absent|]. split; [|split].
  - intros d Hd. transitivity (replace_frc_in_str d);
      [reflexivity | now apply replace_frc_absent].
  - intros s Hs. now apply replace_frc_absent.
  - split; [reflexivity|]. split; [exact replace_frc_prefix|].
    split; [exact replace_frc_step|]. split; [exact replace_frc_pieces|].
    intros s. destruct (frc_pieces s) as (p & ps & Hall & ->).
    exists (p :: ps). split; [exact Hall|]. split; [reflexivity|].
    now apply replace_frc_pieces.
Qed.

Lemma replace_frc_in_str_spec_witness :
  replace_frc_in_str "xyz" = "xyz"
  /\ replace_frc_in_str ("frc" +:+ "254") = "254"
  /\ replace_frc_in_str (replace_frc_in_str "frcfrc3492")
     = replace_frc_in_str "frcfrc3492"
  /\ replace_frc_in_str "xfrc12" = String "x" (replace_frc_in_str "frc12")
  /\ replace_frc_in_str (String.concat "frc" ["x"; "12"; ""; "y"])
     = String.concat "" ["x"; "12"; ""; "y"].
Proof.
  destruct replace_frc_in_str_spec as (_ & _ & H1 & H2 & H3 & _ & _ & H4 & H5 & _).
  split; [apply H1; reflexivity|].
  split; [apply H2; reflexivity|].
  split; [apply H3; reflexivity|].
  split; [apply H4; reflexivity|].
  apply H5. repeat (constructor; [reflexivity|]). constructor.
Defined.

(** ** Webhook verification *)

Section WebhookFacts.
Context `{PyLib}.

Lemma str_eq_true (a : string) (b : option string) :
  str_eq a b = true <-> b = Some a.
Proof.
  destruct b as [s|]; simpl.
  - rewrite String.eqb_eq. split; [intros ->; reflexivity | congruence].
  - split; discriminate.
Qed.

Lemma verify_tba_webhook_call_true (request : Request) :
  verify_tba_webhook_call request = true <->
  META request !! "HTTP_X_TBA_HMAC"
    = Some (hmac_sha256_hexdigest TBA_WEBHOOK_SECRET (json_dumps (data request))).
Proof. unfold verify_tba_webhook_call. apply str_eq_true. Qed.

End WebhookFacts.

(** C1: a request whose header carries exactly the hex digest of the
    serialised body under the shared secret is accepted; a request whose
    header carries any other string is rejected; and when an accepted request
    has its body replaced by one whose serialisation has another digest, the
    header being kept, it is rejected. *)
Theorem verify_tba_webhook_call_exact `{PyLib} :
  (forall request : Request,
      META request !! "HTTP_X_TBA_HMAC"
        = Some (hmac_sha256_hexdigest TBA_WEBHOOK_SECRET (json_dumps (data request))) ->
      verify_tba_webhook_call request = true)
  /\ (forall (request : Request) (supplied : string),
      META request !! "HTTP_X_TBA_HMAC" = Some supplied ->
      supplied <> hmac_sha256_hexdigest TBA_WEBHOOK_SECRET (json_dumps (data request)) ->
      verify_tba_webhook_call request = false)
  /\ (forall (request : Request) (body : json),
      verify_tba_webhook_call request = true ->
      hmac_sha256_hexdigest TBA_WEBHOOK_SECRET (json_dumps body)
        <> hmac_sha256_hexdigest TBA_WEBHOOK_SECRET (json_dumps (data request)) ->
      verify_tba_webhook_call {| data := body; META := META request |} = false).
Proof.
  assert (Hno : forall (request : Request) (supplied : string),
             META request !! "HTTP_X_TBA_HMAC" = Some supplied ->
             supplied <> hmac_sha256_hexdigest TBA_WEBHOOK_SECRET (json_dumps (data request)) ->
             verify_tba_webhook_call request = false).
  { intros request supplied Hh Hne.
    destruct (verify_tba_webhook_call request) eqn:E; [|reflexivity].
    apply verify_tba_webhook_call_true in E. congruence. }
  split; [|split; [exact Hno|]].
  - intros request Hh. now apply verify_tba_webhook_call_true.
  - intros request body Hyes Hne. apply verify_tba_webhook_call_true in Hyes.
    eapply Hno; [exact Hyes|]. cbn. congruence.
Qed.

Lemma verify_tba_webhook_call_exact_witness :
  @verify_tba_webhook_call Sample.lib
    {| data := JObj [("message_type", JStr "ping")];
       META := {[ "HTTP_X_TBA_HMAC" := "secret/{1}" ]} |} = true
  /\ @verify_tba_webhook_call Sample.lib
    {| data := JObj [("message_type", JStr "ping")];
       META := {[ "HTTP_X_TBA_HMAC" := "secret/{2}" ]} |} = false
  /\ @verify_tba_webhook_call Sample.lib
    {| data := JObj [("message_type", JStr "ping"); ("message_data", JNull)];
       META := {[ "HTTP_X_TBA_HMAC" := "secret/{1}" ]} |} = false.
Proof.
  destruct (@verify_tba_webhook_call_exact Sample.lib) as (Hyes & Hno & Hbody).
  split; [|split].
  - apply Hyes. reflexivity.
  - apply (Hno _ "secret/{2}"); [reflexivity | discriminate].
  - pose (request := {| data := JObj [("message_type", JStr "ping")];
                        META := {[ "HTTP_X_TBA_HMAC" := "secret/{1}" ]} |}).
    change (@verify_tba_webhook_call Sample.lib
              {| data := JObj [("message_type", JStr "ping"); ("message_data", JNull)];
                 META := META request |} = false).
    apply Hbody.
    + apply Hyes. reflexivity.
    + vm_compute. discriminate.
Defined.

(** C9: without the signature header the verification answers false: the
    digest, a string, is compared with [None]. *)
Theorem verify_tba_webhook_call_missing_header `{PyLib} (request : Request) :
  META request !! "HTTP_X_TBA_HMAC" = None ->
  verify_tba_webhook_call request = false.
Proof. intros Hm. unfold verify_tba_webhook_call. rewrite Hm. reflexivity. Qed.

Lemma verify_tba_webhook_call_missing_header_witness :
  @verify_tba_webhook_call Sample.lib
    {| data := JObj [("message_type", JStr "match_score")]; META := ∅ |} = false.
Proof.
  apply (@verify_tba_webhook_call_missing_header Sample.lib). reflexivity.
Defined.

(** ** Saving a webhook message *)

(** C8: the message is stored with the string form of its data cut to its
    first 4000 characters: exactly 4000 characters when the string form is
    longer, the string form itself when it is not. *)
Theorem save_message_truncates `{PyLib} (message message_type message_data : json) (db : DB) :
  Py.getitem message "message_type" = Ok message_type ->
  Py.getitem message "message_data" = Ok message_data ->
  messages db !! message_seq db = None ->
  exists (id : Z) (msg : Message.row) (db' : DB),
    save_message message db = (Ok (id, msg), db')
    /\ messages db' !! id = Some msg
    /\ Message.message_type msg = message_type
    /\ ((4000 < String.length (Py.str message_data))%nat ->
        Message.message_data msg = PyStr.take 4000 (Py.str message_data)
        /\ String.length (Message.message_data msg) = 4000%nat)
    /\ ((String.length (Py.str message_data) <= 4000)%nat ->
        Message.message_data msg = Py.str message_data).
Proof.
  intros Ht Hd Hfresh.
  eexists _, _, _. split.
  { unfold save_message, bind, lift, ret, Message_insert.
    rewrite Ht, Hd, Hfresh. reflexivity. }
  cbn [messages set_messages Message.message_type Message.message_data].
  split; [apply lookup_insert_eq|]. split; [reflexivity|]. split.
  - intros Hlong. split; [reflexivity|]. apply length_take_le. lia.
  - intros Hshort. now apply take_all.
Qed.

Lemma save_message_truncates_witness :
  exists (id : Z) (msg : Message.row) (db' : DB),
    @save_message Sample.lib
      (JObj [("message_type", JStr "test"); ("message_data", JStr (Sample.xs 5000))])
      Sample.empty_db = (Ok (id, msg), db')
    /\ messages db' !! id = Some msg
    /\ String.length (Message.message_data msg) = 4000%nat.
Proof.
  destruct (@save_message_truncates Sample.lib
              (JObj [("message_type", JStr "test"); ("message_data", JStr (Sample.xs 5000))])
              (JStr "test") (JStr (Sample.xs 5000)) Sample.empty_db
              eq_refl eq_refl eq_refl)
    as (id & msg & db' & Hrun & Hrow & _ & Hlong & _).
  exists id, msg, db'. split; [exact Hrun|]. split; [exact Hrow|].
  apply Hlong. apply Nat.ltb_lt. vm_compute. reflexivity.
Defined.

(** ** Fetching an event *)

Section FetchFacts.
Context `{PyLib}.
Variable fetch : string -> result json.




End FetchFacts.




(** ** Running the effects *)

Lemma bind_ok {A B} (m : M A) (k : A -> M B) (db db1 : DB) (a : A) :
  m db = (Ok a, db1) -> bind m k db = k a db1.
Proof. intros Hm. unfold bind. rewrite Hm. reflexivity. Qed.

Lemma bind_raise {A B} (m : M A) (k : A -> M B) (db db1 : DB) (e : exn) :
  m db = (Raise e, db1) -> bind m k db = (Raise e, db1).
Proof. intros Hm. unfold bind. rewrite Hm. reflexivity. Qed.

Lemma bind_inv_ok {A B} (m : M A) (k : A -> M B) (db db' : DB) (b : B) :
  bind m k db = (Ok b, db') ->
  exists a db1, m db = (Ok a, db1) /\ k a db1 = (Ok b, db').
Proof.
  unfold bind. destruct (m db) as [[a|e] db1]; intros Hk.
  - exists a, db1. split; [reflexivity | exact Hk].
  - discriminate Hk.
Qed.

Lemma lift_inv_ok {A} (r : result A) (db db' : DB) (a : A) :
  lift r db = (Ok a, db') -> r = Ok a /\ db' = db.
Proof. unfold lift. intros [= -> ->]. split; reflexivity. Qed.

Lemma try_except_inv_ok {A} (m : M A) (handles : exn -> bool) (h : exn -> M A)
    (db db' : DB) (a : A) :
  try_except m handles h db = (Ok a, db') ->
  m db = (Ok a, db')
  \/ exists e db1, m db = (Raise e, db1) /\ handles e = true /\ h e db1 = (Ok a, db').
Proof.
  unfold try_except. destruct (m db) as [[a'|e] db1]; intros Hr.
  - left. exact Hr.
  - right. exists e, db1. destruct (handles e); [auto | discriminate Hr].
Qed.

Lemma db_eq (a b : DB) :
  events a = events b -> event_seq a = event_seq b -> teams a = teams b ->
  event_teams a = event_teams b -> matches a = matches b ->
  match_seq a = match_seq b -> comp_levels a = comp_levels b ->
  messages a = messages b -> message_seq a = message_seq b -> a = b.
Proof. destruct a, b; simpl; intros; subst; reflexivity. Qed.

(** ** Looking a row up by a unique column *)

Section OrmFacts.
Context {A : Type}.
Implicit Types (P : A -> bool) (t : gmap Z A).

Lemma select_singleton P t (i : Z) (x : A) :
  Orm.select P t = [(i, x)] <->
  filter (fun kv : Z * A => P kv.2 = true) t = {[ i := x ]}.
Proof.
  unfold Orm.select. split.
  - intros Hl.
    rewrite <- (list_to_map_to_list (filter (fun kv : Z * A => P kv.2 = true) t)), Hl.
    reflexivity.
  - intros ->. apply map_to_list_singleton.
Qed.

Lemma select_nil P t :
  Orm.select P t = [] <-> filter (fun kv : Z * A => P kv.2 = true) t = ∅.
Proof. unfold Orm.select. apply map_to_list_empty_iff. Qed.

Lemma get_ok (model : string) P t (i : Z) (x : A) :
  Orm.get model P t = Ok (i, x) <-> Orm.select P t = [(i, x)].
Proof.
  unfold Orm.get. destruct (Orm.select P t) as [|[j y] [|? ?]]; split;
    try discriminate; congruence.
Qed.

Lemma get_ok_lookup (model : string) P t (i : Z) (x : A) :
  Orm.get model P t = Ok (i, x) -> t !! i = Some x /\ P x = true.
Proof.
  rewrite get_ok, select_singleton. intros Hf.
  assert (Hl : filter (fun kv : Z * A => P kv.2 = true) t !! i = Some x)
    by (rewrite Hf; apply lookup_singleton_eq).
  apply map_lookup_filter_Some in Hl. exact Hl.
Qed.

Lemma get_does_not_exist (model : string) P t (e : exn) :
  Orm.get model P t = Raise e ->
  (e = DoesNotExist model /\ Orm.select P t = [])
  \/ (exists n : nat, e = MultipleObjectsReturned model n).
Proof.
  unfold Orm.get. destruct (Orm.select P t) as [|[j y] [|? ?]]; intros [= <-]; eauto.
Qed.

(** a row that is saved with the looked-up column unchanged is found again *)
Lemma get_after_save (model : string) P t (i : Z) (x y : A) :
  Orm.get model P t = Ok (i, x) -> P y = true ->
  Orm.get model P (<[i := y]> t) = Ok (i, y).
Proof.
  rewrite !get_ok, !select_singleton. intros Hf Hy.
  rewrite map_filter_insert_True by exact Hy. rewrite Hf.
  apply insert_singleton_eq.
Qed.

(** a row inserted under a fresh key with a column value nobody has is the
    one found *)
Lemma get_after_insert (model : string) P t (i : Z) (y : A) :
  Orm.select P t = [] -> P y = true ->
  Orm.get model P (<[i := y]> t) = Ok (i, y).
Proof.
  rewrite get_ok, select_singleton, select_nil. intros Hf Hy.
  rewrite map_filter_insert_True by exact Hy. rewrite Hf. reflexivity.
Qed.

End OrmFacts.

(** ** The phases of [sync_event] *)

Section SyncEventFacts.
Context `{PyLib}.

Lemma sync_event_upsert_hit (season : Z) (d : EventData.t) (db : DB)
    (id : Z) (e : Event.row) (cd : string) :
  EventData.event_cd d = JStr cd ->
  Orm.get "Event" (event_cd_is (JStr cd)) (events db) = Ok (id, e) ->
  sync_event_upsert season d db
  = (Ok (id, event_found e d, "(NO ADD) Already have event: " +:+ cd +:+ LF), db).
Proof.
  intros Hcd Hget. unfold sync_event_upsert, try_except, bind, Event_objects_get, lift, ret.
  rewrite Hcd, Hget. reflexivity.
Qed.

Lemma sync_event_upsert_miss (season : Z) (d : EventData.t) (db : DB) (cd : string) :
  EventData.event_cd d = JStr cd ->
  Orm.select (event_cd_is (JStr cd)) (events db) = [] ->
  events db !! event_seq db = None ->
  sync_event_upsert season d db
  = (Ok (event_seq db, event_new season d cd, "(ADD) Added event: " +:+ cd +:+ LF),
     set_event_seq (event_seq db + 1)
       (set_events (insert (event_seq db) (event_new season d cd)) db)).
Proof.
  intros Hcd Hsel Hfresh.
  unfold sync_event_upsert, try_except, bind, Event_objects_get, Event_force_insert, lift, ret.
  rewrite Hcd. unfold Orm.get. rewrite Hsel. cbn. rewrite Hfresh, Hsel. reflexivity.
Qed.

Lemma sync_event_upsert_inv (season : Z) (d : EventData.t) (db dbu : DB)
    (id : Z) (ev : Event.row) (m0 : string) :
  sync_event_upsert season d db = (Ok (id, ev, m0), dbu) ->
  exists cd : string,
    EventData.event_cd d = JStr cd
    /\ ((exists e : Event.row,
           Orm.get "Event" (event_cd_is (JStr cd)) (events db) = Ok (id, e)
           /\ ev = event_found e d /\ dbu = db
           /\ m0 = "(NO ADD) Already have event: " +:+ cd +:+ LF)
        \/ (Orm.select (event_cd_is (JStr cd)) (events db) = []
            /\ events db !! event_seq db = None
            /\ id = event_seq db /\ ev = event_new season d cd
            /\ dbu = set_event_seq (event_seq db + 1)
                       (set_events (insert (event_seq db) (event_new season d cd)) db)
            /\ m0 = "(ADD) Added event: " +:+ cd +:+ LF)).
Proof.
  intros Hrun. apply try_except_inv_ok in Hrun as [Hhit | (e & db1 & Hbody & Hh & Hmiss)].
  - apply bind_inv_ok in Hhit as ([i e] & db1 & Hget & Hrest).
    apply bind_inv_ok in Hrest as (line & db2 & Hline & Hret).
    apply lift_inv_ok in Hline as [Hline ->].
    unfold ret in Hret. injection Hret as <- <- <- <-.
    unfold Event_objects_get in Hget. injection Hget as Hget <-.
    destruct (EventData.event_cd d) as [| | |cd| |] eqn:Hcd; try discriminate Hline.
    injection Hline as <-. exists cd. split; [reflexivity|]. left. exists e. auto.
  - apply bind_inv_ok in Hmiss as ([i ev'] & db2 & Hins & Hrest).
    apply bind_inv_ok in Hrest as (line & db3 & Hline & Hret).
    apply lift_inv_ok in Hline as [Hline ->].
    unfold ret in Hret. injection Hret as <- <- <- <-.
    destruct (EventData.event_cd d) as [| | |cd| |] eqn:Hcd; try discriminate Hline.
    injection Hline as <-. exists cd. split; [reflexivity|]. right.
    (* the body raised: nothing was written, and the lookup found nothing *)
    unfold bind, Event_objects_get in Hbody.
    destruct (Orm.get "Event" (event_cd_is (JStr cd)) (events db)) as [[j x]|e'] eqn:Hget.
    { cbn in Hbody. discriminate Hbody. }
    injection Hbody as <- <-.
    apply get_does_not_exist in Hget as [[-> Hsel] | [? ->]]; [|discriminate Hh].
    unfold Event_force_insert in Hins. cbn in Hins. rewrite Hsel in Hins.
    destruct (events db !! event_seq db) eqn:Hfresh; [discriminate Hins|].
    injection Hins as <- <- <-. auto 10.
Qed.

Lemma sync_event_remove_run (id : Z) (cd : json) (stale : list (Z * Team.row))
    (msgs : string) (db : DB) :
  exists msgs' : string,
    sync_event_remove id cd stale msgs db
    = (Ok msgs',
       set_event_teams
         (fun links => links ∖ list_to_set ((fun kv : Z * Team.row => (kv.1, id)) <$> stale)) db)
    /\ (stale = [] -> msgs' = msgs).
Proof.
  revert msgs db. induction stale as [|[n t] rest IH]; intros msgs db.
  - exists msgs. split; [|reflexivity]. cbn. unfold ret. f_equal.
    apply db_eq; try reflexivity. cbn. set_solver.
  - cbn [sync_event_remove]. unfold bind at 1, event_set_remove, write.
    edestruct IH as (msgs' & -> & _). exists msgs'. split; [|discriminate].
    f_equal. apply db_eq; try reflexivity. cbn. set_solver.
Qed.

Lemma int_value_accepts (v : json) (n : Z) :
  Orm.int_value v = Ok (Some n) ->
  forall vs : list json,
    hashable_all (v :: vs) = hashable_all vs /\ rejected (v :: vs) = rejected vs.
Proof.
  intros Hv vs. unfold rejected.
  destruct v as [| | |s| |]; try discriminate Hv; cbn; try (split; reflexivity).
  cbn in Hv. destruct (int_of_str s); [split; reflexivity | discriminate Hv].
Qed.

Lemma team_no_in_numbered (teams : list TeamData.t) (nos : list Z) :
  numbered teams nos -> team_no_in teams = Ok nos.
Proof.
  intros Hnum.
  assert (Hset : hashable_all (TeamData.team_no <$> teams) = Ok tt
                 /\ rejected (TeamData.team_no <$> teams) = []
                 /\ prepared teams = Ok nos).
  { induction Hnum as [|t n ts ns Ht _ (IH1 & IH2 & IH3)]; [repeat split|].
    rewrite fmap_cons.
    destruct (int_value_accepts _ _ Ht (TeamData.team_no <$> ts)) as [-> ->].
    repeat split; [exact IH1 | exact IH2 |].
    cbn. rewrite Ht, IH3. reflexivity. }
  destruct Hset as (H1 & H2 & H3).
  unfold team_no_in. cbn zeta. rewrite H1, H2. exact H3.
Qed.

Lemma sync_event_team_old (id : Z) (cd : json) (t : TeamData.t) (n : Z) (r : Team.row) (db : DB) :
  Orm.int_value (TeamData.team_no t) = Ok (Some n) ->
  teams db !! n = Some r ->
  sync_event_team id cd t db
  = (Ok (already_line cd t),
     set_event_teams (fun links => links ∪ {[ (n, id) ]}) db).
Proof.
  intros Hn Hr.
  unfold sync_event_team, bind, try_except, Team_force_insert, Team_objects_get,
    event_set_add, write, ret.
  rewrite Hn, Hr. cbn. rewrite ?Hn, ?Hr. reflexivity.
Qed.

Lemma sync_event_team_new (id : Z) (cd : json) (t : TeamData.t) (n : Z) (db : DB) :
  Orm.int_value (TeamData.team_no t) = Ok (Some n) ->
  teams db !! n = None ->
  exists lines : string,
    sync_event_team id cd t db
    = (Ok lines,
       set_event_teams (fun links => links ∪ {[ (n, id) ]})
         (set_teams (insert n {| Team.team_nm := TeamData.team_nm t; Team.void_ind := "n" |}) db)).
Proof.
  intros Hn Hr.
  unfold sync_event_team, bind, try_except, Team_force_insert, Team_objects_get,
    event_set_add, write, ret.
  rewrite Hn, Hr. cbn. eexists. reflexivity.
Qed.

Lemma sync_event_team_inv (id : Z) (cd : json) (t : TeamData.t) (db db' : DB) (lines : string) :
  sync_event_team id cd t db = (Ok lines, db') ->
  exists n : Z, Orm.int_value (TeamData.team_no t) = Ok (Some n).
Proof.
  unfold sync_event_team, bind, try_except, Team_force_insert, Team_objects_get,
    event_set_add, write, ret.
  destruct (Orm.int_value (TeamData.team_no t)) as [[n|]|e] eqn:Hn.
  - intros _. exists n. reflexivity.
  - cbn. discriminate.
  - destruct (is_IntegrityError e); discriminate.
Qed.

Lemma sync_event_teams_inv (id : Z) (cd : json) (teams : list TeamData.t)
    (msgs msgs' : string) (db db' : DB) :
  sync_event_teams id cd teams msgs db = (Ok msgs', db') ->
  exists nos : list Z, numbered teams nos.
Proof.
  revert msgs db. induction teams as [|t ts IH]; intros msgs db Hrun.
  - exists []. constructor.
  - cbn [sync_event_teams] in Hrun.
    apply bind_inv_ok in Hrun as (lines & db1 & Ht & Hrest).
    apply sync_event_team_inv in Ht as [n Hn].
    apply IH in Hrest as [ns Hns].
    exists (n :: ns). now constructor.
Qed.

Lemma sync_event_teams_run (id : Z) (cd : json) (teams_ : list TeamData.t) (nos : list Z)
    (msgs : string) (db : DB) :
  numbered teams_ nos ->
  exists (msgs' : string) (tm' : gmap Z Team.row),
    sync_event_teams id cd teams_ msgs db
    = (Ok msgs',
       set_teams (fun _ => tm')
         (set_event_teams (fun links => links ∪ reported_links nos id) db))
    /\ teams db ⊆ tm'
    /\ dom tm' = dom (teams db) ∪ list_to_set nos
    /\ (list_to_set nos ⊆ dom (teams db) ->
        tm' = teams db /\ msgs' = already_lines cd teams_ msgs).
Proof.
  intros Hnum. revert msgs db.
  induction Hnum as [|t n ts ns Hn _ IH]; intros msgs db.
  - exists msgs, (teams db). split; [|split; [reflexivity|split]].
    + cbn. unfold ret. f_equal. apply db_eq; try reflexivity.
      cbn. unfold reported_links. set_solver.
    + cbn. set_solver.
    + intros _. split; reflexivity.
  - cbn [sync_event_teams].
    destruct (teams db !! n) as [r|] eqn:Hr.
    + rewrite (bind_ok _ _ _ _ _ (sync_event_team_old id cd t n r db Hn Hr)).
      destruct (IH (msgs +:+ already_line cd t)
                   (set_event_teams (fun links => links ∪ {[ (n, id) ]}) db))
        as (msgs' & tm' & -> & Hsub & Hdom & Hall).
      cbn [teams set_event_teams] in Hsub, Hdom, Hall.
      exists msgs', tm'. split; [|split; [exact Hsub|split]].
      * f_equal. apply db_eq; try reflexivity.
        cbn. unfold reported_links. cbn. set_solver.
      * rewrite Hdom. apply elem_of_dom_2 in Hr. cbn. set_solver.
      * intros Hin. apply Hall. cbn in Hin. set_solver.
    + destruct (sync_event_team_new id cd t n db Hn Hr) as (lines & Hstep).
      rewrite (bind_ok _ _ _ _ _ Hstep).
      destruct (IH (msgs +:+ lines)
                   (set_event_teams (fun links => links ∪ {[ (n, id) ]})
                      (set_teams (insert n {| Team.team_nm := TeamData.team_nm t;
                                              Team.void_ind := "n" |}) db)))
        as (msgs' & tm' & -> & Hsub & Hdom & _).
      cbn [teams set_event_teams set_teams] in Hsub, Hdom.
      exists msgs', tm'. split; [|split; [|split]].
      * f_equal. apply db_eq; try reflexivity.
        cbn. unfold reported_links. cbn. set_solver.
      * etrans; [|exact Hsub]. now apply insert_subseteq.
      * rewrite Hdom, dom_insert_L. cbn. set_solver.
      * intros Hin. apply not_elem_of_dom in Hr. cbn in Hin. set_solver.
Qed.

Variable fetch : string -> result json.

Lemma sync_event_run (season : Z) (event_cd : string) (d : EventData.t)
    (teams_ : list TeamData.t) (nos : list Z) (id : Z) (ev : Event.row) (m0 : string)
    (db dbu : DB) :
  get_tba_event fetch event_cd = Ok d ->
  get_tba_event_teams fetch event_cd = Ok teams_ ->
  sync_event_upsert season d db = (Ok (id, ev, m0), dbu) ->
  numbered teams_ nos ->
  exists (msg : string) (tm' : gmap Z Team.row),
    sync_event fetch season event_cd db
    = (Ok msg,
       set_teams (fun _ => tm')
         (set_event_teams
            (fun links => (links ∖ stale_links nos id dbu) ∪ reported_links nos id)
            (set_events (insert id (event_details ev d)) dbu)))
    /\ teams dbu ⊆ tm'
    /\ dom tm' = dom (teams dbu) ∪ list_to_set nos
    /\ (list_to_set nos ⊆ dom (teams dbu) ->
        tm' = teams dbu
        /\ (Team_objects_not_in_at nos id dbu = [] ->
            msg = already_lines (EventData.event_cd d) teams_ m0)).
Proof.
  intros Hd Ht Hup Hnum. unfold sync_event.
  rewrite (bind_ok _ _ db db d) by (unfold lift; now rewrite Hd).
  rewrite (bind_ok _ _ db db teams_) by (unfold lift; now rewrite Ht).
  rewrite (bind_ok _ _ _ _ _ Hup).
  unfold bind at 1, Event_save, write.
  rewrite (bind_ok _ _ _ _ nos) by (unfold lift; now rewrite (team_no_in_numbered _ _ Hnum)).
  unfold bind at 1, read.
  set (dbs := set_events (insert id (event_details ev d)) dbu).
  destruct (sync_event_remove_run id (EventData.event_cd d)
              (Team_objects_not_in_at nos id dbs) m0 dbs) as (m1 & Hrem & Hm1).
  rewrite (bind_ok _ _ _ _ _ Hrem).
  destruct (sync_event_teams_run id (EventData.event_cd d) teams_ nos m1
              (set_event_teams
                 (fun links => links ∖ list_to_set
                    ((fun kv : Z * Team.row => (kv.1, id)) <$> Team_objects_not_in_at nos id dbs))
                 dbs) Hnum)
    as (msg & tm' & -> & Hsub & Hdom & Hall).
  exists msg, tm'. split; [|split; [exact Hsub|split; [exact Hdom|]]].
  - f_equal.
  - intros Hin. destruct (Hall Hin) as [-> ->]. split; [reflexivity|].
    intros Hstale. rewrite Hm1 by exact Hstale. reflexivity.
Qed.

Lemma sync_event_inv (season : Z) (event_cd : string) (db db' : DB) (msg : string) :
  sync_event fetch season event_cd db = (Ok msg, db') ->
  exists (d : EventData.t) (teams_ : list TeamData.t) (nos : list Z)
         (id : Z) (ev : Event.row) (m0 : string) (dbu : DB),
    get_tba_event fetch event_cd = Ok d
    /\ get_tba_event_teams fetch event_cd = Ok teams_
    /\ sync_event_upsert season d db = (Ok (id, ev, m0), dbu)
    /\ numbered teams_ nos.
Proof.
  unfold sync_event. intros Hrun.
  apply bind_inv_ok in Hrun as (d & db1 & Hd & Hrun). apply lift_inv_ok in Hd as [Hd ->].
  apply bind_inv_ok in Hrun as (ts & db1 & Ht & Hrun). apply lift_inv_ok in Ht as [Ht ->].
  apply bind_inv_ok in Hrun as ([[id ev] m0] & dbu & Hup & Hrun).
  apply bind_inv_ok in Hrun as (? & db1 & _ & Hrun).
  apply bind_inv_ok in Hrun as (nos' & db2 & _ & Hrun).
  apply bind_inv_ok in Hrun as (stale & db3 & _ & Hrun).
  apply bind_inv_ok in Hrun as (m1 & db4 & _ & Hrun).
  apply sync_event_teams_inv in Hrun as [nos Hnum].
  exists d, ts, nos, id, ev, m0, dbu. auto.
Qed.

End SyncEventFacts.

(** ** Relations every outcome of a run respects *)

Section Keeps.
Variable R : DB -> DB -> Prop.
Hypothesis R_refl : forall db, R db db.
Hypothesis R_trans : forall a b c, R a b -> R b c -> R a c.

Lemma keeps_ret {A} (a : A) : keeps R (ret a).
Proof using R_refl. intros db db' r [= <- <-]. apply R_refl. Qed.

Lemma keeps_lift {A} (x : result A) : keeps R (lift x).
Proof using R_refl. intros db db' r [= <- <-]. apply R_refl. Qed.

Lemma keeps_read {A} (f : DB -> A) : keeps R (read f).
Proof using R_refl. intros db db' r [= <- <-]. apply R_refl. Qed.

Lemma keeps_bind {A B} (m : M A) (k : A -> M B) :
  keeps R m -> (forall a, keeps R (k a)) -> keeps R (bind m k).
Proof using R_trans.
  intros Hm Hk db db' r. unfold bind.
  destruct (m db) as [[a|e] db1] eqn:E; intros Hr.
  - eapply R_trans; [eapply Hm, E | eapply Hk, Hr].
  - injection Hr as <- <-. eapply Hm, E.
Qed.

Lemma keeps_try_except {A} (m : M A) (handles : exn -> bool) (h : exn -> M A) :
  keeps R m -> (forall e, keeps R (h e)) -> keeps R (try_except m handles h).
Proof using R_trans.
  intros Hm Hh db db' r. unfold try_except.
  destruct (m db) as [[a|e] db1] eqn:E; intros Hr.
  - injection Hr as <- <-. eapply Hm, E.
  - destruct (handles e).
    + eapply R_trans; [eapply Hm, E | eapply Hh, Hr].
    + injection Hr as <- <-. eapply Hm, E.
Qed.

End Keeps.

Lemma seasons_kept_refl (db : DB) : seasons_kept db db.
Proof. intros id e He. eauto. Qed.

Lemma seasons_kept_trans (a b c : DB) :
  seasons_kept a b -> seasons_kept b c -> seasons_kept a c.
Proof.
  intros Hab Hbc id e He.
  destruct (Hab id e He) as (e1 & He1 & Hs1).
  destruct (Hbc id e1 He1) as (e2 & He2 & Hs2).
  exists e2. split; [exact He2 | congruence].
Qed.

Section FrameFacts.
Context `{PyLib}.

Lemma same_events_trans (a b c : DB) : same_events a b -> same_events b c -> same_events a c.
Proof. unfold same_events. congruence. Qed.

Lemma Team_force_insert_same_events (no nm : json) : keeps same_events (Team_force_insert no nm).
Proof.
  intros db db' r. unfold Team_force_insert.
  destruct (Orm.int_value no) as [[n|]|e]; [destruct (teams db !! n)|..];
    intros [= <- <-]; reflexivity.
Qed.

Lemma Team_objects_get_same_events (no : json) : keeps same_events (Team_objects_get no).
Proof.
  intros db db' r. unfold Team_objects_get.
  destruct (Orm.int_value no) as [[n|]|e]; [destruct (teams db !! n)|..];
    intros [= <- <-]; reflexivity.
Qed.

Lemma sync_event_team_same_events (id : Z) (cd : json) (t : TeamData.t) :
  keeps same_events (sync_event_team id cd t).
Proof.
  unfold sync_event_team.
  apply keeps_bind; [exact same_events_trans | | intros [team line]].
  - apply keeps_try_except; [exact same_events_trans | | intros e].
    + apply keeps_bind; [exact same_events_trans | | intros a].
      * apply Team_force_insert_same_events.
      * now apply keeps_ret.
    + apply keeps_bind; [exact same_events_trans | | intros a].
      * apply Team_objects_get_same_events.
      * now apply keeps_ret.
  - apply keeps_bind; [exact same_events_trans | | intros a].
    + intros db db' r [= <- <-]. reflexivity.
    + now apply keeps_ret.
Qed.

Lemma sync_event_teams_same_events (id : Z) (cd : json) (ts : list TeamData.t) (msgs : string) :
  keeps same_events (sync_event_teams id cd ts msgs).
Proof.
  revert msgs. induction ts as [|t ts IH]; intros msgs; cbn [sync_event_teams].
  - now apply keeps_ret.
  - apply keeps_bind; [exact same_events_trans | | intros a; apply IH].
    apply sync_event_team_same_events.
Qed.

Lemma sync_event_remove_same_events (id : Z) (cd : json) (stale : list (Z * Team.row))
    (msgs : string) :
  keeps same_events (sync_event_remove id cd stale msgs).
Proof.
  intros db db' r Hrun.
  destruct (sync_event_remove_run id cd stale msgs db) as (m & Hm & _).
  rewrite Hm in Hrun. injection Hrun as <- <-. reflexivity.
Qed.

(** the first [try] of [sync_event] never changes a row that exists *)
Lemma sync_event_upsert_seasons_kept (season : Z) (d : EventData.t) :
  keeps seasons_kept (sync_event_upsert season d).
Proof.
  unfold sync_event_upsert.
  apply keeps_try_except; [exact seasons_kept_trans | | intros _].
  - apply keeps_bind; [exact seasons_kept_trans | | intros [id e]].
    + intros db db' r [= <- <-]. apply seasons_kept_refl.
    + apply keeps_bind; [exact seasons_kept_trans | | intros a].
      * now apply keeps_lift, seasons_kept_refl.
      * now apply keeps_ret, seasons_kept_refl.
  - apply keeps_bind; [exact seasons_kept_trans | | intros [id e]].
    + intros db db' r. unfold Event_force_insert.
      destruct (Orm.char_value (EventData.event_cd d)) as [s|];
        [|intros [= <- <-]; apply seasons_kept_refl].
      destruct (events db !! event_seq db) eqn:Hfresh;
        [destruct (Orm.select (event_cd_is (JStr s)) (events db));
         intros [= <- <-]; apply seasons_kept_refl|].
      destruct (Orm.select (event_cd_is (JStr s)) (events db));
        intros [= <- <-]; [|apply seasons_kept_refl].
      intros id e He. exists e. split; [|reflexivity]. cbn.
      rewrite lookup_insert_ne; [exact He | congruence].
    + apply keeps_bind; [exact seasons_kept_trans | | intros a].
      * now apply keeps_lift, seasons_kept_refl.
      * now apply keeps_ret, seasons_kept_refl.
Qed.

(** what follows the save of the event leaves the event table alone *)
Lemma sync_event_tail_same_events (id : Z) (d : EventData.t) (ts : list TeamData.t)
    (m0 : string) :
  keeps same_events
    (let! nos := lift (team_no_in ts) in
     let! stale := read (Team_objects_not_in_at nos id) in
     let! messages := sync_event_remove id (EventData.event_cd d) stale m0 in
     sync_event_teams id (EventData.event_cd d) ts messages).
Proof.
  apply keeps_bind; [exact same_events_trans | | intros nos].
  { now apply keeps_lift. }
  apply keeps_bind; [exact same_events_trans | | intros stale].
  { now apply keeps_read. }
  apply keeps_bind; [exact same_events_trans | | intros msgs].
  - apply sync_event_remove_same_events.
  - apply sync_event_teams_same_events.
Qed.

End FrameFacts.

(** ** Synchronising an event *)

(** C10: whatever [sync_event] does and however it ends, every event row
    that existed before the call, the one under the looked-up event code
    among them, is still there afterwards with the season it had: the
    season passed to the call is written on the creation branch only. *)
Theorem sync_event_keeps_season `{PyLib} (fetch : string -> result json)
    (season : Z) (event_cd : string) (db db' : DB) (r : result string)
    (id : Z) (e : Event.row) :
  sync_event fetch season event_cd db = (r, db') ->
  events db !! id = Some e ->
  exists e' : Event.row,
    events db' !! id = Some e' /\ Event.season e' = Event.season e.
Proof.
  intros Hrun. revert id e. change (seasons_kept db db').
  unfold sync_event in Hrun.
  destruct (get_tba_event fetch event_cd) as [d|e0] eqn:Hd.
  2: { injection Hrun as <- <-. apply seasons_kept_refl. }
  rewrite (bind_ok _ _ db db d) in Hrun by reflexivity.
  destruct (get_tba_event_teams fetch event_cd) as [ts|e0] eqn:Hts.
  2: { injection Hrun as <- <-. apply seasons_kept_refl. }
  rewrite (bind_ok _ _ db db ts) in Hrun by reflexivity.
  destruct (sync_event_upsert season d db) as [[[[i ev] m0]|e0] dbu] eqn:Hup.
  2: { rewrite (bind_raise _ _ _ _ _ Hup) in Hrun. injection Hrun as <- <-.
       eapply sync_event_upsert_seasons_kept, Hup. }
  rewrite (bind_ok _ _ _ _ _ Hup) in Hrun.
  unfold bind at 1, Event_save, write in Hrun.
  apply sync_event_tail_same_events in Hrun. unfold same_events in Hrun. cbn in Hrun.
  apply sync_event_upsert_inv in Hup
    as (cd & _ & [(e0 & Hget & -> & -> & _) | (_ & Hfresh & -> & -> & -> & _)]).
  - apply get_ok_lookup in Hget as [Hlook _].
    intros j e Hj. rewrite Hrun. destruct (decide (i = j)) as [->|Hne].
    + rewrite lookup_insert_eq. eexists. split; [reflexivity|]. cbn. congruence.
    + rewrite lookup_insert_ne by exact Hne. eauto.
  - intros j e Hj. rewrite Hrun. cbn.
    assert (event_seq db <> j) by congruence.
    rewrite !lookup_insert_ne by assumption. eauto.
Qed.

Lemma sync_event_keeps_season_witness :
  exists e' : Event.row,
    events (@sync_event Sample.lib Sample.fetch 99 "2024pahat" Sample.db_abc).2 !! 1
      = Some e'
    /\ Event.season e' = 7.
Proof.
  apply (@sync_event_keeps_season Sample.lib Sample.fetch 99 "2024pahat" Sample.db_abc
           (@sync_event Sample.lib Sample.fetch 99 "2024pahat" Sample.db_abc).2
           (@sync_event Sample.lib Sample.fetch 99 "2024pahat" Sample.db_abc).1
           1 Sample.event_row).
  - vm_compute. reflexivity.
  - reflexivity.
Defined.

Section RosterFacts.
Context `{PyLib}.

Lemma elem_of_teams_at (n id : Z) (db : DB) :
  n ∈ teams_at id db <-> is_Some (teams db !! n) /\ (n, id) ∈ event_teams db.
Proof.
  unfold teams_at. rewrite elem_of_dom. split.
  - intros [r Hr]. apply map_lookup_filter_Some in Hr as [Hr Hl]. eauto.
  - intros [[r Hr] Hl]. exists r. apply map_lookup_filter_Some. auto.
Qed.

Lemma elem_of_stale_links (nos : list Z) (id : Z) (db : DB) (n i : Z) :
  (n, i) ∈ stale_links nos id db <->
  i = id /\ (n ∉ nos) /\ ((n, id) ∈ event_teams db) /\ is_Some (teams db !! n).
Proof.
  unfold stale_links, Team_objects_not_in_at.
  rewrite elem_of_list_to_set, list_elem_of_fmap. split.
  - intros ([m r] & [= -> ->] & Hin).
    apply elem_of_map_to_list, map_lookup_filter_Some in Hin as [Hr [Hn Hl]].
    cbn in Hn, Hl. eauto.
  - intros (-> & Hn & Hl & [r Hr]). exists (n, r). split; [reflexivity|].
    apply elem_of_map_to_list, map_lookup_filter_Some. auto.
Qed.

Lemma elem_of_reported_links (nos : list Z) (id : Z) (n i : Z) :
  (n, i) ∈ reported_links nos id <-> i = id /\ n ∈ nos.
Proof.
  unfold reported_links. rewrite elem_of_list_to_set, list_elem_of_fmap. split.
  - intros (m & [= -> ->] & Hin). auto.
  - intros [-> Hin]. eauto.
Qed.

(** the links after a run of [sync_event] that ends well *)
Lemma elem_of_links_after (nos : list Z) (id : Z) (db : DB) (n i : Z) :
  (n, i) ∈ (event_teams db ∖ stale_links nos id db) ∪ reported_links nos id <->
  (i = id /\ n ∈ nos)
  \/ (((n, i) ∈ event_teams db)
      /\ ~ (i = id /\ (n ∉ nos) /\ is_Some (teams db !! n))).
Proof.
  rewrite elem_of_union, elem_of_difference, elem_of_stale_links, elem_of_reported_links.
  split.
  - intros [[Hl Hns] | Hr]; [right | left; exact Hr].
    split; [exact Hl|]. intros (-> & Hn & Hs). apply Hns. auto.
  - intros [Hr | [Hl Hns]]; [right; exact Hr | left].
    split; [exact Hl|]. intros (-> & Hn & _ & Hs). apply Hns. auto.
Qed.

(** the teams linked to the event after such a run are the reported ones *)
Lemma teams_at_after (nos : list Z) (id : Z) (db db' : DB) :
  dom (teams db') = dom (teams db) ∪ list_to_set nos ->
  event_teams db' = (event_teams db ∖ stale_links nos id db) ∪ reported_links nos id ->
  teams_at id db' = list_to_set nos.
Proof.
  intros Hdom Hlinks. apply set_eq. intros n.
  rewrite elem_of_teams_at, elem_of_list_to_set, Hlinks.
  rewrite elem_of_links_after, <- elem_of_dom, Hdom, elem_of_union, elem_of_list_to_set,
    elem_of_dom.
  split.
  - intros [[Hs | Hn] [[_ Hn'] | [Hl Hns]]]; try assumption.
    destruct (decide (n ∈ nos)) as [Hin | Hout]; [exact Hin|].
    exfalso. apply Hns. auto.
  - intros Hn. split; [right | left]; auto.
Qed.

End RosterFacts.

(** C2: when the event exists, the teams linked to it are A, B and C and the
    reported teams are B, C and D, with A not among them, [sync_event] ends
    well; afterwards A is no longer linked to the event, D is, B and C still
    are, the rows of B and C are as they were, the teams linked to the event
    are exactly B, C and D, and no link to another event has changed. *)
Theorem sync_event_reconciles_roster `{PyLib} (fetch : string -> result json)
    (season : Z) (event_cd cd : string) (db : DB) (d : EventData.t)
    (teams_ : list TeamData.t) (nos : list Z) (id : Z) (e : Event.row) (A B C D : Z) :
  get_tba_event fetch event_cd = Ok d ->
  get_tba_event_teams fetch event_cd = Ok teams_ ->
  EventData.event_cd d = JStr cd ->
  Orm.get "Event" (event_cd_is (JStr cd)) (events db) = Ok (id, e) ->
  numbered teams_ nos ->
  list_to_set nos = ({[ B; C; D ]} : gset Z) ->
  teams_at id db = {[ A; B; C ]} ->
  A <> B -> A <> C -> A <> D ->
  exists (msg : string) (db' : DB),
    sync_event fetch season event_cd db = (Ok msg, db')
    /\ ((A, id) ∉ event_teams db')
    /\ ((D, id) ∈ event_teams db')
    /\ ((B, id) ∈ event_teams db') /\ ((C, id) ∈ event_teams db')
    /\ teams db' !! B = teams db !! B /\ teams db' !! C = teams db !! C
    /\ teams_at id db' = {[ B; C; D ]}
    /\ (forall n i : Z,
          i <> id -> ((n, i) ∈ event_teams db') <-> ((n, i) ∈ event_teams db)).
Proof.
  intros Hd Ht Hcd Hget Hnum Hnos Hat HAB HAC HAD.
  destruct (sync_event_run fetch season event_cd d teams_ nos id (event_found e d) _ db db
              Hd Ht (sync_event_upsert_hit season d db id e cd Hcd Hget) Hnum)
    as (msg & tm' & Hrun & Hsub & Hdom & _).
  eexists msg, _. split; [exact Hrun|].
  cbn [teams event_teams set_teams set_event_teams set_events].
  assert (Hin : forall n : Z, n ∈ nos <-> n = B \/ n = C \/ n = D).
  { intros n. rewrite <- (elem_of_list_to_set (C := gset Z)), Hnos. set_solver. }
  assert (Hlinked : forall n : Z,
             n = A \/ n = B \/ n = C ->
             is_Some (teams db !! n) /\ (n, id) ∈ event_teams db).
  { intros n Hn. apply elem_of_teams_at. rewrite Hat. set_solver. }
  assert (Hkept : forall n : Z, n = B \/ n = C -> tm' !! n = teams db !! n).
  { intros n Hn. destruct (Hlinked n) as [[r Hr] _]; [tauto|].
    rewrite Hr. eapply lookup_weaken; [exact Hr | exact Hsub]. }
  repeat split.
  - rewrite elem_of_links_after. intros [[_ HA] | [_ Hns]].
    + apply Hin in HA. tauto.
    + apply Hns. split; [reflexivity|]. split; [|apply Hlinked; auto].
      rewrite Hin. tauto.
  - apply elem_of_links_after. left. rewrite Hin. auto.
  - apply elem_of_links_after. left. rewrite Hin. auto.
  - apply elem_of_links_after. left. rewrite Hin. auto.
  - apply Hkept. auto.
  - apply Hkept. auto.
  - rewrite <- Hnos. now apply (teams_at_after nos id db).
  - rewrite elem_of_links_after. intros [[-> _] | [Hl _]]; [contradiction | exact Hl].
  - intros Hl. apply elem_of_links_after. right. split; [exact Hl|]. tauto.
Qed.

Lemma sync_event_reconciles_roster_witness :
  exists (msg : string) (db' : DB),
    @sync_event Sample.lib Sample.fetch 7 "2024pahat" Sample.db_abc = (Ok msg, db')
    /\ ((3492, 1) ∉ event_teams db')
    /\ ((3495, 1) ∈ event_teams db')
    /\ teams db' !! 3493 = teams Sample.db_abc !! 3493
    /\ teams_at 1 db' = {[ 3493; 3494; 3495 ]}.
Proof.
  destruct (@sync_event_reconciles_roster Sample.lib Sample.fetch 7 "2024pahat" "2024pahat"
              Sample.db_abc Sample.event_data Sample.roster [3493; 3494; 3495]
              1 Sample.event_row 3492 3493 3494 3495)
    as (msg & db' & Hrun & HA & HD & _ & _ & HB & _ & Hat & _).
  - vm_compute. reflexivity.
  - vm_compute. reflexivity.
  - reflexivity.
  - vm_compute. reflexivity.
  - repeat constructor.
  - vm_compute. reflexivity.
  - vm_compute. reflexivity.
  - lia.
  - lia.
  - lia.
  - exists msg, db'. auto.
Defined.

(** ** Saving a match *)

Section MatchFacts.
Context `{PyLib}.

Lemma reads_ret {A} (a : A) : reads lookup_view (ret a) (fun _ => Ok a).
Proof. intros db. reflexivity. Qed.

Lemma reads_lift {A} (r : result A) : reads lookup_view (lift r) (fun _ => r).
Proof. intros db. reflexivity. Qed.

Lemma reads_bind {A B} (m : M A) (k : A -> M B) F G :
  reads lookup_view m F ->
  (forall a, reads lookup_view (k a) (G a)) ->
  reads lookup_view (bind m k)
    (fun v => match F v with Ok a => G a v | Raise e => Raise e end).
Proof.
  intros Hm Hk db. unfold bind. rewrite Hm.
  destruct (F _) as [a|e]; [apply Hk | reflexivity].
Qed.

Lemma reads_bind_pair {A1 A2 B} (m : M (A1 * A2)) (k : A1 * A2 -> M B) F G :
  reads lookup_view m F ->
  (forall a1 a2, reads lookup_view (k (a1, a2)) (G a1 a2)) ->
  reads lookup_view (bind m k)
    (fun v => match F v with Ok (a1, a2) => G a1 a2 v | Raise e => Raise e end).
Proof.
  intros Hm Hk db. unfold bind. rewrite Hm.
  destruct (F _) as [[a1 a2]|e]; [apply Hk | reflexivity].
Qed.

Lemma reads_Event_objects_get (v : json) :
  reads lookup_view (Event_objects_get v)
    (fun view => Orm.get "Event" (event_cd_is v) view.1.1).
Proof. intros db. reflexivity. Qed.

Lemma reads_CompetitionLevel_objects_get (v : json) :
  reads lookup_view (CompetitionLevel_objects_get v)
    (fun view => Orm.get_row "CompetitionLevel" (comp_lvl_is v) view.2).
Proof. intros db. reflexivity. Qed.

Lemma reads_Team_objects_get_active (s : string) :
  reads lookup_view (Team_objects_get_active s)
    (fun view =>
       match int_of_str s with
       | None => Raise (ValueError (Orm.expected_number "team_no" (JStr s)))
       | Some n =>
           match view.1.2 !! n with
           | Some t =>
               if String.eqb (Team.void_ind t) "n" then Ok n
               else Raise (DoesNotExist "Team")
           | None => Raise (DoesNotExist "Team")
           end
       end).
Proof.
  intros db. unfold Team_objects_get_active. cbn.
  destruct (int_of_str s) as [n|]; [|reflexivity].
  destruct (teams db !! n) as [t|]; [|reflexivity].
  destruct (String.eqb (Team.void_ind t) "n"); reflexivity.
Qed.

Lemma reads_alliance_team (tba_match : json) (color : string) (i : nat) :
  exists F, reads lookup_view (alliance_team tba_match color i) F.
Proof.
  unfold alliance_team. eexists.
  repeat first
    [ eapply reads_bind; [apply reads_lift | intros ?]
    | apply reads_Team_objects_get_active ].
Qed.

Lemma reads_save_tba_match_lookups (tba_match : json) :
  exists F, reads lookup_view (save_tba_match_lookups tba_match) F.
Proof.
  unfold save_tba_match_lookups.
  destruct (reads_alliance_team tba_match "red" 0) as [F1 H1].
  destruct (reads_alliance_team tba_match "red" 1) as [F2 H2].
  destruct (reads_alliance_team tba_match "red" 2) as [F3 H3].
  destruct (reads_alliance_team tba_match "blue" 0) as [F4 H4].
  destruct (reads_alliance_team tba_match "blue" 1) as [F5 H5].
  destruct (reads_alliance_team tba_match "blue" 2) as [F6 H6].
  eexists.
  eapply reads_bind; [apply reads_lift | intros event_key].
  eapply reads_bind_pair; [apply reads_Event_objects_get | intros event_id event].
  repeat first
    [ eapply reads_bind; [first [apply reads_lift | eassumption
                                | apply reads_CompetitionLevel_objects_get] | intros ?]
    | apply reads_ret ].
Qed.

(** the lookups of [save_tba_match] write nothing, and give the same on
    two databases with the same events, teams and competition levels *)
Lemma save_tba_match_lookups_frame (tba_match : json) (db db1 : DB) :
  events db1 = events db -> teams db1 = teams db -> comp_levels db1 = comp_levels db ->
  save_tba_match_lookups tba_match db1
  = ((save_tba_match_lookups tba_match db).1, db1)
  /\ (save_tba_match_lookups tba_match db).2 = db.
Proof.
  intros He Ht Hc. destruct (reads_save_tba_match_lookups tba_match) as [F HF].
  rewrite (HF db), (HF db1). unfold lookup_view. cbn. rewrite He, Ht, Hc.
  split; reflexivity.
Qed.

Lemma alliance_team_inv (tba_match : json) (color : string) (i : nat)
    (db db' : DB) (n : Z) :
  alliance_team tba_match color i db = (Ok n, db') ->
  db' = db /\ active_team db n /\ team_of_key tba_match (color, i) n.
Proof.
  unfold alliance_team, team_of_key, team_key. cbn [fst snd]. intros Hrun.
  apply bind_inv_ok in Hrun as (alliances & ? & [H1 ->]%lift_inv_ok & Hrun).
  apply bind_inv_ok in Hrun as (alliance & ? & [H2 ->]%lift_inv_ok & Hrun).
  apply bind_inv_ok in Hrun as (team_keys & ? & [H3 ->]%lift_inv_ok & Hrun).
  apply bind_inv_ok in Hrun as (key & ? & [H4 ->]%lift_inv_ok & Hrun).
  apply bind_inv_ok in Hrun as (s & ? & [Hs ->]%lift_inv_ok & Hrun).
  rewrite H1. cbn [rbind]. rewrite H2. cbn [rbind]. rewrite H3. cbn [rbind]. rewrite H4.
  unfold Team_objects_get_active in Hrun.
  destruct key as [| | |k| |]; try discriminate Hs. injection Hs as <-.
  destruct (int_of_str (replace_frc_in_str k)) as [m|] eqn:Hint; [|discriminate Hrun].
  destruct (teams db !! m) as [t|] eqn:Ht; [|discriminate Hrun].
  destruct (String.eqb (Team.void_ind t) "n") eqn:Hv; [|discriminate Hrun].
  injection Hrun as <- <-. apply String.eqb_eq in Hv.
  split; [reflexivity|]. split; [exists t; auto | exists k; auto].
Qed.

Lemma save_tba_match_lookups_inv (tba_match : json) (db db' : DB)
    (event : Event.row) (comp_level : CompetitionLevel.row) (key : json) (d : MatchData) :
  save_tba_match_lookups tba_match db = (Ok (event, comp_level, key, d), db') ->
  db' = db
  /\ Py.getitem tba_match "key" = Ok key
  /\ Forall2 (fun n position => active_team db n /\ team_of_key tba_match position n)
       [md_red_one d; md_red_two d; md_red_three d;
        md_blue_one d; md_blue_two d; md_blue_three d] positions.
Proof.
  unfold save_tba_match_lookups. intros Hrun.
  apply bind_inv_ok in Hrun as (event_key & ? & [_ ->]%lift_inv_ok & Hrun).
  apply bind_inv_ok in Hrun as ([event_id ev] & ? & Hev & Hrun).
  unfold Event_objects_get in Hev. injection Hev as _ <-.
  apply bind_inv_ok in Hrun as (match_number & ? & [_ ->]%lift_inv_ok & Hrun).
  apply bind_inv_ok in Hrun as (r1 & ? & (-> & Ha1 & Hk1)%alliance_team_inv & Hrun).
  apply bind_inv_ok in Hrun as (r2 & ? & (-> & Ha2 & Hk2)%alliance_team_inv & Hrun).
  apply bind_inv_ok in Hrun as (r3 & ? & (-> & Ha3 & Hk3)%alliance_team_inv & Hrun).
  apply bind_inv_ok in Hrun as (b1 & ? & (-> & Ha4 & Hk4)%alliance_team_inv & Hrun).
  apply bind_inv_ok in Hrun as (b2 & ? & (-> & Ha5 & Hk5)%alliance_team_inv & Hrun).
  apply bind_inv_ok in Hrun as (b3 & ? & (-> & Ha6 & Hk6)%alliance_team_inv & Hrun).
  apply bind_inv_ok in Hrun as (red_score & ? & [_ ->]%lift_inv_ok & Hrun).
  apply bind_inv_ok in Hrun as (blue_score & ? & [_ ->]%lift_inv_ok & Hrun).
  apply bind_inv_ok in Hrun as (typ & ? & [_ ->]%lift_inv_ok & Hrun).
  apply bind_inv_ok in Hrun as (cl & ? & Hcl & Hrun).
  unfold CompetitionLevel_objects_get in Hcl. injection Hcl as _ <-.
  apply bind_inv_ok in Hrun as (time & ? & [_ ->]%lift_inv_ok & Hrun).
  apply bind_inv_ok in Hrun as (match_key & ? & [Hkey ->]%lift_inv_ok & Hrun).
  unfold ret in Hrun. injection Hrun as <- <- <- <- <-.
  split; [reflexivity|]. split; [exact Hkey|].
  unfold positions. cbn. repeat constructor; assumption.
Qed.

(** how a run of [save_tba_match] that ends well went *)
Lemma save_tba_match_inv (tba_match : json) (db db' : DB) (msg : string) :
  save_tba_match tba_match db = (Ok msg, db') ->
  exists (event : Event.row) (comp_level : CompetitionLevel.row) (key : json)
         (d : MatchData) (id : Z) (row : Match.row),
    save_tba_match_lookups tba_match db = (Ok (event, comp_level, key, d), db)
    /\ db' = set_match_seq (match_seq db') (set_matches (insert id row) db)
    /\ Orm.get "Match" (match_key_is key) (matches db') = Ok (id, row)
    /\ match_found row d = row
    /\ (msg = "(UPDATE) " +:+ match_line event comp_level (md_match_number d) key
        \/ msg = "(ADD) " +:+ match_line event comp_level (md_match_number d) key).
Proof.
  unfold save_tba_match. intros Hrun.
  apply bind_inv_ok in Hrun as ([[[event comp_level] key] d] & db1 & Hlook & Hrun).
  pose proof (save_tba_match_lookups_inv _ _ _ _ _ _ _ Hlook) as (-> & _ & _).
  exists event, comp_level, key, d.
  apply try_except_inv_ok in Hrun as [Hhit | (e & db2 & Hbody & Hh & Hmiss)].
  - apply bind_inv_ok in Hhit as ([id m] & db2 & Hget & Hrest).
    unfold Match_objects_get in Hget. injection Hget as Hget <-.
    cbn in Hrest. injection Hrest as <- <-.
    exists id, (match_found m d). split; [exact Hlook|]. split; [reflexivity|].
    split; [|split; [reflexivity | left; reflexivity]].
    cbn. eapply get_after_save; [exact Hget|].
    apply get_ok_lookup in Hget as [_ Hp]. exact Hp.
  - unfold bind, Match_objects_get in Hbody.
    destruct (Orm.get "Match" (match_key_is key) (matches db)) as [[j x]|e'] eqn:Hget.
    { cbn in Hbody. discriminate Hbody. }
    injection Hbody as <- <-.
    apply get_does_not_exist in Hget as [[-> Hsel] | [? ->]]; [|discriminate Hh].
    apply bind_inv_ok in Hmiss as (id & db3 & Hins & Hret).
    unfold ret in Hret. injection Hret as <- <-.
    unfold Match_insert in Hins.
    destruct (Orm.char_value key) as [s|] eqn:Hs; [|discriminate Hins].
    destruct (matches db !! match_seq db) eqn:Hfresh;
      [destruct (Orm.select (match_key_is (JStr s)) (matches db)); discriminate Hins|].
    destruct (Orm.select (match_key_is (JStr s)) (matches db)); [|discriminate Hins].
    injection Hins as <- <-.
    exists (match_seq db), (match_new d s). split; [exact Hlook|]. split; [reflexivity|].
    split; [|split; [reflexivity | right; reflexivity]].
    cbn. apply get_after_insert; [exact Hsel|].
    unfold match_key_is. rewrite Hs. cbn. apply String.eqb_refl.
Qed.

(** a run of [save_tba_match] that raises has written nothing *)
Lemma save_tba_match_raise_unchanged (tba_match : json) (db db' : DB) (e : exn) :
  save_tba_match tba_match db = (Raise e, db') -> db' = db.
Proof.
  unfold save_tba_match, bind at 1.
  destruct (save_tba_match_lookups_frame tba_match db db eq_refl eq_refl eq_refl) as [_ Hsame].
  destruct (save_tba_match_lookups tba_match db) as [[[[[event cl] key] d]|e0] db1].
  2: { cbn in Hsame. subst. now intros [= _ <-]. }
  cbn in Hsame. subst db1.
  unfold try_except, bind, Match_objects_get, Match_save, Match_insert, write, ret.
  destruct (Orm.get "Match" (match_key_is key) (matches db)) as [[j x]|e1];
    [discriminate|].
  destruct (is_Match_DoesNotExist e1); [|now intros [= _ <-]].
  destruct (Orm.char_value key) as [s|]; [|now intros [= _ <-]].
  destruct (matches db !! match_seq db);
    destruct (Orm.select (match_key_is (JStr s)) (matches db));
    first [discriminate | now intros [= _ <-]].
Qed.

(** a second run of [save_tba_match] on what a first run left changes
    nothing and reports an update *)
Lemma save_tba_match_again (tba_match : json) (db db1 : DB) (msg1 : string) :
  save_tba_match tba_match db = (Ok msg1, db1) ->
  exists (event : Event.row) (comp_level : CompetitionLevel.row) (key : json) (d : MatchData),
    save_tba_match_lookups tba_match db = (Ok (event, comp_level, key, d), db)
    /\ save_tba_match tba_match db1
       = (Ok ("(UPDATE) " +:+ match_line event comp_level (md_match_number d) key), db1).
Proof.
  intros Hrun.
  destruct (save_tba_match_inv _ _ _ _ Hrun)
    as (event & cl & key & d & id & row & Hlook & Hdb & Hget & Hfix & _).
  exists event, cl, key, d. split; [exact Hlook|].
  destruct (save_tba_match_lookups_frame tba_match db db1) as [Hlook1 _];
    [rewrite Hdb; reflexivity ..|].
  rewrite Hlook in Hlook1. cbn [fst] in Hlook1.
  unfold save_tba_match. rewrite (bind_ok _ _ _ _ _ Hlook1).
  unfold try_except, bind, Match_objects_get, Match_save, write, ret.
  rewrite Hget, Hfix. f_equal.
  apply db_eq; try reflexivity. cbn. apply insert_id.
  apply get_ok_lookup in Hget as [Hl _]. exact Hl.
Qed.

End MatchFacts.

(** C5, as stated, fails: [save_tba_match] looks the six teams up by number
    among the teams that are not voided and asks for no link.  With the
    fixture of the repository's tests, whose teams are linked to no event,
    the match is created all the same. *)
Lemma save_tba_match_accepts_unlinked_teams :
  ~ (forall (lib : PyLib) (tba_match key : json) (db db' : DB) (msg : string)
            (id : Z) (row : Match.row) (ev : Event.row),
        @save_tba_match lib tba_match db = (Ok msg, db') ->
        Py.getitem tba_match "key" = Ok key ->
        Orm.get "Match" (@match_key_is lib key) (matches db') = Ok (id, row) ->
        events db' !! Match.event row = Some ev ->
        Forall (fun n => linked_to_season db n (Event.season ev)) (slots row)).
Proof.
  intros Hall.
  pose (run := @save_tba_match Sample.lib (Sample.tba_match "2024pahat_qm1" 1) Sample.db_six).
  assert (Hrun : exists msg, run = (Ok msg, run.2)) by (vm_compute; eauto).
  destruct Hrun as [msg Hrun].
  assert (Hrow : exists row,
             Orm.get "Match" (@match_key_is Sample.lib (JStr "2024pahat_qm1")) (matches run.2)
             = Ok (1, row)
             /\ Match.event row = 1 /\ Match.red_one row = 3492)
    by (vm_compute; eauto).
  destruct Hrow as (row & Hrow & Hev & Hred).
  assert (Hevent : events run.2 !! Match.event row = Some Sample.event_row)
    by (rewrite Hev; vm_compute; reflexivity).
  specialize (Hall Sample.lib _ _ _ _ _ _ _ _ Hrun eq_refl Hrow Hevent).
  apply Forall_cons_1 in Hall as [(event_id & e & _ & _ & Hlink) _].
  revert Hlink. cbn. apply not_elem_of_empty.
Qed.

(** C5 (amended): the match [save_tba_match] creates or updates is the one
    row under the match key, and each of its six team slots holds the number
    of a team that exists and is not voided: the number its team key denotes
    once ["frc"] is removed.  No link of the team to the event or to its
    season is asked for, and the teams and the links are left as they
    were. *)
Theorem save_tba_match_slots_active `{PyLib} (tba_match : json) (db db' : DB) (msg : string) :
  save_tba_match tba_match db = (Ok msg, db') ->
  exists (key : json) (id : Z) (row : Match.row),
    Py.getitem tba_match "key" = Ok key
    /\ Orm.get "Match" (match_key_is key) (matches db') = Ok (id, row)
    /\ teams db' = teams db
    /\ event_teams db' = event_teams db
    /\ Forall2 (fun n position => active_team db' n /\ team_of_key tba_match position n)
         (slots row) positions.
Proof.
  intros Hrun.
  destruct (save_tba_match_inv _ _ _ _ Hrun)
    as (event & cl & key & d & id & row & Hlook & Hdb & Hget & Hfix & _).
  apply save_tba_match_lookups_inv in Hlook as (_ & Hkey & Hslots).
  assert (Ht : teams db' = teams db) by (rewrite Hdb; reflexivity).
  exists key, id, row. split; [exact Hkey|]. split; [exact Hget|].
  split; [exact Ht|]. split; [rewrite Hdb; reflexivity|].
  rewrite <- Hfix. cbn [slots match_found Match.red_one Match.red_two Match.red_three
                          Match.blue_one Match.blue_two Match.blue_three].
  eapply Forall2_impl; [exact Hslots|].
  intros n position [(t & Hn & Hv) Hk]. split; [|exact Hk].
  exists t. rewrite Ht. auto.
Qed.

Lemma save_tba_match_slots_active_witness :
  exists (id : Z) (row : Match.row),
    Orm.get "Match" (@match_key_is Sample.lib (JStr "2024pahat_qm1"))
      (matches (@save_tba_match Sample.lib (Sample.tba_match "2024pahat_qm1" 1)
                  Sample.db_six).2) = Ok (id, row)
    /\ Forall2 (fun n position =>
                  active_team Sample.db_six n
                  /\ @team_of_key Sample.lib (Sample.tba_match "2024pahat_qm1" 1) position n)
         (slots row) positions.
Proof.
  destruct (@save_tba_match_slots_active Sample.lib
              (Sample.tba_match "2024pahat_qm1" 1) Sample.db_six
              (@save_tba_match Sample.lib (Sample.tba_match "2024pahat_qm1" 1)
                 Sample.db_six).2
              ("(ADD) Hatboro-Horsham Qualification 1 2024pahat_qm1" +:+ LF))
    as (key & id & row & Hkey & Hget & Ht & _ & Hslots).
  - vm_compute. reflexivity.
  - injection Hkey as <-. exists id, row. split; [exact Hget|].
    eapply Forall2_impl; [exact Hslots|].
    intros n position [(t & Hn & Hv) Hk]. split; [|exact Hk].
    exists t. rewrite <- Ht. auto.
Defined.

(** ** Synchronising the matches of an event *)

Section SyncMatchesFacts.
Context `{PyLib}.

Lemma save_tba_match_is_object (tba_match : json) (db db' : DB) (msg : string) :
  save_tba_match tba_match db = (Ok msg, db') ->
  exists kvs, tba_match = JObj kvs.
Proof.
  intros Hrun.
  destruct (save_tba_match_inv _ _ _ _ Hrun) as (? & ? & key & ? & ? & ? & Hlook & _).
  apply save_tba_match_lookups_inv in Hlook as (_ & Hkey & _).
  destruct tba_match; try discriminate Hkey. eauto.
Qed.

(** the loop of [sync_matches] over matches that are all saved behaves as
    saving them in turn, and goes on with what follows them *)
Lemma sync_matches_loop_app (pre rest : list json) (msgs0 msgs : string)
    (number0 : json) (db db_pre : DB) :
  save_all pre msgs0 db = (Ok msgs, db_pre) ->
  exists number : json,
    sync_matches_loop (pre ++ rest) msgs0 number0 db
    = sync_matches_loop rest msgs number db_pre.
Proof.
  revert msgs0 number0 db. induction pre as [|m pre IH]; intros msgs0 number0 db Hall.
  - injection Hall as <- <-. exists number0. reflexivity.
  - cbn [save_all] in Hall. apply bind_inv_ok in Hall as (line & db1 & Hm & Hall).
    destruct (save_tba_match_is_object _ _ _ _ Hm) as [kvs ->].
    destruct (IH _ (default (JNum 0) (Py.assoc "match_number" kvs)) _ Hall) as [number Hn].
    exists number. cbn [app sync_matches_loop Py.get]. rewrite Hm. exact Hn.
Qed.

End SyncMatchesFacts.

(** C4: when the matches before the i-th are saved and [save_tba_match]
    raises on the i-th, [sync_matches] returns, without raising, the lines of
    the matches before it followed by one line that starts with (ERROR) and
    ends with the text of the exception; the database is the one the matches
    before the i-th left, whatever follows the i-th match in the list. *)
Theorem sync_matches_stops_at_first_failure `{PyLib} (fetch : string -> result json)
    (event : Event.row) (pre post : list json) (match_ : json)
    (db db_pre db_e : DB) (msgs : string) (e : exn) :
  fetch (tba_url +:+ "/event/" +:+ Event.event_cd event +:+ "/matches")
    = Ok (JList (pre ++ match_ :: post)) ->
  save_all pre "" db = (Ok msgs, db_pre) ->
  save_tba_match match_ db_pre = (Raise e, db_e) ->
  exists (match_number : json) (e' : exn),
    sync_matches fetch event db
    = (Ok (msgs +:+ "(ERROR) " +:+ Py.str (Event.event_nm event) +:+ " "
             +:+ Py.str match_number +:+ " " +:+ Py.str_exn e' +:+ LF),
       db_pre)
    /\ db_e = db_pre
    /\ (forall kvs, match_ = JObj kvs ->
          match_number = default (JNum 0) (Py.assoc "match_number" kvs) /\ e' = e).
Proof.
  intros Hf Hpre He.
  pose proof (save_tba_match_raise_unchanged _ _ _ _ He) as ->.
  destruct (sync_matches_loop_app pre (match_ :: post) "" msgs (JStr "") db db_pre Hpre)
    as [number Hloop].
  unfold sync_matches, bind, lift. rewrite Hf. cbn [Py.iter]. rewrite Hloop.
  cbn [sync_matches_loop].
  destruct (Py.get match_ "match_number" (JNum 0)) as [v|e0] eqn:Hget.
  - rewrite He. exists v, e. split; [reflexivity|]. split; [reflexivity|].
    intros kvs ->. injection Hget as <-. auto.
  - exists number, e0. split; [reflexivity|]. split; [reflexivity|].
    intros kvs ->. discriminate Hget.
Qed.

Lemma sync_matches_stops_at_first_failure_witness :
  @sync_matches Sample.lib Sample.fetch Sample.event_row Sample.db_six
  = (Ok (("(ADD) Hatboro-Horsham Qualification 1 2024pahat_qm1" +:+ LF)
           +:+ "(ERROR) Hatboro-Horsham 0 'event_key'" +:+ LF),
     (@save_tba_match Sample.lib (Sample.tba_match "2024pahat_qm1" 1) Sample.db_six).2).
Proof.
  destruct (@sync_matches_stops_at_first_failure Sample.lib Sample.fetch Sample.event_row
              [Sample.tba_match "2024pahat_qm1" 1] [Sample.tba_match "2024pahat_qm3" 3]
              (JObj [("invalid", JStr "data")]) Sample.db_six
              (@save_tba_match Sample.lib (Sample.tba_match "2024pahat_qm1" 1) Sample.db_six).2
              (@save_tba_match Sample.lib (Sample.tba_match "2024pahat_qm1" 1) Sample.db_six).2
              ("(ADD) Hatboro-Horsham Qualification 1 2024pahat_qm1" +:+ LF)
              (KeyError (JStr "event_key")))
    as (number & e' & Hrun & _ & Hm).
  - vm_compute. reflexivity.
  - vm_compute. reflexivity.
  - vm_compute. reflexivity.
  - destruct (Hm _ eq_refl) as [-> ->]. exact Hrun.
Defined.

(** ** Applying a synchronisation twice *)

Section AgainFacts.
Context `{PyLib}.
Variable fetch : string -> result json.

(** after a run of [sync_event] that ended well, no team outside the
    reported ones is linked to the event *)
Lemma no_stale_after (nos : list Z) (id : Z) (db db1 : DB) :
  dom (teams db1) = dom (teams db) ∪ list_to_set nos ->
  event_teams db1 = (event_teams db ∖ stale_links nos id db) ∪ reported_links nos id ->
  Team_objects_not_in_at nos id db1 = [].
Proof.
  intros Hdom Hlinks. unfold Team_objects_not_in_at.
  apply map_to_list_empty_iff, map_empty_filter.
  intros n r Hr [Hout Hl]. cbn in Hout, Hl.
  rewrite Hlinks in Hl. apply elem_of_links_after in Hl as [[_ Hin] | [_ Hns]];
    [contradiction|].
  apply Hns. split; [reflexivity|]. split; [exact Hout|].
  apply elem_of_dom_2 in Hr. rewrite Hdom in Hr.
  apply elem_of_union in Hr as [Hr | Hr]; [now apply elem_of_dom in Hr|].
  apply elem_of_list_to_set in Hr. contradiction.
Qed.

Lemma sync_event_again (season : Z) (event_cd : string) (db db1 : DB) (msg1 : string) :
  sync_event fetch season event_cd db = (Ok msg1, db1) ->
  exists (d : EventData.t) (teams_ : list TeamData.t) (cd : string)
         (id : Z) (row : Event.row),
    get_tba_event fetch event_cd = Ok d
    /\ get_tba_event_teams fetch event_cd = Ok teams_
    /\ EventData.event_cd d = JStr cd
    /\ Orm.get "Event" (event_cd_is (JStr cd)) (events db1) = Ok (id, row)
    /\ sync_event fetch season event_cd db1
       = (Ok (already_lines (JStr cd) teams_
                ("(NO ADD) Already have event: " +:+ cd +:+ LF)), db1).
Proof.
  intros Hrun1.
  destruct (sync_event_inv fetch _ _ _ _ _ Hrun1)
    as (d & teams_ & nos & id & ev & m0 & dbu & Hd & Ht & Hup & Hnum).
  destruct (sync_event_run fetch season event_cd d teams_ nos id ev m0 db dbu Hd Ht Hup Hnum)
    as (msg & tm' & Hrun & Hsub & Hdom & _).
  rewrite Hrun1 in Hrun. injection Hrun as _ Hdb1.
  assert (Hev1 : events db1 = <[id := event_details ev d]> (events dbu))
    by (rewrite Hdb1; reflexivity).
  assert (Ht1 : teams db1 = tm') by (rewrite Hdb1; reflexivity).
  assert (Hl1 : event_teams db1
                = (event_teams dbu ∖ stale_links nos id dbu) ∪ reported_links nos id)
    by (rewrite Hdb1; reflexivity).
  clear Hdb1.
  apply sync_event_upsert_inv in Hup as (cd & Hcd & Hcases).
  (* the event is the one row under its code, and saving it again changes nothing *)
  assert (Hrow : Orm.get "Event" (event_cd_is (JStr cd)) (events db1)
                 = Ok (id, event_details ev d)
                 /\ event_details (event_found (event_details ev d) d) d = event_details ev d).
  { rewrite Hev1.
    destruct Hcases as [(e & Hget & -> & -> & _) | (Hsel & _ & -> & -> & -> & _)].
    - split; [|reflexivity]. eapply get_after_save; [exact Hget|].
      apply get_ok_lookup in Hget as [_ Hp]. exact Hp.
    - split; [|reflexivity]. cbn [events set_events set_event_seq].
      rewrite insert_insert_eq. apply get_after_insert; [exact Hsel|].
      unfold event_cd_is. cbn. apply String.eqb_refl. }
  destruct Hrow as [Hget1 Hfix].
  exists d, teams_, cd, id, (event_details ev d).
  split; [exact Hd|]. split; [exact Ht|]. split; [exact Hcd|]. split; [exact Hget1|].
  (* the second run *)
  destruct (sync_event_run fetch season event_cd d teams_ nos id _ _ db1 db1 Hd Ht
              (sync_event_upsert_hit season d db1 id _ cd Hcd Hget1) Hnum)
    as (msg2 & tm2 & Hrun2 & _ & _ & Hall).
  assert (Hstale : Team_objects_not_in_at nos id db1 = []).
  { apply (no_stale_after nos id dbu); [rewrite Ht1; exact Hdom | exact Hl1]. }
  destruct Hall as [-> Hmsg].
  { rewrite Ht1, Hdom. set_solver. }
  rewrite (Hmsg Hstale), Hcd in Hrun2. rewrite Hrun2. f_equal.
  apply db_eq; try reflexivity.
  - cbn. rewrite Hfix. apply insert_id.
    apply get_ok_lookup in Hget1 as [Hl _]. exact Hl.
  - cbn. unfold stale_links. rewrite Hstale, Hl1. cbn. set_solver.
Qed.

End AgainFacts.

(** C3: when a call of [sync_event] has ended well, a second call with the
    same remote data leaves the database exactly as the first left it, the
    event is the one row under its code, and the message of the second call
    is the line (NO ADD) for the event followed, for each reported team, by
    its (NO ADD) and (LINK) lines; when a call of [save_tba_match] has ended
    well, a second call on the same match leaves the database as the first
    left it, the match is the one row under its key, and the message of the
    second call is the (UPDATE) line. *)
Theorem upsert_twice `{PyLib} (fetch : string -> result json) :
  (forall (season : Z) (event_cd : string) (db db1 : DB) (msg1 : string),
      sync_event fetch season event_cd db = (Ok msg1, db1) ->
      exists (d : EventData.t) (teams_ : list TeamData.t) (cd : string)
             (id : Z) (row : Event.row),
        get_tba_event fetch event_cd = Ok d
        /\ get_tba_event_teams fetch event_cd = Ok teams_
        /\ EventData.event_cd d = JStr cd
        /\ Orm.get "Event" (event_cd_is (JStr cd)) (events db1) = Ok (id, row)
        /\ sync_event fetch season event_cd db1
           = (Ok (already_lines (JStr cd) teams_
                    ("(NO ADD) Already have event: " +:+ cd +:+ LF)), db1))
  /\ (forall (tba_match : json) (db db1 : DB) (msg1 : string),
      save_tba_match tba_match db = (Ok msg1, db1) ->
      exists (event : Event.row) (comp_level : CompetitionLevel.row) (key : json)
             (match_number : json) (id : Z) (row : Match.row),
        Py.getitem tba_match "key" = Ok key
        /\ Orm.get "Match" (match_key_is key) (matches db1) = Ok (id, row)
        /\ save_tba_match tba_match db1
           = (Ok ("(UPDATE) " +:+ Py.str (Event.event_nm event) +:+ " "
                    +:+ CompetitionLevel.comp_lvl_typ_nm comp_level +:+ " "
                    +:+ Py.str match_number +:+ " " +:+ Py.str key +:+ LF), db1)).
Proof.
  split.
  - intros season event_cd db db1 msg1 Hrun. exact (sync_event_again fetch _ _ _ _ _ Hrun).
  - intros tba_match db db1 msg1 Hrun.
    destruct (save_tba_match_again _ _ _ _ Hrun) as (event & cl & key & d & Hlook & Hagain).
    destruct (save_tba_match_inv _ _ _ _ Hrun)
      as (event' & cl' & key' & d' & id & row & Hlook' & _ & Hget & _).
    rewrite Hlook in Hlook'. injection Hlook' as <- <- <- <-.
    apply save_tba_match_lookups_inv in Hlook as (_ & Hkey & _).
    exists event, cl, key, (md_match_number d), id, row. auto.
Qed.

Lemma upsert_twice_witness :
  (exists msg2 : string,
      @sync_event Sample.lib Sample.fetch 7 "2024pahat"
        (@sync_event Sample.lib Sample.fetch 7 "2024pahat" Sample.db_abc).2
      = (Ok msg2, (@sync_event Sample.lib Sample.fetch 7 "2024pahat" Sample.db_abc).2))
  /\ (exists msg2 : string,
      @save_tba_match Sample.lib (Sample.tba_match "2024pahat_qm1" 1)
        (@save_tba_match Sample.lib (Sample.tba_match "2024pahat_qm1" 1) Sample.db_six).2
      = (Ok msg2,
         (@save_tba_match Sample.lib (Sample.tba_match "2024pahat_qm1" 1) Sample.db_six).2)).
Proof.
  destruct (@upsert_twice Sample.lib Sample.fetch) as [Hevent Hmatch]. split.
  - destruct (Hevent 7 "2024pahat" Sample.db_abc
                (@sync_event Sample.lib Sample.fetch 7 "2024pahat" Sample.db_abc).2
                (match (@sync_event Sample.lib Sample.fetch 7 "2024pahat" Sample.db_abc).1 with
                 | Ok m => m
                 | Raise _ => ""
                 end))
      as (d & teams_ & cd & id & row & _ & _ & _ & _ & Hagain).
    + vm_compute. reflexivity.
    + eexists. exact Hagain.
  - destruct (Hmatch (Sample.tba_match "2024pahat_qm1" 1) Sample.db_six
                (@save_tba_match Sample.lib (Sample.tba_match "2024pahat_qm1" 1)
                   Sample.db_six).2
                ("(ADD) Hatboro-Horsham Qualification 1 2024pahat_qm1" +:+ LF))
      as (event & cl & key & number & id & row & _ & _ & Hagain).
    + vm_compute. reflexivity.
    + eexists. exact Hagain.
Defined.

(** * Further properties *)

(** ** [replace_frc_in_str] *)

Lemma replace_scan_length (old : string) (k : nat) (s : string) :
  (String.length (PyStr.replace_scan old "" k s) <= String.length s)%nat.
Proof.
  revert k. induction s as [|c r IH]; intros k; [reflexivity|].
  cbn [PyStr.replace_scan]. destruct k as [|k].
  - destruct (PyStr.startswith old (String c r)).
    + change ("" +:+ ?x) with x.
      specialize (IH (Nat.pred (String.length old))). cbn [String.length]. lia.
    + specialize (IH 0%nat). cbn [String.length]. lia.
  - specialize (IH k). cbn [String.length]. lia.
Qed.

Lemma replace_scan_shorter (a : ascii) (o : string) (s : string) :
  PyStr.contains (String a o) s = true ->
  (String.length (PyStr.replace_scan (String a o) "" 0 s) < String.length s)%nat.
Proof.
  induction s as [|c r IH]; intros Hc; [discriminate Hc|].
  cbn [PyStr.contains] in Hc. cbn [PyStr.replace_scan].
  destruct (PyStr.startswith (String a o) (String c r)).
  - change ("" +:+ ?x) with x.
    pose proof (replace_scan_length (String a o)
                  (Nat.pred (String.length (String a o))) r).
    cbn [String.length] in *. lia.
  - cbn in Hc. specialize (IH Hc). cbn [String.length]. lia.
Qed.

(** X1: [replace_frc_in_str] never makes a string longer, and a string that
    contains ["frc"] comes out strictly shorter. *)
Theorem replace_frc_in_str_shrinks (s : string) :
  (String.length (replace_frc_in_str s) <= String.length s)%nat
  /\ (PyStr.contains "frc" s = true ->
      (String.length (replace_frc_in_str s) < String.length s)%nat).
Proof.
  split; [apply replace_scan_length | apply replace_scan_shorter].
Qed.

Lemma replace_frc_in_str_shrinks_witness :
  (String.length (replace_frc_in_str "xfrc12") < String.length "xfrc12")%nat.
Proof.
  apply (replace_frc_in_str_shrinks "xfrc12"). reflexivity.
Defined.

(** ** [get_tba_event_teams] *)

Lemma parse_teams_ok (tba_teams : list json) (ts : list TeamData.t) :
  parse_teams tba_teams = Ok ts <-> Forall2 team_entry tba_teams ts.
Proof.
  revert ts. induction tba_teams as [|team rest IH]; intros ts; cbn [parse_teams].
  - split; [intros [= <-]; constructor | intros Hf; inversion Hf; reflexivity].
  - split.
    + destruct (Py.getitem team "team_number") as [no|] eqn:Hno; [|discriminate].
      destruct (Py.getitem team "nickname") as [nm|] eqn:Hnm; [|discriminate].
      destruct (parse_teams rest) as [parsed|]; [|discriminate].
      cbn. intros [= <-]. constructor; [split; assumption | now apply IH].
    + intros Hf. inversion Hf as [|? t ? ts' [Hno Hnm] Hrest]; subst.
      apply IH in Hrest. rewrite Hno, Hnm, Hrest. cbn. now destruct t.
Qed.

(** X2: when the remote API answers with a list, [get_tba_event_teams]
    returns exactly when every entry of the list has a [team_number] and a
    [nickname], and then it returns one entry per remote team, in the same
    order, with that number and that name. *)
Theorem get_tba_event_teams_ok (fetch : string -> result json)
    (event_cd : string) (tba_teams : list json) (ts : list TeamData.t) :
  fetch (tba_url +:+ "/event/" +:+ event_cd +:+ "/teams") = Ok (JList tba_teams) ->
  (get_tba_event_teams fetch event_cd = Ok ts <-> Forall2 team_entry tba_teams ts).
Proof.
  intros Hf. unfold get_tba_event_teams. rewrite Hf. cbn [rbind Py.iter].
  apply parse_teams_ok.
Qed.

Lemma get_tba_event_teams_ok_witness :
  Forall2 team_entry
    [Sample.tba_team 3493 "B"; Sample.tba_team 3494 "C"; Sample.tba_team 3495 "D"]
    Sample.roster.
Proof.
  apply (get_tba_event_teams_ok Sample.fetch "2024pahat").
  - vm_compute. reflexivity.
  - vm_compute. reflexivity.
Defined.


(** ** [sync_event]: the event *)

Section SyncEventShape.
Context `{PyLib}.
Variable fetch : string -> result json.

(** what a run of [sync_event] that ended well has done *)
Lemma sync_event_shape (season : Z) (event_cd : string) (db db1 : DB) (msg : string) :
  sync_event fetch season event_cd db = (Ok msg, db1) ->
  exists (d : EventData.t) (teams_ : list TeamData.t) (nos : list Z) (cd : string)
         (id : Z) (ev : Event.row),
    get_tba_event fetch event_cd = Ok d
    /\ get_tba_event_teams fetch event_cd = Ok teams_
    /\ numbered teams_ nos
    /\ EventData.event_cd d = JStr cd
    /\ ((exists e : Event.row,
           Orm.get "Event" (event_cd_is (JStr cd)) (events db) = Ok (id, e)
           /\ ev = event_found e d /\ event_seq db1 = event_seq db)
        \/ (Orm.select (event_cd_is (JStr cd)) (events db) = []
            /\ events db !! event_seq db = None /\ id = event_seq db
            /\ ev = event_new season d cd /\ event_seq db1 = event_seq db + 1))
    /\ events db1 = <[id := event_details ev d]> (events db)
    /\ Orm.get "Event" (event_cd_is (JStr cd)) (events db1) = Ok (id, event_details ev d)
    /\ teams db ⊆ teams db1
    /\ dom (teams db1) = dom (teams db) ∪ list_to_set nos
    /\ event_teams db1 = (event_teams db ∖ stale_links nos id db) ∪ reported_links nos id
    /\ beside_sync_event db1 = beside_sync_event db.
Proof.
  intros Hrun1.
  destruct (sync_event_inv fetch _ _ _ _ _ Hrun1)
    as (d & teams_ & nos & id & ev & m0 & dbu & Hd & Ht & Hup & Hnum).
  destruct (sync_event_run fetch season event_cd d teams_ nos id ev m0 db dbu Hd Ht Hup Hnum)
    as (msg' & tm' & Hrun & Hsub & Hdom & _).
  rewrite Hrun1 in Hrun. injection Hrun as _ ->.
  apply sync_event_upsert_inv in Hup as (cd & Hcd & Hcases).
  exists d, teams_, nos, cd, id, ev.
  split; [exact Hd|]. split; [exact Ht|]. split; [exact Hnum|]. split; [exact Hcd|].
  cbn [events event_seq teams event_teams set_teams set_event_teams set_events].
  destruct Hcases as [(e & Hget & -> & -> & _) | (Hsel & Hfresh & -> & -> & -> & _)].
  - split; [left; exists e; auto|]. split; [reflexivity|].
    split; [|auto].
    eapply get_after_save; [exact Hget|].
    apply get_ok_lookup in Hget as [_ Hp]. exact Hp.
  - cbn [events event_seq teams event_teams set_events set_event_seq] in *.
    split; [right; auto|]. rewrite insert_insert_eq. split; [reflexivity|].
    split; [|auto].
    apply get_after_insert; [exact Hsel|].
    unfold event_cd_is. cbn. apply String.eqb_refl.
Qed.

(** [sync_event] ends well as soon as the remote answers are well formed,
    the team numbers are numbers and the event is found or can be inserted *)
Lemma sync_event_ends_well (season : Z) (event_cd cd : string) (db : DB)
    (d : EventData.t) (teams_ : list TeamData.t) (nos : list Z) :
  get_tba_event fetch event_cd = Ok d ->
  get_tba_event_teams fetch event_cd = Ok teams_ ->
  numbered teams_ nos ->
  EventData.event_cd d = JStr cd ->
  (exists id e, Orm.get "Event" (event_cd_is (JStr cd)) (events db) = Ok (id, e))
  \/ (Orm.select (event_cd_is (JStr cd)) (events db) = []
      /\ events db !! event_seq db = None) ->
  exists (msg : string) (db1 : DB), sync_event fetch season event_cd db = (Ok msg, db1).
Proof.
  intros Hd Ht Hnum Hcd [(id & e & Hget) | [Hsel Hfresh]].
  - destruct (sync_event_run fetch season event_cd d teams_ nos _ _ _ db db Hd Ht
                (sync_event_upsert_hit season d db id e cd Hcd Hget) Hnum)
      as (msg & tm' & Hrun & _). eauto.
  - destruct (sync_event_run fetch season event_cd d teams_ nos _ _ _ db _ Hd Ht
                (sync_event_upsert_miss season d db cd Hcd Hsel Hfresh) Hnum)
      as (msg & tm' & Hrun & _). eauto.
Qed.

End SyncEventShape.

(** X3: when no event has the code of the remote event and the next event
    id is free, [sync_event] inserts the event under that id with the season
    of the call, not current, its page not active and not voided, carrying
    the remote name and dates; it is then the one event under the code, the
    next id moves on by one and the other events are as they were. *)
Theorem sync_event_creates_event `{PyLib} (fetch : string -> result json)
    (season : Z) (event_cd cd : string) (db : DB)
    (d : EventData.t) (teams_ : list TeamData.t) (nos : list Z) :
  get_tba_event fetch event_cd = Ok d ->
  get_tba_event_teams fetch event_cd = Ok teams_ ->
  numbered teams_ nos ->
  EventData.event_cd d = JStr cd ->
  Orm.select (event_cd_is (JStr cd)) (events db) = [] ->
  events db !! event_seq db = None ->
  exists (msg : string) (db1 : DB) (row : Event.row),
    sync_event fetch season event_cd db = (Ok msg, db1)
    /\ Orm.get "Event" (event_cd_is (JStr cd)) (events db1) = Ok (event_seq db, row)
    /\ events db1 = <[event_seq db := row]> (events db)
    /\ event_seq db1 = event_seq db + 1
    /\ Event.season row = season
    /\ Event.event_cd row = cd
    /\ Event.current row = "n"
    /\ Event.competition_page_active row = "n"
    /\ Event.void_ind row = "n"
    /\ Event.event_nm row = EventData.event_nm d
    /\ Event.date_st row = EventData.date_st d
    /\ Event.date_end row = EventData.date_end d.
Proof.
  intros Hd Ht Hnum Hcd Hsel Hfresh.
  destruct (sync_event_ends_well fetch season event_cd cd db d teams_ nos Hd Ht Hnum Hcd)
    as (msg & db1 & Hrun); [right; auto|].
  destruct (sync_event_shape fetch _ _ _ _ _ Hrun)
    as (d' & ? & ? & cd' & id & ev & Hd' & _ & _ & Hcd' & Hcases & Hev & Hget & _).
  rewrite Hd in Hd'. injection Hd' as <-.
  rewrite Hcd in Hcd'. injection Hcd' as <-.
  destruct Hcases as [(e & Hhit & _) | (_ & _ & -> & -> & Hseq)].
  { apply get_ok in Hhit. rewrite Hsel in Hhit. discriminate Hhit. }
  exists msg, db1, (event_details (event_new season d cd) d).
  repeat split; auto.
Qed.

Lemma sync_event_creates_event_witness :
  exists (msg : string) (db1 : DB) (row : Event.row),
    @sync_event Sample.lib Sample.fetch 7 "2024pahat" Sample.empty_db = (Ok msg, db1)
    /\ events db1 !! 1 = Some row
    /\ Event.season row = 7
    /\ Event.void_ind row = "n".
Proof.
  destruct (@sync_event_creates_event Sample.lib Sample.fetch 7 "2024pahat" "2024pahat"
              Sample.empty_db Sample.event_data Sample.roster [3493; 3494; 3495])
    as (msg & db1 & row & Hrun & _ & Hev & _ & Hseason & _ & _ & _ & Hvoid & _).
  - vm_compute. reflexivity.
  - vm_compute. reflexivity.
  - repeat constructor.
  - reflexivity.
  - vm_compute. reflexivity.
  - reflexivity.
  - exists msg, db1, row. split; [exact Hrun|].
    split; [rewrite Hev; apply lookup_insert_eq | auto].
Defined.

(** X4: when the event exists under the code of the remote event,
    [sync_event] writes the remote name, dates and details into that row and
    clears its void indicator, and keeps its season, its code, its current
    flag and its page flag; no event is added and no other event changes. *)
Theorem sync_event_refreshes_event `{PyLib} (fetch : string -> result json)
    (season : Z) (event_cd cd : string) (db : DB)
    (d : EventData.t) (teams_ : list TeamData.t) (nos : list Z)
    (id : Z) (e : Event.row) :
  get_tba_event fetch event_cd = Ok d ->
  get_tba_event_teams fetch event_cd = Ok teams_ ->
  numbered teams_ nos ->
  EventData.event_cd d = JStr cd ->
  Orm.get "Event" (event_cd_is (JStr cd)) (events db) = Ok (id, e) ->
  exists (msg : string) (db1 : DB) (row : Event.row),
    sync_event fetch season event_cd db = (Ok msg, db1)
    /\ events db1 = <[id := row]> (events db)
    /\ event_seq db1 = event_seq db
    /\ Event.void_ind row = "n"
    /\ Event.season row = Event.season e
    /\ Event.event_cd row = Event.event_cd e
    /\ Event.current row = Event.current e
    /\ Event.competition_page_active row = Event.competition_page_active e
    /\ Event.event_nm row = EventData.event_nm d
    /\ Event.date_st row = EventData.date_st d
    /\ Event.date_end row = EventData.date_end d
    /\ Event.timezone row = EventData.timezone d
    /\ Event.webcast_url row = EventData.webcast_url d.
Proof.
  intros Hd Ht Hnum Hcd Hget.
  destruct (sync_event_ends_well fetch season event_cd cd db d teams_ nos Hd Ht Hnum Hcd)
    as (msg & db1 & Hrun); [left; eauto|].
  destruct (sync_event_shape fetch _ _ _ _ _ Hrun)
    as (d' & ? & ? & cd' & id' & ev & Hd' & _ & _ & Hcd' & Hcases & Hev & _).
  rewrite Hd in Hd'. injection Hd' as <-.
  rewrite Hcd in Hcd'. injection Hcd' as <-.
  destruct Hcases as [(e' & Hhit & -> & Hseq) | (Hsel & _)].
  2: { apply get_ok in Hget. rewrite Hsel in Hget. discriminate Hget. }
  rewrite Hget in Hhit. injection Hhit as <- <-.
  exists msg, db1, (event_details (event_found e d) d).
  repeat split; auto.
Qed.

Lemma sync_event_refreshes_event_witness :
  exists (msg : string) (db1 : DB) (row : Event.row),
    @sync_event Sample.lib Sample.fetch 99 "2024pahat" Sample.db_abc = (Ok msg, db1)
    /\ events db1 = <[1 := row]> (events Sample.db_abc)
    /\ Event.season row = 7
    /\ Event.event_nm row = JStr "Hatboro-Horsham".
Proof.
  destruct (@sync_event_refreshes_event Sample.lib Sample.fetch 99 "2024pahat" "2024pahat"
              Sample.db_abc Sample.event_data Sample.roster [3493; 3494; 3495]
              1 Sample.event_row)
    as (msg & db1 & row & Hrun & Hev & _ & _ & Hseason & _ & _ & _ & Hnm & _).
  - vm_compute. reflexivity.
  - vm_compute. reflexivity.
  - repeat constructor.
  - reflexivity.
  - vm_compute. reflexivity.
  - exists msg, db1, row. auto.
Defined.

(** ** [sync_event]: the teams and the links *)

(** X5: after a run of [sync_event] that ended well, whatever teams were
    linked to the event before, the teams linked to it are exactly the
    reported ones, and the links of every other event are as they were. *)
Theorem sync_event_links_reported `{PyLib} (fetch : string -> result json)
    (season : Z) (event_cd : string) (db db1 : DB) (msg : string) :
  sync_event fetch season event_cd db = (Ok msg, db1) ->
  exists (d : EventData.t) (teams_ : list TeamData.t) (nos : list Z) (cd : string)
         (id : Z) (row : Event.row),
    get_tba_event fetch event_cd = Ok d
    /\ get_tba_event_teams fetch event_cd = Ok teams_
    /\ numbered teams_ nos
    /\ EventData.event_cd d = JStr cd
    /\ Orm.get "Event" (event_cd_is (JStr cd)) (events db1) = Ok (id, row)
    /\ teams_at id db1 = list_to_set nos
    /\ (forall n i : Z,
          i <> id -> ((n, i) ∈ event_teams db1) <-> ((n, i) ∈ event_teams db)).
Proof.
  intros Hrun.
  destruct (sync_event_shape fetch _ _ _ _ _ Hrun)
    as (d & teams_ & nos & cd & id & ev & Hd & Ht & Hnum & Hcd & _ & _ & Hget
        & _ & Hdom & Hlinks & _).
  exists d, teams_, nos, cd, id, (event_details ev d).
  split; [exact Hd|]. split; [exact Ht|]. split; [exact Hnum|]. split; [exact Hcd|].
  split; [exact Hget|]. split; [now apply (teams_at_after nos id db)|].
  intros n i Hi. rewrite Hlinks, elem_of_links_after. split.
  - intros [[-> _] | [Hl _]]; [contradiction | exact Hl].
  - intros Hl. right. split; [exact Hl|]. tauto.
Qed.

Lemma sync_event_links_reported_witness :
  exists (id : Z) (teams_ : list TeamData.t) (nos : list Z),
    get_tba_event_teams Sample.fetch "2024pahat" = Ok teams_
    /\ @numbered Sample.lib teams_ nos
    /\ teams_at id (@sync_event Sample.lib Sample.fetch 7 "2024pahat" Sample.db_abc).2
       = list_to_set nos.
Proof.
  destruct (@sync_event_links_reported Sample.lib Sample.fetch 7 "2024pahat" Sample.db_abc
              (@sync_event Sample.lib Sample.fetch 7 "2024pahat" Sample.db_abc).2
              (match (@sync_event Sample.lib Sample.fetch 7 "2024pahat" Sample.db_abc).1 with
               | Ok m => m
               | Raise _ => ""
               end))
    as (d & teams_ & nos & cd & id & row & _ & Ht & Hnum & _ & _ & Hat & _).
  - vm_compute. reflexivity.
  - exists id, teams_, nos. auto.
Defined.

(** the writes of [sync_event], by which every relation on databases that
    they respect is respected by the whole function *)
Section SyncEventWrites.
Context `{PyLib}.
Variable fetch : string -> result json.
Variable R : DB -> DB -> Prop.
Hypothesis R_refl : forall db, R db db.
Hypothesis R_trans : forall a b c, R a b -> R b c -> R a c.
Hypothesis R_events : forall db f, R db (set_events f db).
Hypothesis R_event_seq : forall db z, R db (set_event_seq z db).
Hypothesis R_event_teams : forall db f, R db (set_event_teams f db).
Hypothesis R_new_team : forall db n nm,
  teams db !! n = None ->
  R db (set_teams (insert n {| Team.team_nm := nm; Team.void_ind := "n" |}) db).

Lemma sync_event_upsert_keeps (season : Z) (d : EventData.t) :
  keeps R (sync_event_upsert season d).
Proof using R_refl R_trans R_events R_event_seq.
  unfold sync_event_upsert.
  apply keeps_try_except; [exact R_trans | | intros _].
  - apply keeps_bind; [exact R_trans | | intros [id e]].
    + intros db db' r [= <- <-]. apply R_refl.
    + apply keeps_bind; [exact R_trans | | intros a].
      * now apply keeps_lift.
      * now apply keeps_ret.
  - apply keeps_bind; [exact R_trans | | intros [id e]].
    + intros db db' r. unfold Event_force_insert.
      destruct (Orm.char_value (EventData.event_cd d)) as [s|];
        [|intros [= <- <-]; apply R_refl].
      destruct (events db !! event_seq db);
        destruct (Orm.select (event_cd_is (JStr s)) (events db));
        intros [= <- <-]; try apply R_refl.
      eapply R_trans; [apply R_events | apply R_event_seq].
    + apply keeps_bind; [exact R_trans | | intros a].
      * now apply keeps_lift.
      * now apply keeps_ret.
Qed.

Lemma sync_event_team_keeps (id : Z) (cd : json) (t : TeamData.t) :
  keeps R (sync_event_team id cd t).
Proof using R_refl R_trans R_event_teams R_new_team.
  unfold sync_event_team.
  apply keeps_bind; [exact R_trans | | intros [team line]].
  - apply keeps_try_except; [exact R_trans | | intros e].
    + apply keeps_bind; [exact R_trans | | intros a; now apply keeps_ret].
      intros db db' r. unfold Team_force_insert.
      destruct (Orm.int_value (TeamData.team_no t)) as [[n|]|e];
        [destruct (teams db !! n) eqn:Hn|..]; intros [= <- <-];
        first [apply R_refl | now apply R_new_team].
    + apply keeps_bind; [exact R_trans | | intros a; now apply keeps_ret].
      intros db db' r. unfold Team_objects_get.
      destruct (Orm.int_value (TeamData.team_no t)) as [[n|]|e'];
        [destruct (teams db !! n)|..]; intros [= <- <-]; apply R_refl.
  - apply keeps_bind; [exact R_trans | | intros a; now apply keeps_ret].
    intros db db' r [= <- <-]. apply R_event_teams.
Qed.

Lemma sync_event_teams_keeps (id : Z) (cd : json) (ts : list TeamData.t) (msgs : string) :
  keeps R (sync_event_teams id cd ts msgs).
Proof using R_refl R_trans R_event_teams R_new_team.
  revert msgs. induction ts as [|t ts IH]; intros msgs; cbn [sync_event_teams].
  - now apply keeps_ret.
  - apply keeps_bind; [exact R_trans | | intros a; apply IH].
    apply sync_event_team_keeps.
Qed.

Lemma sync_event_remove_keeps (id : Z) (cd : json) (stale : list (Z * Team.row))
    (msgs : string) :
  keeps R (sync_event_remove id cd stale msgs).
Proof using R_event_teams.
  intros db db' r Hrun.
  destruct (sync_event_remove_run id cd stale msgs db) as (m & Hm & _).
  rewrite Hm in Hrun. injection Hrun as <- <-. apply R_event_teams.
Qed.

Lemma sync_event_keeps (season : Z) (event_cd : string) :
  keeps R (sync_event fetch season event_cd).
Proof using All.
  unfold sync_event.
  apply keeps_bind; [exact R_trans | now apply keeps_lift | intros d].
  apply keeps_bind; [exact R_trans | now apply keeps_lift | intros ts].
  apply keeps_bind; [exact R_trans | apply sync_event_upsert_keeps | intros [[id ev] m0]].
  apply keeps_bind; [exact R_trans | | intros _].
  { intros db db' r [= <- <-]. apply R_events. }
  apply keeps_bind; [exact R_trans | now apply keeps_lift | intros nos].
  apply keeps_bind; [exact R_trans | now apply keeps_read | intros stale].
  apply keeps_bind; [exact R_trans | apply sync_event_remove_keeps | intros msgs].
  apply sync_event_teams_keeps.
Qed.

Lemma sync_season_loop_keeps (season : Z) (request : list json) (msgs : string) :
  keeps R (sync_season_loop fetch season request msgs).
Proof using All.
  revert msgs. induction request as [|ev rest IH]; intros msgs; cbn [sync_season_loop].
  - now apply keeps_ret.
  - apply keeps_bind; [exact R_trans | now apply keeps_lift | intros key].
    apply keeps_bind; [exact R_trans | apply sync_event_keeps | intros lines; apply IH].
Qed.

Lemma sync_season_keeps (seasons : gmap Z Season.row) (season_id : Z) :
  keeps R (sync_season fetch seasons season_id).
Proof using All.
  unfold sync_season. destruct (seasons !! season_id) as [season|].
  - apply keeps_bind; [exact R_trans | now apply keeps_lift | intros request].
    apply keeps_bind; [exact R_trans | now apply keeps_lift | intros evs].
    apply sync_season_loop_keeps.
  - intros db db' r [= <- <-]. apply R_refl.
Qed.

End SyncEventWrites.

Lemma teams_only_grow_refl (db : DB) : teams_only_grow db db.
Proof. split; [reflexivity | auto]. Qed.

Lemma teams_only_grow_trans (a b c : DB) :
  teams_only_grow a b -> teams_only_grow b c -> teams_only_grow a c.
Proof.
  intros [Hab Hab'] [Hbc Hbc']. split; [etrans; eassumption|].
  intros n t Ht. destruct (Hbc' n t Ht) as [Hb | Hv]; [auto | right; exact Hv].
Qed.

Lemma teams_only_grow_same (db db' : DB) : teams db' = teams db -> teams_only_grow db db'.
Proof. intros Ht. unfold teams_only_grow. rewrite Ht. split; [reflexivity | auto]. Qed.

(** X6: however [sync_event] and [sync_season] end, every team row that
    existed is left exactly as it was (a voided team that is reported again
    stays voided), and every team row that appears is not voided. *)
Theorem sync_event_teams_only_grow `{PyLib} (fetch : string -> result json) :
  (forall (season : Z) (event_cd : string) (db db' : DB) (r : result string),
      sync_event fetch season event_cd db = (r, db') ->
      teams db ⊆ teams db'
      /\ forall (n : Z) (t : Team.row),
           teams db' !! n = Some t -> teams db !! n = Some t \/ Team.void_ind t = "n")
  /\ (forall (seasons : gmap Z Season.row) (season_id : Z) (db db' : DB) (r : result string),
      sync_season fetch seasons season_id db = (r, db') ->
      teams db ⊆ teams db'
      /\ forall (n : Z) (t : Team.row),
           teams db' !! n = Some t -> teams db !! n = Some t \/ Team.void_ind t = "n").
Proof.
  assert (Hnew : forall db n nm,
             teams db !! n = None ->
             teams_only_grow db
               (set_teams (insert n {| Team.team_nm := nm; Team.void_ind := "n" |}) db)).
  { intros db n nm Hn. split; cbn.
    - now apply insert_subseteq.
    - intros m t. destruct (decide (n = m)) as [->|Hne].
      + rewrite lookup_insert_eq. intros [= <-]. right. reflexivity.
      + rewrite lookup_insert_ne by exact Hne. auto. }
  split.
  - intros season event_cd db db' r Hrun.
    refine (sync_event_keeps fetch teams_only_grow teams_only_grow_refl
              teams_only_grow_trans _ _ _ Hnew season event_cd db db' r Hrun);
      intros; now apply teams_only_grow_same.
  - intros seasons season_id db db' r Hrun.
    refine (sync_season_keeps fetch teams_only_grow teams_only_grow_refl
              teams_only_grow_trans _ _ _ Hnew seasons season_id db db' r Hrun);
      intros; now apply teams_only_grow_same.
Qed.

Lemma sync_event_teams_only_grow_witness :
  teams Sample.db_abc
  ⊆ teams (@sync_event Sample.lib Sample.fetch 7 "2024pahat" Sample.db_abc).2.
Proof.
  destruct (@sync_event_teams_only_grow Sample.lib Sample.fetch) as [Hevent _].
  apply (Hevent 7 "2024pahat" Sample.db_abc
           (@sync_event Sample.lib Sample.fetch 7 "2024pahat" Sample.db_abc).2
           (@sync_event Sample.lib Sample.fetch 7 "2024pahat" Sample.db_abc).1).
  vm_compute. reflexivity.
Defined.

(** X7: however [sync_event] and [sync_season] end, the matches, the
    competition levels and the messages are as they were. *)
Theorem sync_event_leaves_matches_and_messages `{PyLib} (fetch : string -> result json) :
  (forall (season : Z) (event_cd : string) (db db' : DB) (r : result string),
      sync_event fetch season event_cd db = (r, db') ->
      beside_sync_event db' = beside_sync_event db)
  /\ (forall (seasons : gmap Z Season.row) (season_id : Z) (db db' : DB) (r : result string),
      sync_season fetch seasons season_id db = (r, db') ->
      beside_sync_event db' = beside_sync_event db).
Proof.
  split.
  - intros season event_cd db db' r Hrun.
    refine (sync_event_keeps fetch (same_on beside_sync_event) _ _ _ _ _ _
              season event_cd db db' r Hrun);
      unfold same_on; intros; first [reflexivity | congruence].
  - intros seasons season_id db db' r Hrun.
    refine (sync_season_keeps fetch (same_on beside_sync_event) _ _ _ _ _ _
              seasons season_id db db' r Hrun);
      unfold same_on; intros; first [reflexivity | congruence].
Qed.

Lemma sync_event_leaves_matches_and_messages_witness :
  beside_sync_event (@sync_event Sample.lib Sample.fetch 7 "2024pahat" Sample.db_abc).2
  = beside_sync_event Sample.db_abc.
Proof.
  destruct (@sync_event_leaves_matches_and_messages Sample.lib Sample.fetch) as [Hevent _].
  apply (Hevent 7 "2024pahat" Sample.db_abc
           (@sync_event Sample.lib Sample.fetch 7 "2024pahat" Sample.db_abc).2
           (@sync_event Sample.lib Sample.fetch 7 "2024pahat" Sample.db_abc).1).
  vm_compute. reflexivity.
Defined.

(** X8: when the remote answers are well formed and the event exists, but a
    reported team number is one [int] rejects, [sync_event] raises after the
    event row was saved: the row carries the remote details, and no team and
    no link has been touched. *)
Theorem sync_event_bad_team_number `{PyLib} (fetch : string -> result json)
    (season : Z) (event_cd cd : string) (db : DB)
    (d : EventData.t) (teams_ : list TeamData.t) (id : Z) (e : Event.row) (err : exn) :
  get_tba_event fetch event_cd = Ok d ->
  get_tba_event_teams fetch event_cd = Ok teams_ ->
  EventData.event_cd d = JStr cd ->
  Orm.get "Event" (event_cd_is (JStr cd)) (events db) = Ok (id, e) ->
  team_no_in teams_ = Raise err ->
  sync_event fetch season event_cd db
  = (Raise err, set_events (insert id (event_details (event_found e d) d)) db).
Proof.
  intros Hd Ht Hcd Hget Hbad. unfold sync_event.
  rewrite (bind_ok _ _ db db d) by (unfold lift; now rewrite Hd).
  rewrite (bind_ok _ _ db db teams_) by (unfold lift; now rewrite Ht).
  rewrite (bind_ok _ _ _ _ _ (sync_event_upsert_hit season d db id e cd Hcd Hget)).
  unfold bind at 1, Event_save, write.
  unfold bind, lift. rewrite Hbad. reflexivity.
Qed.

Lemma sync_event_bad_team_number_witness :
  exists db' : DB,
    @sync_event Sample.lib
      (fun url =>
         if String.eqb url (tba_url +:+ "/event/2024pahat/teams")
         then Ok (JList [Sample.tba_team 3493 "B";
                         JObj [("team_number", JStr "n/a"); ("nickname", JStr "?")]])
         else Sample.fetch url)
      7 "2024pahat" Sample.db_abc
    = (Raise (ValueError "Field 'team_no' expected a number but got 'n/a'."), db')
    /\ teams db' = teams Sample.db_abc
    /\ event_teams db' = event_teams Sample.db_abc.
Proof.
  eexists. split.
  - apply (@sync_event_bad_team_number Sample.lib _ 7 "2024pahat" "2024pahat" Sample.db_abc
             Sample.event_data
             [ {| TeamData.team_no := JNum 3493; TeamData.team_nm := JStr "B" |};
               {| TeamData.team_no := JStr "n/a"; TeamData.team_nm := JStr "?" |} ]
             1 Sample.event_row).
    + vm_compute. reflexivity.
    + vm_compute. reflexivity.
    + reflexivity.
    + vm_compute. reflexivity.
    + vm_compute. reflexivity.
  - split; reflexivity.
Defined.

(** ** [save_tba_match]: the two branches *)

Section MatchBranches.
Context `{PyLib}.


(** which branch a run of [save_tba_match] that ended well took *)
Lemma save_tba_match_cases (tba_match : json) (db db' : DB) (msg : string) :
  save_tba_match tba_match db = (Ok msg, db') ->
  exists (event : Event.row) (comp_level : CompetitionLevel.row) (key : json) (d : MatchData),
    save_tba_match_lookups tba_match db = (Ok (event, comp_level, key, d), db)
    /\ ((exists (id : Z) (m : Match.row),
           Orm.get "Match" (match_key_is key) (matches db) = Ok (id, m)
           /\ db' = set_matches (insert id (match_found m d)) db
           /\ msg = "(UPDATE) " +:+ match_line event comp_level (md_match_number d) key)
        \/ (exists s : string,
              Orm.char_value key = Some s
              /\ Orm.select (match_key_is key) (matches db) = []
              /\ matches db !! match_seq db = None
              /\ db' = set_match_seq (match_seq db + 1)
                         (set_matches (insert (match_seq db) (match_new d s)) db)
              /\ msg = "(ADD) " +:+ match_line event comp_level (md_match_number d) key)).
Proof.
  unfold save_tba_match. intros Hrun.
  apply bind_inv_ok in Hrun as ([[[event comp_level] key] d] & db1 & Hlook & Hrun).
  pose proof (save_tba_match_lookups_inv _ _ _ _ _ _ _ Hlook) as (-> & _ & _).
  exists event, comp_level, key, d. split; [exact Hlook|].
  apply try_except_inv_ok in Hrun as [Hhit | (e & db2 & Hbody & Hh & Hmiss)].
  - apply bind_inv_ok in Hhit as ([id m] & db2 & Hget & Hrest).
    unfold Match_objects_get in Hget. injection Hget as Hget <-.
    cbn in Hrest. injection Hrest as <- <-. left. eauto.
  - unfold bind, Match_objects_get in Hbody.
    destruct (Orm.get "Match" (match_key_is key) (matches db)) as [[j x]|e'] eqn:Hget.
    { cbn in Hbody. discriminate Hbody. }
    injection Hbody as <- <-.
    apply get_does_not_exist in Hget as [[-> Hsel] | [? ->]]; [|discriminate Hh].
    apply bind_inv_ok in Hmiss as (id & db3 & Hins & Hret).
    unfold ret in Hret. injection Hret as <- <-.
    unfold Match_insert in Hins.
    destruct (Orm.char_value key) as [s|] eqn:Hs; [|discriminate Hins].
    destruct (matches db !! match_seq db) eqn:Hfresh;
      [destruct (Orm.select (match_key_is (JStr s)) (matches db)); discriminate Hins|].
    destruct (Orm.select (match_key_is (JStr s)) (matches db)); [|discriminate Hins].
    injection Hins as <- <-. right. exists s. auto 10.
Qed.

End MatchBranches.





(** ** [save_tba_match] and [sync_matches]: what they leave alone *)

Section MatchWrites.
Context `{PyLib}.
Variable R : DB -> DB -> Prop.
Hypothesis R_refl : forall db, R db db.
Hypothesis R_trans : forall a b c, R a b -> R b c -> R a c.
Hypothesis R_matches : forall db f, R db (set_matches f db).
Hypothesis R_match_seq : forall db z, R db (set_match_seq z db).

Lemma save_tba_match_keeps (tba_match : json) : keeps R (save_tba_match tba_match).
Proof using All.
  intros db db' [msg|e] Hrun.
  - destruct (save_tba_match_cases _ _ _ _ Hrun)
      as (? & ? & ? & ? & _ & [(? & ? & _ & -> & _) | (? & _ & _ & _ & -> & _)]).
    + apply R_matches.
    + eapply R_trans; [apply R_matches | apply R_match_seq].
  - apply save_tba_match_raise_unchanged in Hrun as ->. apply R_refl.
Qed.

Lemma sync_matches_loop_keeps (ms : list json) (msgs : string) (number : json)
    (db db' : DB) (o : option exn) (locals : string * json) :
  sync_matches_loop ms msgs number db = (o, locals, db') -> R db db'.
Proof using All.
  revert msgs number db. induction ms as [|m ms IH]; intros msgs number db;
    cbn [sync_matches_loop].
  - intros [= _ _ <-]. apply R_refl.
  - destruct (Py.get m "match_number" (JNum 0)) as [v|e]; [|intros [= _ _ <-]; apply R_refl].
    destruct (save_tba_match m db) as [[line|e] db1] eqn:Hm.
    + intros Hrest. eapply R_trans; [eapply save_tba_match_keeps, Hm | eapply IH, Hrest].
    + intros [= _ _ <-]. eapply save_tba_match_keeps, Hm.
Qed.

Lemma sync_matches_keeps (fetch : string -> result json) (event : Event.row) :
  keeps R (sync_matches fetch event).
Proof using All.
  intros db db' r. unfold sync_matches, bind, lift.
  destruct (fetch _) as [j|e]; [|intros [= _ <-]; apply R_refl].
  destruct (Py.iter j) as [ms|e]; [|intros [= _ <-]; apply R_refl].
  destruct (sync_matches_loop ms "" (JStr "") db) as [[[e|] [msgs number]] db1] eqn:Hloop;
    intros [= _ <-]; eapply sync_matches_loop_keeps, Hloop.
Qed.

End MatchWrites.

(** X11: however [save_tba_match] and [sync_matches] end, the events, the
    teams, the links between them, the competition levels and the messages
    are as they were: only matches are written. *)
Theorem save_tba_match_writes_matches_only `{PyLib} :
  (forall (tba_match : json) (db db' : DB) (r : result string),
      save_tba_match tba_match db = (r, db') ->
      beside_save_tba_match db' = beside_save_tba_match db)
  /\ (forall (fetch : string -> result json) (event : Event.row)
             (db db' : DB) (r : result string),
      sync_matches fetch event db = (r, db') ->
      beside_save_tba_match db' = beside_save_tba_match db).
Proof.
  split.
  - intros tba_match db db' r Hrun.
    refine (save_tba_match_keeps (same_on beside_save_tba_match) _ _ _ _
              tba_match db db' r Hrun);
      unfold same_on; intros; first [reflexivity | congruence].
  - intros fetch event db db' r Hrun.
    refine (sync_matches_keeps (same_on beside_save_tba_match) _ _ _ _
              fetch event db db' r Hrun);
      unfold same_on; intros; first [reflexivity | congruence].
Qed.

Lemma save_tba_match_writes_matches_only_witness :
  beside_save_tba_match
    (@sync_matches Sample.lib Sample.fetch Sample.event_row Sample.db_six).2
  = beside_save_tba_match Sample.db_six.
Proof.
  destruct (@save_tba_match_writes_matches_only Sample.lib) as [_ Hsync].
  apply (Hsync Sample.fetch Sample.event_row Sample.db_six
           (@sync_matches Sample.lib Sample.fetch Sample.event_row Sample.db_six).2
           (@sync_matches Sample.lib Sample.fetch Sample.event_row Sample.db_six).1).
  vm_compute. reflexivity.
Defined.

(** ** [sync_matches]: how it ends *)

(** X12: [sync_matches] raises exactly when the request for the matches
    does, and then with that exception and without a write; whatever the
    remote API answers, a list or not, it returns a message. *)
Theorem sync_matches_raises_only_on_fetch `{PyLib} (fetch : string -> result json)
    (event : Event.row) (db : DB) :
  (forall e : exn,
      fetch (tba_url +:+ "/event/" +:+ Event.event_cd event +:+ "/matches") = Raise e ->
      sync_matches fetch event db = (Raise e, db))
  /\ (forall answer : json,
      fetch (tba_url +:+ "/event/" +:+ Event.event_cd event +:+ "/matches") = Ok answer ->
      exists (msg : string) (db' : DB), sync_matches fetch event db = (Ok msg, db')).
Proof.
  split.
  - intros e Hf. unfold sync_matches, bind, lift. rewrite Hf. reflexivity.
  - intros answer Hf. unfold sync_matches, bind, lift. rewrite Hf.
    destruct (Py.iter answer) as [ms|e]; [|eauto].
    destruct (sync_matches_loop ms "" (JStr "") db) as [[[e|] [msgs number]] db1]; eauto.
Qed.

Lemma sync_matches_raises_only_on_fetch_witness :
  exists (msg : string) (db' : DB),
    @sync_matches Sample.lib (fun _ => Ok JNull) Sample.event_row Sample.db_six
    = (Ok msg, db').
Proof.
  destruct (@sync_matches_raises_only_on_fetch Sample.lib (fun _ => Ok JNull)
              Sample.event_row Sample.db_six) as [_ Hok].
  apply (Hok JNull). reflexivity.
Defined.

(** X13: when the remote API answers with a list of matches that are all
    saved, [sync_matches] returns the lines of the matches, one after the
    other, without an (ERROR) line, and leaves the database the saves
    left. *)
Theorem sync_matches_all_saved `{PyLib} (fetch : string -> result json)
    (event : Event.row) (ms : list json) (db db' : DB) (msgs : string) :
  fetch (tba_url +:+ "/event/" +:+ Event.event_cd event +:+ "/matches") = Ok (JList ms) ->
  save_all ms "" db = (Ok msgs, db') ->
  sync_matches fetch event db = (Ok msgs, db').
Proof.
  intros Hf Hall.
  destruct (sync_matches_loop_app ms [] "" msgs (JStr "") db db' Hall) as [number Hloop].
  rewrite app_nil_r in Hloop.
  unfold sync_matches, bind, lift. rewrite Hf. cbn [Py.iter]. rewrite Hloop. reflexivity.
Qed.

Lemma sync_matches_all_saved_witness :
  @sync_matches Sample.lib
    (fun _ => Ok (JList [Sample.tba_match "2024pahat_qm1" 1; Sample.tba_match "2024pahat_qm2" 2]))
    Sample.event_row Sample.db_six
  = (Ok (("(ADD) Hatboro-Horsham Qualification 1 2024pahat_qm1" +:+ LF)
           +:+ "(ADD) Hatboro-Horsham Qualification 2 2024pahat_qm2" +:+ LF),
     (@save_all Sample.lib
        [Sample.tba_match "2024pahat_qm1" 1; Sample.tba_match "2024pahat_qm2" 2] ""
        Sample.db_six).2).
Proof.
  apply (@sync_matches_all_saved Sample.lib _ Sample.event_row
           [Sample.tba_match "2024pahat_qm1" 1; Sample.tba_match "2024pahat_qm2" 2]).
  - reflexivity.
  - vm_compute. reflexivity.
Defined.

(** X14: when the remote API answers with a non-empty object instead of a
    list, as it does to report an error, [sync_matches] does not raise and
    writes nothing: the loop visits the first key, a string, on which the
    lookup of the match number fails, and the message is the one (ERROR) line
    for that, with an empty match number. *)
Theorem sync_matches_object_answer `{PyLib} (fetch : string -> result json)
    (event : Event.row) (k : string) (v : json) (kvs : list (string * json)) (db : DB) :
  fetch (tba_url +:+ "/event/" +:+ Event.event_cd event +:+ "/matches")
    = Ok (JObj ((k, v) :: kvs)) ->
  sync_matches fetch event db
  = (Ok ("(ERROR) " +:+ Py.str (Event.event_nm event) +:+ " " +:+ "" +:+ " "
           +:+ "'str' object has no attribute 'get'" +:+ LF), db).
Proof.
  intros Hf. unfold sync_matches, bind, lift. rewrite Hf. reflexivity.
Qed.

Lemma sync_matches_object_answer_witness :
  @sync_matches Sample.lib (fun _ => Ok (JObj [("Error", JStr "Invalid endpoint")]))
    Sample.event_row Sample.db_six
  = (Ok ("(ERROR) Hatboro-Horsham  'str' object has no attribute 'get'" +:+ LF),
     Sample.db_six).
Proof.
  apply (@sync_matches_object_answer Sample.lib _ Sample.event_row
           "Error" (JStr "Invalid endpoint") [] Sample.db_six).
  reflexivity.
Defined.

(** ** [save_message]: how it ends *)

(** X15: a run of [save_message] that raises has stored nothing, and it
    raises [KeyError] when the message, an object, lacks [message_type], or
    has it and lacks [message_data]. *)
Theorem save_message_failure `{PyLib} (message : json) (db : DB) :
  (forall (e : exn) (db' : DB), save_message message db = (Raise e, db') -> db' = db)
  /\ (forall kvs : list (string * json),
        message = JObj kvs -> Py.assoc "message_type" kvs = None ->
        save_message message db = (Raise (KeyError (JStr "message_type")), db))
  /\ (forall (kvs : list (string * json)) (message_type : json),
        message = JObj kvs -> Py.assoc "message_type" kvs = Some message_type ->
        Py.assoc "message_data" kvs = None ->
        save_message message db = (Raise (KeyError (JStr "message_data")), db)).
Proof.
  split; [|split].
  - intros e db'. unfold save_message, bind, lift, ret, Message_insert.
    destruct (Py.getitem message "message_type"); [|now intros [= _ <-]].
    destruct (Py.getitem message "message_data"); [|now intros [= _ <-]].
    destruct (messages db !! message_seq db); [now intros [= _ <-] | discriminate].
  - intros kvs -> Hnone. unfold save_message, bind, lift. cbn. rewrite Hnone. reflexivity.
  - intros kvs mt -> Hsome Hnone. unfold save_message, bind, lift. cbn.
    rewrite Hsome. cbn. rewrite Hnone. reflexivity.
Qed.

Lemma save_message_failure_witness :
  @save_message Sample.lib (JObj [("message_type", JStr "ping")]) Sample.empty_db
  = (Raise (KeyError (JStr "message_data")), Sample.empty_db).
Proof.
  destruct (@save_message_failure Sample.lib (JObj [("message_type", JStr "ping")])
              Sample.empty_db) as (_ & _ & Hdata).
  apply (Hdata [("message_type", JStr "ping")] (JStr "ping")); reflexivity.
Defined.

(** X16: a run of [save_message] that ends well has stored the message
    under the next message id, which was free and moves on by one, has left
    every message that was stored as it was, and has touched no other
    table. *)
Theorem save_message_appends `{PyLib} (message : json) (db db' : DB)
    (id : Z) (msg : Message.row) :
  save_message message db = (Ok (id, msg), db') ->
  id = message_seq db
  /\ messages db !! id = None
  /\ db' = set_messages (insert id msg) (id + 1) db
  /\ messages db ⊆ messages db'
  /\ Py.getitem message "message_type" = Ok (Message.message_type msg).
Proof.
  unfold save_message. intros Hrun.
  apply bind_inv_ok in Hrun as (mt & ? & [Hmt ->]%lift_inv_ok & Hrun).
  apply bind_inv_ok in Hrun as (md & ? & [Hmd ->]%lift_inv_ok & Hrun).
  apply bind_inv_ok in Hrun as (i & db1 & Hins & Hret).
  unfold ret in Hret. injection Hret as <- <- <-.
  unfold Message_insert in Hins.
  destruct (messages db !! message_seq db) eqn:Hfree; [discriminate Hins|].
  injection Hins as <- <-.
  split; [reflexivity|]. split; [exact Hfree|]. split; [reflexivity|].
  split; [cbn; now apply insert_subseteq | exact Hmt].
Qed.

Lemma save_message_appends_witness :
  messages Sample.empty_db
  ⊆ messages (@save_message Sample.lib
                (JObj [("message_type", JStr "ping"); ("message_data", JNull)])
                Sample.empty_db).2.
Proof.
  destruct (@save_message_appends Sample.lib
              (JObj [("message_type", JStr "ping"); ("message_data", JNull)])
              Sample.empty_db
              (@save_message Sample.lib
                 (JObj [("message_type", JStr "ping"); ("message_data", JNull)])
                 Sample.empty_db).2
              1 {| Message.message_type := JStr "ping"; Message.message_data := "None" |})
    as (_ & _ & _ & Hsub & _).
  - vm_compute. reflexivity.
  - exact Hsub.
Defined.

(** ** [sync_season] *)

Lemma bind_assoc {A B C} (m : M A) (k : A -> M B) (k' : B -> M C) (db : DB) :
  bind (bind m k) k' db = bind m (fun a => bind (k a) k') db.
Proof. unfold bind. destruct (m db) as [[a|e] db1]; reflexivity. Qed.

Lemma bind_ext {A B} (m : M A) (k k' : A -> M B) (db : DB) :
  (forall a db1, k a db1 = k' a db1) -> bind m k db = bind m k' db.
Proof. intros Hk. unfold bind. destruct (m db) as [[a|e] db1]; [apply Hk | reflexivity]. Qed.

Section SyncSeasonFacts.
Context `{PyLib}.
Variable fetch : string -> result json.

Lemma sync_season_loop_app (season : Z) (pre rest : list json) (msgs : string) (db : DB) :
  sync_season_loop fetch season (pre ++ rest) msgs db
  = bind (sync_season_loop fetch season pre msgs)
      (fun msgs' => sync_season_loop fetch season rest msgs') db.
Proof.
  revert msgs db. induction pre as [|ev pre IH]; intros msgs db; [reflexivity|].
  cbn [app sync_season_loop]. rewrite bind_assoc.
  apply bind_ext. intros key db1. rewrite bind_assoc.
  apply bind_ext. intros lines db2. apply IH.
Qed.

(** every outcome of [sync_event] keeps the rows of the events that exist,
    with their seasons *)
Lemma sync_event_seasons_kept (season : Z) (event_cd : string) :
  keeps seasons_kept (sync_event fetch season event_cd).
Proof.
  intros db db' r Hrun. unfold sync_event in Hrun.
  destruct (get_tba_event fetch event_cd) as [d|e0] eqn:Hd.
  2: { injection Hrun as <- <-. apply seasons_kept_refl. }
  rewrite (bind_ok _ _ db db d) in Hrun by reflexivity.
  destruct (get_tba_event_teams fetch event_cd) as [ts|e0] eqn:Hts.
  2: { injection Hrun as <- <-. apply seasons_kept_refl. }
  rewrite (bind_ok _ _ db db ts) in Hrun by reflexivity.
  destruct (sync_event_upsert season d db) as [[[[i ev] m0]|e0] dbu] eqn:Hup.
  2: { rewrite (bind_raise _ _ _ _ _ Hup) in Hrun. injection Hrun as <- <-.
       eapply sync_event_upsert_seasons_kept, Hup. }
  rewrite (bind_ok _ _ _ _ _ Hup) in Hrun.
  unfold bind at 1, Event_save, write in Hrun.
  apply sync_event_tail_same_events in Hrun. unfold same_events in Hrun. cbn in Hrun.
  apply sync_event_upsert_inv in Hup
    as (cd & _ & [(e0 & Hget & -> & -> & _) | (_ & Hfresh & -> & -> & -> & _)]).
  - apply get_ok_lookup in Hget as [Hlook _].
    intros j e Hj. rewrite Hrun. destruct (decide (i = j)) as [->|Hne].
    + rewrite lookup_insert_eq. eexists. split; [reflexivity|]. cbn. congruence.
    + rewrite lookup_insert_ne by exact Hne. eauto.
  - intros j e Hj. rewrite Hrun. cbn.
    assert (event_seq db <> j) by congruence.
    rewrite !lookup_insert_ne by assumption. eauto.
Qed.

Lemma sync_season_loop_seasons_kept (season : Z) (request : list json) (msgs : string) :
  keeps seasons_kept (sync_season_loop fetch season request msgs).
Proof.
  revert msgs. induction request as [|ev rest IH]; intros msgs; cbn [sync_season_loop].
  - now apply keeps_ret, seasons_kept_refl.
  - apply keeps_bind; [exact seasons_kept_trans | | intros key].
    { now apply keeps_lift, seasons_kept_refl. }
    apply keeps_bind; [exact seasons_kept_trans | | intros lines; apply IH].
    apply sync_event_seasons_kept.
Qed.

End SyncSeasonFacts.

(** X17: [sync_season] raises [Season.DoesNotExist] without a request and
    without a write when the season is unknown; and it has no guard around
    its loop: when the events before the i-th are synchronised and
    [sync_event] raises on the i-th, [sync_season] raises that exception,
    leaves the database where the failure left it and goes on to no later
    event. *)
Theorem sync_season_stops_at_first_failure `{PyLib} (fetch : string -> result json)
    (seasons : gmap Z Season.row) (season_id : Z) (db : DB) :
  (seasons !! season_id = None ->
   sync_season fetch seasons season_id db = (Raise (DoesNotExist "Season"), db))
  /\ (forall (season : Season.row) (pre post : list json) (event key : json)
             (msgs : string) (db1 db2 : DB) (e : exn),
        seasons !! season_id = Some season ->
        fetch (tba_url +:+ "/team/frc3492/events/" +:+ Season.season season)
          = Ok (JList (pre ++ event :: post)) ->
        sync_season_loop fetch season_id pre "" db = (Ok msgs, db1) ->
        Py.getitem event "key" = Ok key ->
        sync_event fetch season_id (Py.str key) db1 = (Raise e, db2) ->
        sync_season fetch seasons season_id db = (Raise e, db2)).
Proof.
  split.
  - intros Hnone. unfold sync_season. rewrite Hnone. reflexivity.
  - intros season pre post event key msgs db1 db2 e Hs Hf Hpre Hkey Hev.
    unfold sync_season. rewrite Hs. unfold bind at 1, lift. rewrite Hf.
    unfold bind at 1. cbn [Py.iter]. rewrite sync_season_loop_app.
    rewrite (bind_ok _ _ _ _ _ Hpre). cbn [sync_season_loop].
    unfold bind at 1, lift. rewrite Hkey.
    now rewrite (bind_raise _ _ _ _ _ Hev).
Qed.

Lemma sync_season_stops_at_first_failure_witness :
  @sync_season Sample.lib More.fetch More.seasons 7 Sample.db_abc
  = (Raise (Exception (JStr "Invalid endpoint")),
     (@sync_event Sample.lib More.fetch 7 "2024pahat" Sample.db_abc).2).
Proof.
  destruct (@sync_season_stops_at_first_failure Sample.lib More.fetch More.seasons 7
              Sample.db_abc) as [_ Hstop].
  apply (Hstop {| Season.season := "2024" |}
           [JObj [("key", JStr "2024pahat")]] [JObj [("key", JStr "2024pahat")]]
           (JObj [("key", JStr "2024nope")]) (JStr "2024nope")
           (match (@sync_season_loop Sample.lib More.fetch 7
                     [JObj [("key", JStr "2024pahat")]] "" Sample.db_abc).1 with
            | Ok m => m
            | Raise _ => ""
            end)
           (@sync_event Sample.lib More.fetch 7 "2024pahat" Sample.db_abc).2).
  - reflexivity.
  - vm_compute. reflexivity.
  - vm_compute. reflexivity.
  - reflexivity.
  - vm_compute. reflexivity.
Defined.

(** X18: however [sync_season] ends, every event row that existed before
    the call is still there with the season it had: syncing a season never
    moves an event of another season into it. *)
Theorem sync_season_keeps_seasons `{PyLib} (fetch : string -> result json)
    (seasons : gmap Z Season.row) (season_id : Z) (db db' : DB) (r : result string)
    (id : Z) (e : Event.row) :
  sync_season fetch seasons season_id db = (r, db') ->
  events db !! id = Some e ->
  exists e' : Event.row,
    events db' !! id = Some e' /\ Event.season e' = Event.season e.
Proof.
  intros Hrun. revert id e. change (seasons_kept db db').
  unfold sync_season in Hrun. destruct (seasons !! season_id) as [season|].
  2: { injection Hrun as <- <-. apply seasons_kept_refl. }
  revert Hrun. revert db db' r. change (keeps seasons_kept
    (let! request := lift (fetch (tba_url +:+ "/team/frc3492/events/"
                                    +:+ Season.season season)) in
     let! evs := lift (Py.iter request) in
     sync_season_loop fetch season_id evs "")).
  apply keeps_bind; [exact seasons_kept_trans | | intros request].
  { now apply keeps_lift, seasons_kept_refl. }
  apply keeps_bind; [exact seasons_kept_trans | | intros evs].
  { now apply keeps_lift, seasons_kept_refl. }
  apply sync_season_loop_seasons_kept.
Qed.

Lemma sync_season_keeps_seasons_witness :
  exists e' : Event.row,
    events (@sync_season Sample.lib More.fetch
              (<[ 8 := {| Season.season := "2024" |} ]> More.seasons) 8 Sample.db_abc).2 !! 1
      = Some e'
    /\ Event.season e' = 7.
Proof.
  apply (@sync_season_keeps_seasons Sample.lib More.fetch
           (<[ 8 := {| Season.season := "2024" |} ]> More.seasons) 8 Sample.db_abc
           (@sync_season Sample.lib More.fetch
              (<[ 8 := {| Season.season := "2024" |} ]> More.seasons) 8 Sample.db_abc).2
           (@sync_season Sample.lib More.fetch
              (<[ 8 := {| Season.season := "2024" |} ]> More.seasons) 8 Sample.db_abc).1
           1 Sample.event_row).
  - vm_compute. reflexivity.
  - reflexivity.
Defined.

(** ** [get_events_for_team] *)

Section EventsForTeamFacts.
Context `{PyLib}.
Variable fetch : string -> result json.

Lemma get_events_for_team_loop_ok (ignore : option (list string)) (request : list json)
    (entries : list EventEntry) :
  get_events_for_team_loop fetch ignore request = Ok entries
  <-> Forall2 (event_entry fetch ignore) request entries.
Proof.
  revert entries. induction request as [|ev rest IH]; intros entries;
    cbn [get_events_for_team_loop].
  - split; [intros [= <-]; constructor | intros Hf; inversion Hf; reflexivity].
  - split.
    + destruct ignore as [cds|]; cbn [rbind].
      * destruct (Py.getitem ev "key") as [key|] eqn:Hkey; [|discriminate]. cbn [rbind].
        destruct (not_in_codes key cds) eqn:Hin.
        -- destruct (get_tba_event fetch (Py.str key)) as [d|] eqn:Hd; [|discriminate].
           cbn [rbind].
           destruct (get_events_for_team_loop fetch (Some cds) rest) as [parsed|];
             [|discriminate].
           intros [= <-]. constructor; [|now apply IH].
           exists key. split; [exact Hkey|]. split; [|exact Hd].
           intros cds' [= <-]. exact Hin.
        -- destruct (get_events_for_team_loop fetch (Some cds) rest) as [parsed|];
             [|discriminate].
           intros [= <-]. constructor; [|now apply IH].
           exists key. split; [exact Hkey|]. split; [reflexivity|]. eauto.
      * destruct (Py.getitem ev "key") as [key|] eqn:Hkey; [|discriminate]. cbn [rbind].
        destruct (get_tba_event fetch (Py.str key)) as [d|] eqn:Hd; [|discriminate].
        cbn [rbind].
        destruct (get_events_for_team_loop fetch None rest) as [parsed|]; [|discriminate].
        intros [= <-]. constructor; [|now apply IH].
        exists key. split; [exact Hkey|]. split; [discriminate | exact Hd].
    + intros Hf. inversion Hf as [|? entry ? entries' (key & Hkey & Hentry) Hrest]; subst.
      apply IH in Hrest. rewrite Hrest. destruct entry as [d|k].
      * destruct Hentry as [Hin Hd].
        destruct ignore as [cds|]; cbn [rbind]; rewrite Hkey; cbn [rbind].
        -- rewrite (Hin cds eq_refl), Hd. reflexivity.
        -- rewrite Hd. reflexivity.
      * destruct Hentry as (-> & cds & -> & Hin). cbn [rbind]. rewrite Hkey. cbn [rbind].
        rewrite Hin. reflexivity.
Qed.

End EventsForTeamFacts.

(** X19: when the remote API answers with a list of events,
    [get_events_for_team] returns exactly when every event has a key and
    every event that is not to be ignored can be fetched, and then its result
    has one entry per remote event, in the same order: the fetched event for
    a key that is not ignored (all of them when there is no list of codes),
    the bare key for an ignored one. *)
Theorem get_events_for_team_ok `{PyLib} (fetch : string -> result json)
    (team_no : Z) (season : Season.row) (ignore : option (list string))
    (request : list json) (entries : list EventEntry) :
  fetch (tba_url +:+ "/team/frc" +:+ pretty team_no +:+ "/events/" +:+ Season.season season)
    = Ok (JList request) ->
  (get_events_for_team fetch team_no season ignore = Ok entries
   <-> Forall2 (event_entry fetch ignore) request entries).
Proof.
  intros Hf. unfold get_events_for_team. rewrite Hf. cbn [rbind Py.iter].
  apply get_events_for_team_loop_ok.
Qed.

Lemma get_events_for_team_ok_witness :
  Forall2 (@event_entry Sample.lib More.fetch (Some ["2024nope"]))
    [JObj [("key", JStr "2024pahat")]; JObj [("key", JStr "2024nope")];
     JObj [("key", JStr "2024pahat")]]
    [Fetched Sample.event_data; Ignored (JStr "2024nope"); Fetched Sample.event_data].
Proof.
  apply (@get_events_for_team_ok Sample.lib More.fetch 3492 {| Season.season := "2024" |}).
  - vm_compute. reflexivity.
  - vm_compute. reflexivity.
Defined.

(** X20: the events whose code is to be ignored are not fetched: when every
    remote event has a string key that is among the codes to ignore,
    [get_events_for_team] returns the bare keys whatever the remote API would
    answer for the events themselves. *)
Theorem get_events_for_team_all_ignored `{PyLib} (fetch : string -> result json)
    (team_no : Z) (season : Season.row) (cds : list string) (request : list json) :
  fetch (tba_url +:+ "/team/frc" +:+ pretty team_no +:+ "/events/" +:+ Season.season season)
    = Ok (JList request) ->
  Forall (fun event_requested =>
            exists s : string,
              Py.getitem event_requested "key" = Ok (JStr s) /\ In s cds) request ->
  exists entries : list EventEntry,
    get_events_for_team fetch team_no season (Some cds) = Ok entries
    /\ Forall2 (fun event_requested entry =>
                  exists s : string,
                    Py.getitem event_requested "key" = Ok (JStr s)
                    /\ entry = Ignored (JStr s)) request entries.
Proof.
  intros Hf Hall. unfold get_events_for_team. rewrite Hf. cbn [rbind Py.iter].
  clear Hf. induction Hall as [|ev rest Hev _ IH].
  - exists []. split; [reflexivity | constructor].
  - destruct Hev as (s & Hkey & Hin). destruct IH as (entries & Hloop & Hentries).
    exists (Ignored (JStr s) :: entries). split.
    + cbn [get_events_for_team_loop rbind]. rewrite Hkey. cbn [rbind not_in_codes].
      assert (Hex : existsb (String.eqb s) cds = true).
      { apply existsb_exists. exists s. split; [exact Hin | apply String.eqb_refl]. }
      rewrite Hex. cbn [negb]. rewrite Hloop. reflexivity.
    + constructor; [eauto | exact Hentries].
Qed.

Lemma get_events_for_team_all_ignored_witness :
  exists entries : list EventEntry,
    @get_events_for_team Sample.lib
      (fun url =>
         if String.eqb url (tba_url +:+ "/team/frc3492/events/2024")
         then Ok (JList [JObj [("key", JStr "2024nope")]])
         else Raise (RequestError "offline"))
      3492 {| Season.season := "2024" |} (Some ["2024nope"]) = Ok entries
    /\ entries = [Ignored (JStr "2024nope")].
Proof.
  destruct (@get_events_for_team_all_ignored Sample.lib
              (fun url =>
                 if String.eqb url (tba_url +:+ "/team/frc3492/events/2024")
                 then Ok (JList [JObj [("key", JStr "2024nope")]])
                 else Raise (RequestError "offline"))
              3492 {| Season.season := "2024" |} ["2024nope"]
              [JObj [("key", JStr "2024nope")]])
    as (entries & Hrun & Hentries).
  - vm_compute. reflexivity.
  - constructor; [|constructor]. exists "2024nope". split; [reflexivity|]. left. reflexivity.
  - exists entries. split; [exact Hrun|].
    vm_compute in Hrun. now injection Hrun as <-.
Defined.

(** ** [get_tba_event_team_info] *)

Section TeamInfoFacts.

Lemma rbind_inv_ok {A B} (r : result A) (k : A -> result B) (b : B) :
  rbind r k = Ok b -> exists a, r = Ok a /\ k a = Ok b.
Proof. destruct r as [a|e]; [eauto | discriminate]. Qed.

Lemma team_info_entry (info : json) (t : TeamInfo.t) :
  team_info info = Ok t -> ranking_entry info t.
Proof.
  unfold team_info. intros Hentry.
  apply rbind_inv_ok in Hentry as (? & _ & Hentry).
  apply rbind_inv_ok in Hentry as (? & _ & Hentry).
  apply rbind_inv_ok in Hentry as (? & _ & Hentry).
  apply rbind_inv_ok in Hentry as (? & _ & Hentry).
  apply rbind_inv_ok in Hentry as (? & _ & Hentry).
  apply rbind_inv_ok in Hentry as (? & _ & Hentry).
  apply rbind_inv_ok in Hentry as (? & _ & Hentry).
  apply rbind_inv_ok in Hentry as (team_key & Hkey & Hentry).
  apply rbind_inv_ok in Hentry as (team_id & Hid & Hentry).
  injection Hentry as <-.
  destruct team_key as [| | |key| |]; try discriminate Hid. injection Hid as <-.
  exists key. split; [exact Hkey | reflexivity].
Qed.

Lemma team_infos_entries (rankings : list json) (ret : list TeamInfo.t) :
  team_infos rankings = Ok ret -> Forall2 ranking_entry rankings ret.
Proof.
  revert ret. induction rankings as [|info rest IH]; intros ret; cbn [team_infos].
  - intros [= <-]. constructor.
  - destruct (team_info info) as [entry|] eqn:Hentry; [|discriminate]. cbn [rbind].
    destruct (team_infos rest) as [ret'|]; [|discriminate]. intros [= <-].
    constructor; [now apply team_info_entry | now apply IH].
Qed.

End TeamInfoFacts.

(** X21: for a ranking that is an object, [get_tba_event_team_info] takes
    wins, losses and ties from its record, with 0 for what the record lacks,
    and takes 0 for all three when the record is null; but when the ranking
    has no [record] at all the default 0 passes the test for [None] and the
    lookup that follows raises [KeyError]. *)
Theorem team_info_record (kvs : list (string * json)) :
  (Py.assoc "record" kvs = None ->
   team_info (JObj kvs) = Raise (KeyError (JStr "record")))
  /\ (forall key : string,
        Py.assoc "record" kvs = Some JNull ->
        Py.assoc "team_key" kvs = Some (JStr key) ->
        exists t : TeamInfo.t,
          team_info (JObj kvs) = Ok t
          /\ TeamInfo.losses t = JNum 0 /\ TeamInfo.wins t = JNum 0
          /\ TeamInfo.ties t = JNum 0
          /\ TeamInfo.team_id t = replace_frc_in_str key)
  /\ (forall (record : list (string * json)) (key : string),
        Py.assoc "record" kvs = Some (JObj record) ->
        Py.assoc "team_key" kvs = Some (JStr key) ->
        exists t : TeamInfo.t,
          team_info (JObj kvs) = Ok t
          /\ TeamInfo.losses t = default (JNum 0) (Py.assoc "losses" record)
          /\ TeamInfo.wins t = default (JNum 0) (Py.assoc "wins" record)
          /\ TeamInfo.ties t = default (JNum 0) (Py.assoc "ties" record)
          /\ TeamInfo.team_id t = replace_frc_in_str key).
Proof.
  split; [|split].
  - intros Hnone. unfold team_info, record_field. cbn [rbind Py.get Py.getitem].
    rewrite Hnone. reflexivity.
  - intros key Hnull Hkey. unfold team_info, record_field. cbn [rbind Py.get Py.getitem].
    rewrite Hnull, Hkey. cbn. eexists. split; [reflexivity|]. auto.
  - intros record key Hrec Hkey. unfold team_info, record_field.
    cbn [rbind Py.get Py.getitem]. rewrite Hrec, Hkey. cbn. eexists.
    split; [reflexivity|]. auto.
Qed.

Lemma team_info_record_witness :
  team_info (JObj [("team_key", JStr "frc3492"); ("rank", JNum 1)])
  = Raise (KeyError (JStr "record"))
  /\ exists t : TeamInfo.t,
       team_info (More.ranking "frc3493" JNull) = Ok t
       /\ TeamInfo.wins t = JNum 0
       /\ TeamInfo.team_id t = "3493".
Proof.
  split.
  - destruct (team_info_record [("team_key", JStr "frc3492"); ("rank", JNum 1)])
      as (Hmissing & _).
    apply Hmissing. reflexivity.
  - destruct (team_info_record
                [("team_key", JStr "frc3493"); ("rank", JNum 1); ("matches_played", JNum 10);
                 ("record", JNull); ("dq", JNum 0)]) as (_ & Hnull & _).
    destruct (Hnull "frc3493") as (t & Ht & _ & Hw & _ & Hid); [reflexivity ..|].
    exists t. auto.
Defined.

(** X22: when the remote API answers with an object,
    [get_tba_event_team_info] returns the empty list when the object has no
    [rankings], raises when its [rankings] is null, and for a list of
    rankings returns, when it returns, one entry per ranking, in the same
    order, whose team id is the team key of the ranking without ["frc"]. *)
Theorem get_tba_event_team_info_rankings (fetch : string -> result json)
    (event_cd : string) (kvs : list (string * json)) :
  fetch (tba_url +:+ "/event/" +:+ event_cd +:+ "/rankings") = Ok (JObj kvs) ->
  (Py.assoc "rankings" kvs = None -> get_tba_event_team_info fetch event_cd = Ok [])
  /\ (Py.assoc "rankings" kvs = Some JNull ->
      get_tba_event_team_info fetch event_cd
      = Raise (TypeError "'NoneType' object is not iterable"))
  /\ (forall (rankings : list json) (ret : list TeamInfo.t),
        Py.assoc "rankings" kvs = Some (JList rankings) ->
        get_tba_event_team_info fetch event_cd = Ok ret ->
        Forall2 ranking_entry rankings ret).
Proof.
  intros Hf. unfold get_tba_event_team_info. rewrite Hf. cbn [rbind Py.get].
  split; [|split].
  - intros ->. reflexivity.
  - intros ->. reflexivity.
  - intros rankings ret ->. cbn [default rbind Py.iter]. apply team_infos_entries.
Qed.

Lemma get_tba_event_team_info_rankings_witness :
  exists ret : list TeamInfo.t,
    get_tba_event_team_info More.fetch "2024pahat" = Ok ret
    /\ Forall2 ranking_entry
         [More.ranking "frc3492" (JObj [("wins", JNum 8); ("losses", JNum 2)]);
          More.ranking "frc3493" JNull] ret.
Proof.
  destruct (get_tba_event_team_info_rankings More.fetch "2024pahat"
              [("rankings",
                JList [More.ranking "frc3492" (JObj [("wins", JNum 8); ("losses", JNum 2)]);
                       More.ranking "frc3493" JNull])]) as (_ & _ & Hlist).
  - vm_compute. reflexivity.
  - eexists. split; [vm_compute; reflexivity|].
    apply Hlist; [reflexivity | vm_compute; reflexivity].
Defined.

(** ** [get_tba_event]: the time zone *)

Lemma strptime_astimezone_zone `{PyLib} (v time_zone : json) (dt : Datetime) :
  strptime_astimezone v time_zone = Ok dt -> time_zone = JStr (zone dt).
Proof.
  unfold strptime_astimezone. destruct v; try discriminate.
  destruct (strptime_local s); [|discriminate]. cbn.
  destruct time_zone; try discriminate. destruct (tz_known s0); [|discriminate].
  intros [= <-]. reflexivity.
Qed.

(** what a fetched event was built from, as far as the zone goes *)
Lemma get_tba_event_zone_inv `{PyLib} (fetch : string -> result json) (event_cd : string)
    (kvs : list (string * json)) (d : EventData.t) :
  fetch (tba_url +:+ "/event/" +:+ event_cd) = Ok (JObj kvs) ->
  get_tba_event fetch event_cd = Ok d ->
  event_zone kvs = JStr (zone (EventData.date_st d))
  /\ event_zone kvs = JStr (zone (EventData.date_end d))
  /\ EventData.timezone d = default (JStr "America/New_York") (Py.assoc "timezone" kvs).
Proof.
  intros Hf. unfold get_tba_event. rewrite Hf. cbn [rbind Py.get Py.getitem].
  destruct (negb (Py.is_none (default JNull (Py.assoc "Error" kvs)))).
  { destruct (Py.assoc "Error" kvs); discriminate. }
  assert (Hz : (if negb (Py.is_none (default JNull (Py.assoc "timezone" kvs)))
                then default JNull (Py.assoc "timezone" kvs)
                else JStr "America/New_York") = event_zone kvs).
  { unfold event_zone. destruct (Py.assoc "timezone" kvs) as [[]|]; reflexivity. }
  rewrite Hz. intros Hrun.
  apply rbind_inv_ok in Hrun as (name & _ & Hrun).
  apply rbind_inv_ok in Hrun as (start_date & _ & Hrun).
  apply rbind_inv_ok in Hrun as (date_st & Hst & Hrun).
  apply rbind_inv_ok in Hrun as (end_date & _ & Hrun).
  apply rbind_inv_ok in Hrun as (date_end & Hend & Hrun).
  apply rbind_inv_ok in Hrun as (key & _ & Hrun).
  apply rbind_inv_ok in Hrun as (webcast_url & _ & Hrun).
  injection Hrun as <-. cbn.
  apply strptime_astimezone_zone in Hst, Hend. auto.
Qed.

(** X23: the dates of a fetched event are in the zone the remote event
    names and in America/New_York when it names none or null; the [timezone]
    of the result is the named zone, America/New_York when the remote event
    has no [timezone], but [None] when its [timezone] is null. *)
Theorem get_tba_event_zone `{PyLib} (fetch : string -> result json) (event_cd : string)
    (kvs : list (string * json)) (d : EventData.t) :
  fetch (tba_url +:+ "/event/" +:+ event_cd) = Ok (JObj kvs) ->
  get_tba_event fetch event_cd = Ok d ->
  (Py.assoc "timezone" kvs = None ->
   EventData.timezone d = JStr "America/New_York"
   /\ zone (EventData.date_st d) = "America/New_York"
   /\ zone (EventData.date_end d) = "America/New_York")
  /\ (Py.assoc "timezone" kvs = Some JNull ->
      EventData.timezone d = JNull
      /\ zone (EventData.date_st d) = "America/New_York"
      /\ zone (EventData.date_end d) = "America/New_York")
  /\ (forall z : string,
        Py.assoc "timezone" kvs = Some (JStr z) ->
        EventData.timezone d = JStr z
        /\ zone (EventData.date_st d) = z
        /\ zone (EventData.date_end d) = z).
Proof.
  intros Hf Hrun.
  destruct (get_tba_event_zone_inv fetch event_cd kvs d Hf Hrun) as (Hst & Hend & Htz).
  unfold event_zone in Hst, Hend. rewrite Htz.
  split; [|split].
  - intros Hnone. rewrite Hnone in *. cbn. split; [reflexivity|]. split; congruence.
  - intros Hnull. rewrite Hnull in *. cbn. split; [reflexivity|]. split; congruence.
  - intros z Hz. rewrite Hz in *. cbn. split; [reflexivity|]. split; congruence.
Qed.

Lemma get_tba_event_zone_witness :
  exists d : EventData.t,
    @get_tba_event Sample.lib
      (fun _ => Ok (JObj [("key", JStr "2024pahat"); ("name", JStr "Hatboro-Horsham");
                          ("start_date", JStr "2024-03-15"); ("end_date", JStr "2024-03-17");
                          ("timezone", JNull); ("webcasts", JList [])]))
      "2024pahat" = Ok d
    /\ EventData.timezone d = JNull
    /\ zone (EventData.date_st d) = "America/New_York".
Proof.
  eexists. split; [vm_compute; reflexivity|].
  destruct (@get_tba_event_zone Sample.lib
              (fun _ => Ok (JObj [("key", JStr "2024pahat"); ("name", JStr "Hatboro-Horsham");
                                  ("start_date", JStr "2024-03-15");
                                  ("end_date", JStr "2024-03-17");
                                  ("timezone", JNull); ("webcasts", JList [])]))
              "2024pahat"
              [("key", JStr "2024pahat"); ("name", JStr "Hatboro-Horsham");
               ("start_date", JStr "2024-03-15"); ("end_date", JStr "2024-03-17");
               ("timezone", JNull); ("webcasts", JList [])]
              _ eq_refl ltac:(vm_compute; reflexivity)) as (_ & Hnull & _).
  destruct (Hnull eq_refl) as (Htz & Hzone & _). split; [exact Htz | exact Hzone].
Defined.
